(** * Booking backend: the Express route of [src/server.js] and the
      serverless handler of [src/unnamed/part_000]

    Both files carry the same three helpers ([isEmail], [mustString],
    [toIsoOrNull]) and the same booking flow: validate and normalise the
    payload, ask the calendar whether the interval is busy, insert the
    event, optionally delete the availability placeholder.

    The development follows the code:
    - JavaScript strings are sequences of UTF-16 code units;
    - JavaScript numbers are binary64 values ([spec_float] of the standard
      library, precision 53, maximal exponent 1024);
    - the request payload is an untyped JSON value, and [undefined] is the
      absence of a value;
    - a [Date] is its time value, and the string [toISOString] gives is
      held as the instant it denotes;
    - what ECMAScript leaves to the engine and to the environment
      ([Date.parse] beyond the ISO format, the local time zone, the
      rendering of numbers) is a parameter, the class [Host];
    - the calendar client is an interface of three awaited calls, each of
      which returns or throws; a handler is a script over that interface,
      and a run of a script against a calendar yields the calls made and
      the response.

    Layout: the model of the two files; the vocabulary of the properties;
    the facts about patterns, about binary64 arithmetic on integers and
    about [setMinutes]; the handlers step by step; the properties. *)

From Stdlib Require Import ZArith NArith List Bool Lia String Ascii.
From Stdlib Require Import Floats.SpecFloat.
Import ListNotations.

Set Implicit Arguments.
Set Warnings "-register-all".
Local Open Scope Z_scope.

(* ================================================================== *)
(** * Strings *)
(* ================================================================== *)

(** A JavaScript string: its UTF-16 code units. *)
Definition code_unit := N.
Definition jsstring := list code_unit.

(** An ASCII literal of the source, as code units. *)
Fixpoint lit (s : string) : jsstring :=
  match s with
  | EmptyString => []
  | String a r => N_of_ascii a :: lit r
  end.

Fixpoint jsstring_eqb (a b : jsstring) : bool :=
  match a, b with
  | [], [] => true
  | x :: a', y :: b' => N.eqb x y && jsstring_eqb a' b'
  | _, _ => false
  end.

(** [WhiteSpace] and [LineTerminator] of ECMAScript: what [\s] matches in a
    regular expression and what [String.prototype.trim] strips. *)
Definition isWhiteSpace (c : code_unit) : bool :=
  (  N.eqb c 0x0009 || N.eqb c 0x000A || N.eqb c 0x000B || N.eqb c 0x000C
  || N.eqb c 0x000D || N.eqb c 0x0020 || N.eqb c 0x00A0 || N.eqb c 0x1680
  || (N.leb 0x2000 c && N.leb c 0x200A)
  || N.eqb c 0x2028 || N.eqb c 0x2029 || N.eqb c 0x202F || N.eqb c 0x205F
  || N.eqb c 0x3000 || N.eqb c 0xFEFF)%N.

Fixpoint trimStart (s : jsstring) : jsstring :=
  match s with
  | [] => []
  | c :: r => if isWhiteSpace c then trimStart r else s
  end.

Definition trimEnd (s : jsstring) : jsstring := rev (trimStart (rev s)).

(** [s.trim()] *)
Definition trim (s : jsstring) : jsstring := trimEnd (trimStart s).

(* ================================================================== *)
(** * Regular expressions *)
(* ================================================================== *)

(** The fragment of the pattern language that [isEmail] uses: character
    classes, concatenation and [+]; alternation and [*] complete the
    algebra.  Matching is by Brzozowski derivatives. *)
Module Regex.

Inductive t : Type :=
| Void
| Eps
| Class (p : code_unit -> bool)
| Cat (r1 r2 : t)
| Alt (r1 r2 : t)
| Star (r : t).

(** [r+] *)
Definition Plus (r : t) : t := Cat r (Star r).

(** [x], one literal character *)
Definition Char (x : code_unit) : t := Class (N.eqb x).

Fixpoint nullable (r : t) : bool :=
  match r with
  | Void => false
  | Eps => true
  | Class _ => false
  | Cat r1 r2 => nullable r1 && nullable r2
  | Alt r1 r2 => nullable r1 || nullable r2
  | Star _ => true
  end.

Fixpoint deriv (c : code_unit) (r : t) : t :=
  match r with
  | Void => Void
  | Eps => Void
  | Class p => if p c then Eps else Void
  | Cat r1 r2 =>
      if nullable r1 then Alt (Cat (deriv c r1) r2) (deriv c r2)
      else Cat (deriv c r1) r2
  | Alt r1 r2 => Alt (deriv c r1) (deriv c r2)
  | Star r1 => Cat (deriv c r1) (Star r1)
  end.

(** Does [r] match the whole of [s]? *)
Fixpoint matchb (r : t) (s : jsstring) : bool :=
  match s with
  | [] => nullable r
  | c :: s' => matchb (deriv c r) s'
  end.

(** The language of a pattern. *)
Inductive Matches : t -> jsstring -> Prop :=
| MEps : Matches Eps []
| MClass p c : p c = true -> Matches (Class p) [c]
| MCat r1 r2 s1 s2 :
    Matches r1 s1 -> Matches r2 s2 -> Matches (Cat r1 r2) (s1 ++ s2)
| MAltL r1 r2 s : Matches r1 s -> Matches (Alt r1 r2) s
| MAltR r1 r2 s : Matches r2 s -> Matches (Alt r1 r2) s
| MStar0 r : Matches (Star r) []
| MStarS r s1 s2 :
    Matches r s1 -> Matches (Star r) s2 -> Matches (Star r) (s1 ++ s2).

End Regex.

(** [/^[^\s@]+@[^\s@]+\.[^\s@]+$/]: the anchors [^] and [$], without the
    [m] flag, make [test] succeed exactly when the body matches the whole
    input. *)
Definition notSpaceOrAt (c : code_unit) : bool :=
  negb (isWhiteSpace c || N.eqb c 0x40%N (* @ *)).

Definition email_pattern : Regex.t :=
  Regex.Cat (Regex.Plus (Regex.Class notSpaceOrAt))
    (Regex.Cat (Regex.Char 0x40%N (* @ *))
       (Regex.Cat (Regex.Plus (Regex.Class notSpaceOrAt))
          (Regex.Cat (Regex.Char 0x2E%N (* . *))
             (Regex.Plus (Regex.Class notSpaceOrAt))))).

Definition email_test (s : jsstring) : bool := Regex.matchb email_pattern s.

(* ================================================================== *)
(** * Numbers *)
(* ================================================================== *)

(** A JavaScript Number is an IEEE 754 binary64 value, in the canonical
    form of [spec_float]: what [Num.of_Z], the arithmetic and
    [Number(string)] below produce. *)
Definition number := spec_float.

Module Num.

Definition prec : Z := 53.
Definition emax : Z := 1024.

Definition nan : number := S754_nan.
Definition infinity (negative : bool) : number := S754_infinity negative.

(** The Number value of an integer (exact below 2^53, rounded to nearest,
    ties to even, above). *)
Definition of_Z (z : Z) : number := binary_normalize prec emax z 0 false.

Definition add (x y : number) : number := SFadd prec emax x y.
Definition sub (x y : number) : number := SFsub prec emax x y.
Definition mul (x y : number) : number := SFmul prec emax x y.

Definition is_finite (x : number) : bool :=
  match x with
  | S754_zero _ | S754_finite _ _ _ => true
  | S754_infinity _ | S754_nan => false
  end.

Definition is_nan (x : number) : bool :=
  match x with S754_nan => true | _ => false end.

(** [ToBoolean]: NaN, +0 and -0 are falsy. *)
Definition truthy (x : number) : bool :=
  match x with
  | S754_nan | S754_zero _ => false
  | S754_infinity _ | S754_finite _ _ _ => true
  end.

(** [ToIntegerOrInfinity] on a finite number: truncation towards zero
    (NaN gives 0 too; the callers below test for infinities first, as
    [MakeTime] and [TimeClip] do). *)
Definition truncate (x : number) : Z :=
  match x with
  | S754_finite s m e => cond_Zopp s (Z.shiftl (Zpos m) e)
  | _ => 0
  end.

(** [abs(x) > bound] for a finite [x] and an integer [bound], on the real
    value [m * 2^e] of the number. *)
Definition abs_gt (x : number) (bound : Z) : bool :=
  match x with
  | S754_finite _ m e =>
      if 0 <=? e then bound <? Zpos m * 2 ^ e
      else bound * 2 ^ (- e) <? Zpos m
  | _ => false
  end.

(** The quotient of two positive integers, rounded to nearest, ties to
    even. *)
Definition of_ratio (negative : bool) (num den : positive) : number :=
  let '(q, e, l) := SFdiv_core_binary prec emax (Zpos num) 0 (Zpos den) 0 in
  binary_round_aux prec emax negative q e l.

(** [digits * 10^exp10], rounded. *)
Definition of_decimal (negative : bool) (digits : Z) (exp10 : Z) : number :=
  match digits with
  | Zpos d =>
      match exp10 with
      | Zneg k => of_ratio negative d (Pos.pow 10 k)
      | _ => binary_normalize prec emax
               (cond_Zopp negative (Zpos d * 10 ^ exp10)) 0 negative
      end
  | _ => S754_zero negative
  end.

(** ** [Number(string)]: the [StringToNumber] conversion

    Leading and trailing white space is dropped; the empty string is +0;
    then come [Infinity] with an optional sign, the hexadecimal, octal
    and binary integer literals (unsigned), and the decimal literals
    with optional sign, fraction and exponent.  Anything else is NaN.
    The value of a literal is rounded to nearest, ties to even (an engine
    may round a literal of more than twenty significant digits from its
    first twenty; that leeway is not taken here). *)

Definition digit_of (radix : N) (c : code_unit) : option Z :=
  let v :=
    (if (0x30 <=? c) && (c <=? 0x39) then Some (c - 0x30)
     else if (0x61 <=? c) && (c <=? 0x66) then Some (c - 0x61 + 10)
     else if (0x41 <=? c) && (c <=? 0x46) then Some (c - 0x41 + 10)
     else None)%N in
  match v with
  | Some d => if (d <? radix)%N then Some (Z.of_N d) else None
  | None => None
  end.

(** The longest prefix of digits: its value, its length, the rest. *)
Fixpoint span_digits (radix : N) (acc : Z) (len : Z) (s : jsstring)
  : Z * Z * jsstring :=
  match s with
  | c :: r =>
      match digit_of radix c with
      | Some d => span_digits radix (acc * Z.of_N radix + d) (len + 1) r
      | None => (acc, len, s)
      end
  | [] => (acc, len, [])
  end.

Definition split_sign (s : jsstring) : bool * jsstring :=
  match s with
  | 0x2B%N :: r => (false, r)   (* + *)
  | 0x2D%N :: r => (true, r)    (* - *)
  | _ => (false, s)
  end.

(** An integer literal in the given radix, all of [s]. *)
Definition radix_literal (radix : N) (s : jsstring) : number :=
  match span_digits radix 0 0 s with
  | (v, len, []) => if 0 <? len then of_Z v else nan
  | _ => nan
  end.

(** The exponent part, all of [s]: empty, or [e] or [E], an optional
    sign and at least one digit. *)
Definition exponent_part (s : jsstring) : option Z :=
  match s with
  | [] => Some 0
  | c :: r =>
      if (N.eqb c 0x65 || N.eqb c 0x45)%N then
        let '(neg, r') := split_sign r in
        match span_digits 10 0 0 r' with
        | (v, len, []) => if 0 <? len then Some (cond_Zopp neg v) else None
        | _ => None
        end
      else None
  end.

Definition decimal_literal (s : jsstring) : number :=
  let '(neg, u) := split_sign s in
  if jsstring_eqb u (lit "Infinity") then infinity neg else
  let '(ip, ilen, r1) := span_digits 10 0 0 u in
  let '(digits, flen, r2) :=
    match r1 with
    | 0x2E%N :: r => span_digits 10 ip 0 r   (* . *)
    | _ => (ip, 0, r1)
    end in
  let has_point := match r1 with 0x2E%N :: _ => true | _ => false end in
  if (0 <? ilen) || (has_point && (0 <? flen)) then
    match exponent_part r2 with
    | Some e => of_decimal neg digits (e - flen)
    | None => nan
    end
  else nan.

Definition StringToNumber (str : jsstring) : number :=
  match trim str with
  | [] => S754_zero false
  | 0x30%N :: p :: r =>
      if (N.eqb p 0x78 || N.eqb p 0x58)%N then radix_literal 16 r
      else if (N.eqb p 0x6F || N.eqb p 0x4F)%N then radix_literal 8 r
      else if (N.eqb p 0x62 || N.eqb p 0x42)%N then radix_literal 2 r
      else decimal_literal (trim str)
  | s => decimal_literal s
  end.

End Num.

(** [Number(s)] on a string. *)
Definition Number (s : jsstring) : number := Num.StringToNumber s.

(** [Number(x) || 60] and the like: the left operand unless it is falsy. *)
Definition number_or (x y : number) : number :=
  if Num.truthy x then x else y.

(* ================================================================== *)
(** * JSON values *)
(* ================================================================== *)

(** What [express.json()] (or the platform's body parser) hands over. *)
Inductive JSON : Type :=
| JNull
| JBool (b : bool)
| JNum (n : number)
| JStr (s : jsstring)
| JArr (items : list JSON)
| JObj (members : list (jsstring * JSON)).

(** A JavaScript value that may be [undefined]: [None] is [undefined]. *)
Definition value := option JSON.

Definition truthy (v : value) : bool :=
  match v with
  | None | Some JNull => false
  | Some (JBool b) => b
  | Some (JNum n) => Num.truthy n
  | Some (JStr s) => negb (jsstring_eqb s [])
  | Some (JArr _) | Some (JObj _) => true
  end.

Fixpoint lookup {A : Type} (key : jsstring) (members : list (jsstring * A))
  : option A :=
  match members with
  | [] => None
  | (k, v) :: r => if jsstring_eqb k key then Some v else lookup key r
  end.

(** [o.key] for a value [o] that is neither [null] nor [undefined].  The
    names the handlers read ([slot], [customer], [title], [startIso],
    [endIso], [availabilityEventId], [name], [phone], [email], [notes]) are
    not properties of strings, numbers, booleans or arrays, nor of
    [Object.prototype], so the read is [undefined] unless [o] is an object
    that has the member.  (The members of a parsed object have distinct
    names.) *)
Definition get (o : JSON) (key : string) : value :=
  match o with
  | JObj members => lookup (lit key) members
  | _ => None
  end.

(** [v || {}] *)
Definition or_empty_object (v : value) : JSON :=
  match v with
  | Some j => if truthy v then j else JObj []
  | None => JObj []
  end.

(* ================================================================== *)
(** * The host: what ECMAScript leaves to the engine and its environment *)
(* ================================================================== *)

Class Host : Type := {
  (** [Date.parse] on a string: the time value, NaN when the string is not
      recognised.  Beyond the ISO format the accepted formats are
      implementation-defined. *)
  Date_parse : jsstring -> number;
  (** [LocalTZA(t, isUTC)]: the offset of the process's local time zone in
      milliseconds, at the UTC time value [t] ([isUTC = true]) or at the
      local time value [t] ([isUTC = false]). *)
  LocalTZA : Z -> bool -> Z;
  (** [Number::toString], the decimal rendering of a Number. *)
  Number_toString : number -> jsstring
}.

Section Conversions.
Context {host : Host}.

Fixpoint join (sep : jsstring) (parts : list jsstring) : jsstring :=
  match parts with
  | [] => []
  | [p] => p
  | p :: r => p ++ sep ++ join sep r
  end.

Fixpoint sequence {A : Type} (l : list (option A)) : option (list A) :=
  match l with
  | [] => Some []
  | Some a :: r =>
      match sequence r with Some r' => Some (a :: r') | None => None end
  | None :: _ => None
  end.

(** [ToString] of a JSON value; [None] is a thrown [TypeError].  An
    object converts through [Object.prototype.toString] unless a member
    named [toString] hides it (a JSON member is never callable); an
    array converts through [join], in which [null] elements are empty. *)
Fixpoint ToString (v : JSON) : option jsstring :=
  match v with
  | JNull => Some (lit "null")
  | JBool true => Some (lit "true")
  | JBool false => Some (lit "false")
  | JNum n => Some (Number_toString n)
  | JStr s => Some s
  | JArr items =>
      option_map (join (lit ","))
        (sequence
           (map (fun x => match x with JNull => Some [] | _ => ToString x end)
              items))
  | JObj members =>
      match lookup (lit "toString") members with
      | Some _ => None
      | None => Some (lit "[object Object]")
      end
  end.

End Conversions.

(* ================================================================== *)
(** * Dates *)
(* ================================================================== *)

(** A [Date] object is its time value: [None] for NaN, otherwise an
    integral number of milliseconds since the epoch within [±8.64e15]. *)
Definition Date := option Z.

(** The string [d.toISOString()] is held as the instant it denotes: the
    format is fixed, with one string per time value, and [new Date] of that
    string has the same time value again (ECMA-262, [Date.parse]). *)
Definition IsoString := Z.

Module Time.

Definition HoursPerDay : Z := 24.
Definition MinutesPerHour : Z := 60.
Definition SecondsPerMinute : Z := 60.
Definition msPerSecond : Z := 1000.
Definition msPerMinute : Z := 60000.
Definition msPerHour : Z := 3600000.
Definition msPerDay : Z := 86400000.
Definition maxTime : Z := 8640000000000000.

Definition Day (t : Z) : Z := t / msPerDay.
Definition HourFromTime (t : Z) : Z := (t / msPerHour) mod HoursPerDay.
Definition MinFromTime (t : Z) : Z := (t / msPerMinute) mod MinutesPerHour.
Definition SecFromTime (t : Z) : Z := (t / msPerSecond) mod SecondsPerMinute.
Definition msFromTime (t : Z) : Z := t mod msPerSecond.

Definition MakeTime (hour min sec ms : number) : number :=
  if Num.is_finite hour && Num.is_finite min
     && Num.is_finite sec && Num.is_finite ms then
    let h := Num.of_Z (Num.truncate hour) in
    let m := Num.of_Z (Num.truncate min) in
    let s := Num.of_Z (Num.truncate sec) in
    let milli := Num.of_Z (Num.truncate ms) in
    Num.add
      (Num.add
         (Num.add (Num.mul h (Num.of_Z msPerHour))
                  (Num.mul m (Num.of_Z msPerMinute)))
         (Num.mul s (Num.of_Z msPerSecond)))
      milli
  else Num.nan.

Definition MakeDate (day time : number) : number :=
  if Num.is_finite day && Num.is_finite time then
    let tv := Num.add (Num.mul day (Num.of_Z msPerDay)) time in
    if Num.is_finite tv then tv else Num.nan
  else Num.nan.

Definition TimeClip (time : number) : Date :=
  if Num.is_finite time then
    if Num.abs_gt time maxTime then None
    else Some (Num.truncate time)
  else None.

Section Local.
Context {host : Host}.

(** [LocalTime(t) = t + LocalTZA(t, true)]; the sum of two integral
    Numbers is integral, and [Num.truncate] reads it back. *)
Definition LocalTime (t : Z) : Z :=
  Num.truncate (Num.add (Num.of_Z t) (Num.of_Z (LocalTZA t true))).

(** [UTC(t) = t - LocalTZA(t, false)] *)
Definition UTC (t : number) : number :=
  if Num.is_finite t then
    Num.sub t (Num.of_Z (LocalTZA (Num.truncate t) false))
  else Num.nan.
End Local.

End Time.

Section DateObject.
Context {host : Host}.

(** [new Date(value)] with one argument; [None] is a thrown
    [TypeError] (from the conversion of an object to a primitive). *)
Definition new_Date (v : value) : option Date :=
  match v with
  | None => Some None
  | Some JNull => Some (Time.TimeClip (S754_zero false))
  | Some (JBool b) => Some (Time.TimeClip (Num.of_Z (if b then 1 else 0)))
  | Some (JNum n) => Some (Time.TimeClip n)
  | Some (JStr s) => Some (Time.TimeClip (Date_parse s))
  | Some (JArr _ as o) | Some (JObj _ as o) =>
      match ToString o with
      | Some s => Some (Time.TimeClip (Date_parse s))
      | None => None
      end
  end.

(** [new Date(iso)] on a string that [toISOString] produced. *)
Definition new_Date_of_iso (iso : IsoString) : Date := Some iso.

(** [d.getMinutes()] *)
Definition getMinutes (d : Date) : number :=
  match d with
  | None => Num.nan
  | Some t => Num.of_Z (Time.MinFromTime (Time.LocalTime t))
  end.

(** [d.setMinutes(min)]: the date after the call. *)
Definition setMinutes (d : Date) (min : number) : Date :=
  match d with
  | None => None
  | Some t =>
      let t := Time.LocalTime t in
      let s := Num.of_Z (Time.SecFromTime t) in
      let milli := Num.of_Z (Time.msFromTime t) in
      let date :=
        Time.MakeDate (Num.of_Z (Time.Day t))
          (Time.MakeTime (Num.of_Z (Time.HourFromTime t)) min s milli) in
      Time.TimeClip (Time.UTC date)
  end.

(** [d.toISOString()]: throws a [RangeError] ([None]) on an invalid
    date. *)
Definition toISOString (d : Date) : option IsoString := d.

(** The helper of both files:
<<
 function toIsoOrNull(s) {
   try {
     const d = new Date(s);
     if (Number.isNaN(d.getTime())) return null;
     return d.toISOString();
   } catch { return null; }
 }
>>
*)
Definition toIsoOrNull (s : value) : option IsoString :=
  match new_Date s with
  | Some d =>
      match d with
      | None => None
      | Some _ => toISOString d
      end
  | None => None
  end.

End DateObject.

(** [typeof s === "string" && s.trim().length > 0] *)
Definition mustString (s : value) : bool :=
  match s with
  | Some (JStr x) => (0 <? List.length (trim x))%nat
  | _ => false
  end.

(** [typeof s === "string" && /^[^\s@]+@[^\s@]+\.[^\s@]+$/.test(s)] *)
Definition isEmail (s : value) : bool :=
  match s with
  | Some (JStr x) => email_test x
  | _ => false
  end.

(* ================================================================== *)
(** * The calendar client *)
(* ================================================================== *)

(** [calendar.freebusy.query({ requestBody })] *)
Record FreeBusyRequest : Type := {
  timeMin : IsoString;
  timeMax : IsoString;
  timeZone : jsstring;
  items : list jsstring          (* [{ id }] *)
}.

Record TimePeriod : Type := { period_start : jsstring; period_end : jsstring }.

Record FreeBusyCalendar : Type := { busy : option (list TimePeriod) }.

Record FreeBusyResponse : Type := {
  calendars : option (list (jsstring * FreeBusyCalendar))
}.

(** The envelope the client resolves with: [{ data }]. *)
Record Reply (T : Type) : Type := { data : option T }.

Record EventDateTime : Type := { dateTime : IsoString; dt_timeZone : jsstring }.

(** [calendar.events.insert({ calendarId, requestBody, sendUpdates })] *)
Record InsertRequest : Type := {
  ins_calendarId : jsstring;
  summary : jsstring;
  description : jsstring;
  start : EventDateTime;
  end_ : EventDateTime;
  attendees : list value;        (* [{ email }] *)
  ins_sendUpdates : jsstring
}.

Record Event : Type := { id : option jsstring; htmlLink : option jsstring }.

(** [calendar.events.delete({ calendarId, eventId, sendUpdates })] *)
Record DeleteRequest : Type := {
  del_calendarId : jsstring;
  eventId : value;
  del_sendUpdates : jsstring
}.

(** An awaited call returns or throws. *)
Inductive Outcome (A : Type) : Type :=
| Returned (a : A)
| Thrown.
Arguments Thrown {A}.

(** A script: the handler's code as far as the calendar can see it.  It
    ends with a value or with an uncaught exception, or awaits one of the
    three calls and goes on with the outcome. *)
Inductive Script (A : Type) : Type :=
| Return (a : A)
| Throw
| FreebusyQuery (q : FreeBusyRequest)
    (k : Outcome (option (Reply FreeBusyResponse)) -> Script A)
| EventsInsert (q : InsertRequest)
    (k : Outcome (option (Reply Event)) -> Script A)
| EventsDelete (q : DeleteRequest) (k : Outcome unit -> Script A).
Arguments Throw {A}.

Module ScriptOps.

Fixpoint bind {A B : Type} (m : Script A) (f : A -> Script B) : Script B :=
  match m with
  | Return a => f a
  | Throw => Throw
  | FreebusyQuery q k => FreebusyQuery q (fun o => bind (k o) f)
  | EventsInsert q k => EventsInsert q (fun o => bind (k o) f)
  | EventsDelete q k => EventsDelete q (fun o => bind (k o) f)
  end.

(** [try { m } catch { h }] *)
Fixpoint try_catch {A : Type} (m : Script A) (h : Script A) : Script A :=
  match m with
  | Return a => Return a
  | Throw => h
  | FreebusyQuery q k => FreebusyQuery q (fun o => try_catch (k o) h)
  | EventsInsert q k => EventsInsert q (fun o => try_catch (k o) h)
  | EventsDelete q k => EventsDelete q (fun o => try_catch (k o) h)
  end.

(** [await call]: the value, or the exception rethrown. *)
Definition settle {A : Type} (o : Outcome A) : Script A :=
  match o with
  | Returned a => Return a
  | Thrown => Throw
  end.

Definition freebusy_query (q : FreeBusyRequest) := FreebusyQuery q settle.
Definition events_insert (q : InsertRequest) := EventsInsert q settle.
Definition events_delete (q : DeleteRequest) := EventsDelete q settle.

(** A step that throws when it has no value. *)
Definition or_throw {A : Type} (o : option A) : Script A :=
  match o with
  | Some a => Return a
  | None => Throw
  end.

End ScriptOps.
Import ScriptOps.

Declare Scope script_scope.
Delimit Scope script_scope with script.
Notation "x <- m ;; k" := (bind m (fun x => k))
  (at level 100, m at next level, right associativity) : script_scope.
Notation "m ;;; k" := (bind m (fun _ => k))
  (at level 100, right associativity) : script_scope.

(** ** Running a script against a calendar *)

(** One call as the calendar saw it, with what it answered. *)
Inductive Call : Type :=
| QueryCall (q : FreeBusyRequest) (o : Outcome (option (Reply FreeBusyResponse)))
| InsertCall (q : InsertRequest) (o : Outcome (option (Reply Event)))
| DeleteCall (q : DeleteRequest) (o : Outcome unit).

(** A calendar (the real service or a fake): each call answers from the
    state of the world and changes it. *)
Record Calendar (World : Type) : Type := {
  on_query : FreeBusyRequest -> World ->
             Outcome (option (Reply FreeBusyResponse)) * World;
  on_insert : InsertRequest -> World ->
              Outcome (option (Reply Event)) * World;
  on_delete : DeleteRequest -> World -> Outcome unit * World
}.

(** The calls made, in order, and the result ([None]: an exception left
    the script). *)
Fixpoint run {World A : Type} (cal : Calendar World) (m : Script A) (w : World)
  : list Call * option A :=
  match m with
  | Return a => ([], Some a)
  | Throw => ([], None)
  | FreebusyQuery q k =>
      let '(o, w') := on_query cal q w in
      let '(calls, r) := run cal (k o) w' in
      (QueryCall q o :: calls, r)
  | EventsInsert q k =>
      let '(o, w') := on_insert cal q w in
      let '(calls, r) := run cal (k o) w' in
      (InsertCall q o :: calls, r)
  | EventsDelete q k =>
      let '(o, w') := on_delete cal q w in
      let '(calls, r) := run cal (k o) w' in
      (DeleteCall q o :: calls, r)
  end.

Definition calls_of {World A} (cal : Calendar World) (m : Script A) (w : World)
  : list Call := fst (run cal m w).

Definition result_of {World A} (cal : Calendar World) (m : Script A) (w : World)
  : option A := snd (run cal m w).

Definition is_insert (c : Call) : bool :=
  match c with InsertCall _ _ => true | _ => false end.
Definition is_delete (c : Call) : bool :=
  match c with DeleteCall _ _ => true | _ => false end.

(* ================================================================== *)
(** * Requests, responses, configuration *)
(* ================================================================== *)

Record Request : Type := {
  method : jsstring;             (* [req.method] *)
  body : value                   (* [req.body] *)
}.

(** [res.status(code).json(body)], or [.end()] without a body. *)
Record Response : Type := {
  status : Z;
  payload : option JSON
}.

Definition json (code : Z) (j : JSON) : Response :=
  {| status := code; payload := Some j |}.

(** [{ error: message }] *)
Definition error (message : string) : JSON :=
  JObj [(lit "error", JStr (lit message))].

(** [process.env]: each variable is a string or is not set. *)
Record Env : Type := {
  GOOGLE_CLIENT_ID : option jsstring;
  GOOGLE_CLIENT_SECRET : option jsstring;
  GOOGLE_REDIRECT_URI : option jsstring;
  GOOGLE_REFRESH_TOKEN : option jsstring;
  GOOGLE_CALENDAR_ID : option jsstring;
  TIMEZONE : option jsstring;
  BOOKING_DURATION_MINUTES : option jsstring;
  DELETE_AVAILABILITY : option jsstring
}.

(** [const { X = "dflt" } = process.env]: the default stands in for a
    variable that is not set (and only then). *)
Definition default (v : option jsstring) (dflt : string) : jsstring :=
  match v with
  | Some s => s
  | None => lit dflt
  end.

(** [!val] on a variable: not set, or empty. *)
Definition missing (v : option jsstring) : bool :=
  match v with
  | Some (_ :: _) => false
  | _ => true
  end.

(** [x || null] on a string that may be absent, as a JSON member. *)
Definition or_null (x : option jsstring) : JSON :=
  match x with
  | Some (c :: s) => JStr (c :: s)
  | _ => JNull
  end.

(** [s.trim()] on a value: a [TypeError] unless [s] is a string. *)
Definition call_trim (s : value) : Script jsstring :=
  match s with
  | Some (JStr x) => Return (trim x)
  | _ => Throw
  end.

Section Template.
Context {host : Host}.

(** [`${v}`] *)
Definition template (v : value) : Script jsstring :=
  match v with
  | None => Return (lit "undefined")
  | Some j => or_throw (ToString j)
  end.
End Template.

(** [fb?.data?.calendars?.[id]?.busy || []]; an array is always truthy. *)
Definition busy_of (fb : option (Reply FreeBusyResponse)) (id : jsstring)
  : list TimePeriod :=
  match fb with
  | Some {| data := Some {| calendars := Some cs |} |} =>
      match lookup id cs with
      | Some {| busy := Some b |} => b
      | _ => []
      end
  | _ => []
  end.

(** [created?.data?.id] and [created?.data?.htmlLink] *)
Definition created_id (created : option (Reply Event)) : option jsstring :=
  match created with
  | Some {| data := Some e |} => id e
  | _ => None
  end.

Definition created_htmlLink (created : option (Reply Event)) : option jsstring :=
  match created with
  | Some {| data := Some e |} => htmlLink e
  | _ => None
  end.

(** The configuration both files read, with the defaults of their
    destructuring [const { ... } = process.env]. *)
Module Config.
Definition calendar_id (env : Env) : jsstring :=
  default (GOOGLE_CALENDAR_ID env) "primary".
Definition timezone (env : Env) : jsstring :=
  default (TIMEZONE env) "America/New_York".
Definition booking_duration_minutes (env : Env) : jsstring :=
  default (BOOKING_DURATION_MINUTES env) "60".
Definition delete_availability (env : Env) : jsstring :=
  default (DELETE_AVAILABILITY env) "false".
End Config.

Section Fallback.
Context {host : Host}.

(** [Number(BOOKING_DURATION_MINUTES) || 60] *)
Definition minutes_of (BOOKING_DURATION_MINUTES : jsstring) : number :=
  number_or (Number BOOKING_DURATION_MINUTES) (Num.of_Z 60).

(** The block both files run when [endIso] is null:
<<
    const d = new Date(startIso);
    const minutes = Number(BOOKING_DURATION_MINUTES) || 60;
    d.setMinutes(d.getMinutes() + minutes);
    endIso = d.toISOString();
>>
    [None] is the [RangeError] of [toISOString] on an invalid date. *)
Definition fallback_end (startIso : IsoString)
    (BOOKING_DURATION_MINUTES : jsstring) : option IsoString :=
  let d := new_Date_of_iso startIso in
  let minutes := minutes_of BOOKING_DURATION_MINUTES in
  let d := setMinutes d (Num.add (getMinutes d) minutes) in
  toISOString d.
End Fallback.

(** The dash of the event summary: U+2014 in [src/unnamed/part_000]; in
    [src/server.js] the three characters U+00E2 U+20AC U+201D stand in its
    place. *)
(** The separator of [descriptionLines.join("\n")]. *)
Definition newline : jsstring := [0x000A%N].

Definition em_dash : jsstring := [0x2014%N].
Definition server_js_dash : jsstring := [0x00E2%N; 0x20AC%N; 0x201D%N].

Local Open Scope script_scope.

(* ================================================================== *)
(** * [src/server.js]: [app.post("/api/book", ...)] *)
(* ================================================================== *)

Module Server.
Section WithHost.
Context {host : Host}.

(** [requireEnv] at start-up: the server does not start without the four
    OAuth variables. *)
Definition requireEnv (val : option jsstring) : option unit :=
  if missing val then None else Some tt.

Definition starts (env : Env) : bool :=
  match requireEnv (GOOGLE_CLIENT_ID env),
        requireEnv (GOOGLE_CLIENT_SECRET env),
        requireEnv (GOOGLE_REDIRECT_URI env),
        requireEnv (GOOGLE_REFRESH_TOKEN env) with
  | Some _, Some _, Some _, Some _ => true
  | _, _, _, _ => false
  end.

(** Lines 116-179: from the customer check to the success response,
    once [title], [startIso] and [endIso] are fixed. *)
Definition book_slot (env : Env) (slot customer : JSON) (title : jsstring)
    (startIso endIso : IsoString) : Script Response :=
  if negb (mustString (get customer "name"))
     || negb (mustString (get customer "phone"))
     || negb (isEmail (get customer "email")) then
    Return (json 400 (error "Please provide name, phone, and a valid email."))
  else
    (* 1) FreeBusy check (avoid double booking) *)
    fb <- freebusy_query
            {| timeMin := startIso;
               timeMax := endIso;
               timeZone := Config.timezone env;
               items := [Config.calendar_id env] |} ;;
    let busy := busy_of fb (Config.calendar_id env) in
    if (0 <? List.length busy)%nat then
      Return (json 409
                (error "That slot was just booked. Please pick another time."))
    else
      (* 2) Create the booked event *)
      name <- template (get customer "name") ;;
      phone <- template (get customer "phone") ;;
      email <- template (get customer "email") ;;
      let descriptionLines :=
        [ lit "Booked via website";
          [];
          lit "Player: " ++ name;
          lit "Phone: " ++ phone;
          lit "Email: " ++ email ] in
      descriptionLines <-
        (if mustString (get customer "notes") then
           notes <- call_trim (get customer "notes") ;;
           Return (descriptionLines ++ [[]; lit "Notes:"; notes])
         else Return descriptionLines) ;;
      created <- events_insert
            {| ins_calendarId := Config.calendar_id env;
               summary :=
                 lit "BOOKED: " ++ title ++ lit " " ++ server_js_dash
                   ++ lit " " ++ name;
               description := join newline descriptionLines;
               start := {| dateTime := startIso;
                           dt_timeZone := Config.timezone env |};
               end_ := {| dateTime := endIso;
                          dt_timeZone := Config.timezone env |};
               attendees := [get customer "email"];
               ins_sendUpdates := lit "all" |} ;;
      (* 3) Optional: delete the availability event *)
      (if jsstring_eqb (Config.delete_availability env) (lit "true")
          && mustString (get slot "availabilityEventId") then
         try_catch
           (events_delete
              {| del_calendarId := Config.calendar_id env;
                 eventId := get slot "availabilityEventId";
                 del_sendUpdates := lit "none" |})
           (Return tt)
       else Return tt) ;;;
      Return (json 200
                (JObj [ (lit "ok", JBool true);
                        (lit "eventId", or_null (created_id created));
                        (lit "htmlLink", or_null (created_htmlLink created)) ])).

(** Lines 94-183, the route handler. *)
Definition post_api_book (env : Env) (req : Request) : Script Response :=
  try_catch
    (let body := or_empty_object (body req) in
     let slot := or_empty_object (get body "slot") in
     let customer := or_empty_object (get body "customer") in
     title <- (if mustString (get slot "title")
               then call_trim (get slot "title")
               else Return (lit "Training Session")) ;;
     let startIso := toIsoOrNull (get slot "startIso") in
     let endIso := toIsoOrNull (get slot "endIso") in
     match startIso with
     | None => Return (json 400 (error "Invalid start time."))
     | Some startIso =>
         (* If the availability blocks don't have explicit end times,
            fall back to a fixed duration. *)
         endIso <- match endIso with
                   | Some e => Return e
                   | None =>
                       or_throw
                         (fallback_end startIso
                            (Config.booking_duration_minutes env))
                   end ;;
         book_slot env slot customer title startIso endIso
     end)
    (Return (json 500 (error "Server error creating booking."))).

End WithHost.
End Server.

(* ================================================================== *)
(** * [src/unnamed/part_000]: the serverless [handler] *)
(* ================================================================== *)

Module Serverless.
Section WithHost.
Context {host : Host}.

(** Lines 62-133: from the customer check to the success response. *)
Definition book_slot (env : Env) (slot customer : JSON) (title : jsstring)
    (startIso endIso : IsoString) : Script Response :=
  if negb (mustString (get customer "name"))
     || negb (mustString (get customer "phone"))
     || negb (isEmail (get customer "email")) then
    Return (json 400 (error "Please provide name, phone, and a valid email."))
  else
    (* The OAuth client and the calendar client of lines 66-74 are built
       here, from the configuration alone. *)
    (* 1) FreeBusy check to prevent double-booking *)
    fb <- freebusy_query
            {| timeMin := startIso;
               timeMax := endIso;
               timeZone := Config.timezone env;
               items := [Config.calendar_id env] |} ;;
    let busy := busy_of fb (Config.calendar_id env) in
    if (0 <? List.length busy)%nat then
      Return (json 409
                (error "That slot was just booked. Please pick another time."))
    else
      (* 2) Create the booked event (and invite customer) *)
      name <- template (get customer "name") ;;
      phone <- template (get customer "phone") ;;
      email <- template (get customer "email") ;;
      let descriptionLines :=
        [ lit "Booked via website";
          [];
          lit "Player: " ++ name;
          lit "Phone: " ++ phone;
          lit "Email: " ++ email ] in
      descriptionLines <-
        (if mustString (get customer "notes") then
           notes <- call_trim (get customer "notes") ;;
           Return (descriptionLines ++ [[]; lit "Notes:"; notes])
         else Return descriptionLines) ;;
      created <- events_insert
            {| ins_calendarId := Config.calendar_id env;
               summary :=
                 lit "BOOKED: " ++ title ++ lit " " ++ em_dash
                   ++ lit " " ++ name;
               description := join newline descriptionLines;
               start := {| dateTime := startIso;
                           dt_timeZone := Config.timezone env |};
               end_ := {| dateTime := endIso;
                          dt_timeZone := Config.timezone env |};
               attendees := [get customer "email"];
               ins_sendUpdates := lit "all" |} ;;
      (* 3) Optional: delete the availability event that was clicked *)
      (if jsstring_eqb (Config.delete_availability env) (lit "true")
          && mustString (get slot "availabilityEventId") then
         try_catch
           (events_delete
              {| del_calendarId := Config.calendar_id env;
                 eventId := get slot "availabilityEventId";
                 del_sendUpdates := lit "none" |})
           (Return tt)
       else Return tt) ;;;
      Return (json 200
                (JObj [ (lit "ok", JBool true);
                        (lit "eventId", or_null (created_id created));
                        (lit "htmlLink", or_null (created_htmlLink created)) ])).

(** Lines 19-137. *)
Definition handler (env : Env) (req : Request) : Script Response :=
  (* Optional: allow preflight *)
  if jsstring_eqb (method req) (lit "OPTIONS") then
    Return {| status := 204; payload := None |}
  else if negb (jsstring_eqb (method req) (lit "POST")) then
    Return (json 405 (error "Method not allowed"))
  else
    try_catch
      (if missing (GOOGLE_CLIENT_ID env) || missing (GOOGLE_CLIENT_SECRET env)
          || missing (GOOGLE_REDIRECT_URI env)
          || missing (GOOGLE_REFRESH_TOKEN env) then
         Return (json 500
                   (error "Server not configured (missing Google OAuth env vars)."))
       else
         (* Parse body *)
         let body := or_empty_object (body req) in
         let slot := or_empty_object (get body "slot") in
         let customer := or_empty_object (get body "customer") in
         title <- (if mustString (get slot "title")
                   then call_trim (get slot "title")
                   else Return (lit "Training Session")) ;;
         let startIso := toIsoOrNull (get slot "startIso") in
         let endIso := toIsoOrNull (get slot "endIso") in
         match startIso with
         | None => Return (json 400 (error "Invalid start time."))
         | Some startIso =>
             (* If no end was provided by the calendar event, default to
                a fixed duration *)
             endIso <- match endIso with
                       | Some e => Return e
                       | None =>
                           or_throw
                             (fallback_end startIso
                                (Config.booking_duration_minutes env))
                       end ;;
             book_slot env slot customer title startIso endIso
         end)
      (Return (json 500 (error "Server error creating booking."))).

End WithHost.
End Serverless.


(* ================================================================== *)
(** * Test doubles: a host and calendars for the examples *)
(* ================================================================== *)

Module Fake.

(** Day number of the first day of year [y] (ECMA-262, [DayFromYear]). *)
Definition DayFromYear (y : Z) : Z :=
  365 * (y - 1970) + (y - 1969) / 4 - (y - 1901) / 100 + (y - 1601) / 400.

Definition InLeapYear (y : Z) : bool :=
  (y mod 4 =? 0) && (negb (y mod 100 =? 0) || (y mod 400 =? 0)).

Definition DaysInMonth (y m : Z) : Z :=
  if m =? 2 then (if InLeapYear y then 29 else 28)
  else if (m =? 4) || (m =? 6) || (m =? 9) || (m =? 11) then 30
  else 31.

(** Days of the year before the first of month [m] (1 to 12). *)
Definition days_before_month (y m : Z) : Z :=
  nth (Z.to_nat (m - 1)) [0; 31; 59; 90; 120; 151; 181; 212; 243; 273; 304; 334] 0
  + (if InLeapYear y && (2 <? m) then 1 else 0).

(** Exactly [n] decimal digits at the head of [s]. *)
Fixpoint digits (n : nat) (acc : Z) (s : jsstring) : option (Z * jsstring) :=
  match n with
  | O => Some (acc, s)
  | S n' =>
      match s with
      | c :: r =>
          match Num.digit_of 10 c with
          | Some d => digits n' (acc * 10 + d) r
          | None => None
          end
      | [] => None
      end
  end.

Definition expect (c : code_unit) (s : jsstring) : option jsstring :=
  match s with
  | x :: r => if N.eqb x c then Some r else None
  | [] => None
  end.

Definition and_then {A B : Type} (o : option A) (f : A -> option B) : option B :=
  match o with
  | Some a => f a
  | None => None
  end.

(** The year of the ISO format: four digits, or a sign and six digits
    ([-000000] is not a year). *)
Definition iso_year (s : jsstring) : option (Z * jsstring) :=
  match s with
  | 0x2B%N :: r => digits 6 0 r
  | 0x2D%N :: r =>
      and_then (digits 6 0 r)
        (fun '(y, r') => if y =? 0 then None else Some (- y, r'))
  | _ => digits 4 0 s
  end.

(** [YYYY-MM-DDTHH:mm:ss.sssZ], the milliseconds being optional: the time
    value, [None] for any other string. *)
Definition iso_utc (s : jsstring) : option Z :=
  and_then (iso_year s) (fun '(y, s) =>
  and_then (expect 0x2D%N s) (fun s =>
  and_then (digits 2 0 s) (fun '(mo, s) =>
  and_then (expect 0x2D%N s) (fun s =>
  and_then (digits 2 0 s) (fun '(d, s) =>
  and_then (expect 0x54%N s) (fun s =>
  and_then (digits 2 0 s) (fun '(h, s) =>
  and_then (expect 0x3A%N s) (fun s =>
  and_then (digits 2 0 s) (fun '(mi, s) =>
  and_then (expect 0x3A%N s) (fun s =>
  and_then (digits 2 0 s) (fun '(sec, s) =>
  and_then (match s with
            | 0x2E%N :: r => digits 3 0 r
            | _ => Some (0, s)
            end) (fun '(ms, s) =>
  match s with
  | [0x5A%N] =>
      if (1 <=? mo) && (mo <=? 12) && (1 <=? d) && (d <=? DaysInMonth y mo)
         && (h <=? 23) && (mi <=? 59) && (sec <=? 59) then
        Some ((DayFromYear y + days_before_month y mo + d - 1) * Time.msPerDay
              + h * Time.msPerHour + mi * Time.msPerMinute
              + sec * Time.msPerSecond + ms)
      else None
  | _ => None
  end)))))))))))).

(** Decimal digits of a positive integer, most significant first; [fuel]
    bounds their number. *)
Fixpoint decimal (fuel : nat) (z : Z) (acc : jsstring) : jsstring :=
  match fuel with
  | O => acc
  | S f =>
      let acc' := (0x30 + Z.to_N (z mod 10))%N :: acc in
      if z <? 10 then acc' else decimal f (z / 10) acc'
  end.

(** A host in the UTC time zone whose [Date.parse] reads the ISO format in
    UTC and nothing else, and whose [Number::toString] renders integers
    (the fraction of another number is dropped). *)
Definition utc_host : Host := {|
  Date_parse := fun s =>
    match iso_utc s with
    | Some t => Num.of_Z t
    | None => Num.nan
    end;
  LocalTZA := fun _ _ => 0;
  Number_toString := fun n =>
    match n with
    | S754_nan => lit "NaN"
    | S754_infinity s => (if s then lit "-" else []) ++ lit "Infinity"
    | _ =>
        let z := Num.truncate n in
        (if z <? 0 then lit "-" else []) ++ decimal 400 (Z.abs z) []
    end
|}.

(** A host whose zone leaves daylight saving time at the instant
    [transition]: four hours behind UTC before it, five hours after.  A
    local time that occurs twice is read with the offset before the
    transition. *)
Definition autumn_host (transition : Z) : Host := {|
  Date_parse := Date_parse (Host := utc_host);
  LocalTZA := fun t isUTC =>
    if isUTC then
      if t <? transition then - 4 * Time.msPerHour else - 5 * Time.msPerHour
    else
      if t <? transition - 4 * Time.msPerHour then - 4 * Time.msPerHour
      else - 5 * Time.msPerHour;
  Number_toString := Number_toString (Host := utc_host)
|}.

(** A calendar that gives the same three answers whatever it is asked. *)
Definition calendar
    (queried : Outcome (option (Reply FreeBusyResponse)))
    (inserted : Outcome (option (Reply Event)))
    (deleted : Outcome unit) : Calendar unit := {|
  on_query := fun _ w => (queried, w);
  on_insert := fun _ w => (inserted, w);
  on_delete := fun _ w => (deleted, w)
|}.

(** A free/busy answer for calendar [id] with the given busy periods. *)
Definition freebusy (id : string) (periods : list TimePeriod)
  : Outcome (option (Reply FreeBusyResponse)) :=
  Returned (Some {| data := Some {| calendars :=
    Some [(lit id, {| busy := Some periods |})] |} |}).

Definition one_period : TimePeriod :=
  {| period_start := lit "2025-03-01T10:00:00Z";
     period_end := lit "2025-03-01T11:00:00Z" |}.

(** The event the calendar answers an insert with. *)
Definition event (id link : option jsstring) : Outcome (option (Reply Event)) :=
  Returned (Some {| data := Some {| id := id; htmlLink := link |} |}).

Definition created_event : Outcome (option (Reply Event)) :=
  event (Some (lit "evt123"))
        (Some (lit "https://calendar.example/event?eid=evt123")).

(** The four OAuth variables set, the rest left to their defaults but for
    the two given. *)
Definition env (duration delete_flag : option jsstring) : Env := {|
  GOOGLE_CLIENT_ID := Some (lit "client-id");
  GOOGLE_CLIENT_SECRET := Some (lit "client-secret");
  GOOGLE_REDIRECT_URI := Some (lit "https://booking.example/oauth2callback");
  GOOGLE_REFRESH_TOKEN := Some (lit "refresh-token");
  GOOGLE_CALENDAR_ID := None;
  TIMEZONE := None;
  BOOKING_DURATION_MINUTES := duration;
  DELETE_AVAILABILITY := delete_flag
|}.

Definition default_env : Env := env None None.

Definition str (s : string) : JSON := JStr (lit s).

Definition customer (name phone email : string) : JSON :=
  JObj [(lit "name", str name); (lit "phone", str phone);
        (lit "email", str email)].

Definition jane : JSON := customer "Jane" "555-1234" "jane@example.com".

(** [POST] with [{ slot, customer }]. *)
Definition post (slot customer : JSON) : Request :=
  {| method := lit "POST";
     body := Some (JObj [(lit "slot", slot); (lit "customer", customer)]) |}.

(** The scenario of the specification:
    [{slot:{startIso:"2025-03-01T10:00:00Z"}, customer:{name:"Jane",
    phone:"555-1234", email:"jane@example.com"}}]. *)
Definition scenario : Request :=
  post (JObj [(lit "startIso", str "2025-03-01T10:00:00Z")]) jane.

End Fake.




(* ================================================================== *)
(** * The vocabulary of the properties *)
(* ================================================================== *)

(** The two entry points. *)
Inductive Endpoint : Type :=
| ExpressRoute          (* src/server.js, POST /api/book *)
| ServerlessFunction.   (* src/unnamed/part_000, handler *)

(** The four OAuth variables are set and not empty. *)
Definition configured (env : Env) : bool :=
  negb (missing (GOOGLE_CLIENT_ID env) || missing (GOOGLE_CLIENT_SECRET env)
        || missing (GOOGLE_REDIRECT_URI env)
        || missing (GOOGLE_REFRESH_TOKEN env)).

Section Endpoints.
Context {host : Host}.

Definition serve (p : Endpoint) (env : Env) (req : Request) : Script Response :=
  match p with
  | ExpressRoute => Server.post_api_book env req
  | ServerlessFunction => Serverless.handler env req
  end.

Definition book_slot (p : Endpoint) :=
  match p with
  | ExpressRoute => Server.book_slot
  | ServerlessFunction => Serverless.book_slot
  end.

End Endpoints.

(** A request is a booking request for an endpoint when its payload gets
    looked at: the Express router hands the route only [POST /api/book]
    and the server starts only when configured; the serverless function
    lets through [POST] on a configured deployment. *)
Definition booking_request (p : Endpoint) (env : Env) (req : Request) : Prop :=
  match p with
  | ExpressRoute => True
  | ServerlessFunction => method req = lit "POST" /\ configured env = true
  end.

(** The dash each file puts in the summary. *)
Definition dash_of (p : Endpoint) : jsstring :=
  match p with
  | ExpressRoute => server_js_dash
  | ServerlessFunction => em_dash
  end.

(** [slot] and [customer] of a request: [body.slot || {}] and
    [body.customer || {}] of [req.body || {}]. *)
Definition slot_of (req : Request) : JSON :=
  or_empty_object (get (or_empty_object (body req)) "slot").

Definition customer_of (req : Request) : JSON :=
  or_empty_object (get (or_empty_object (body req)) "customer").

(** The title as the specification words it: [slot.title] trimmed when it
    is a string that is not blank, the placeholder otherwise. *)
Definition title_of (slot : JSON) : jsstring :=
  match get slot "title" with
  | Some (JStr s) =>
      match trim s with
      | [] => lit "Training Session"
      | t => t
      end
  | _ => lit "Training Session"
  end.

(** A value is a string that is not blank. *)
Definition nonblank (v : value) : Prop :=
  exists s, v = Some (JStr s) /\ trim s <> [].

(** The [local@domain.tld] shape: three parts without white space or [@],
    none of them empty, the first two joined by [@] and the last two by
    a dot. *)
Definition plain (s : jsstring) : Prop :=
  s <> [] /\ Forall (fun c => notSpaceOrAt c = true) s.

Definition email_shape (v : value) : Prop :=
  exists loc dom tld,
    v = Some (JStr (loc ++ [0x40%N] ++ dom ++ [0x2E%N] ++ tld))
    /\ plain loc /\ plain dom /\ plain tld.

(** The three responses of the validation and availability steps, and the
    success response for what the insert returned. *)
Definition invalid_start : Response := json 400 (error "Invalid start time.").

Definition invalid_customer : Response :=
  json 400 (error "Please provide name, phone, and a valid email.").

Definition slot_conflict : Response :=
  json 409 (error "That slot was just booked. Please pick another time.").

Definition server_error : Response :=
  json 500 (error "Server error creating booking.").

Definition success (created : option (Reply Event)) : Response :=
  json 200
    (JObj [ (lit "ok", JBool true);
            (lit "eventId", or_null (created_id created));
            (lit "htmlLink", or_null (created_htmlLink created)) ]).

(** The success response of a reading that passes [id] and [htmlLink]
    through as they are, [null] standing in only for an absent one. *)
Definition as_returned (x : option jsstring) : JSON :=
  match x with
  | Some s => JStr s
  | None => JNull
  end.

Definition success_as_returned (created : option (Reply Event)) : Response :=
  json 200
    (JObj [ (lit "ok", JBool true);
            (lit "eventId", as_returned (created_id created));
            (lit "htmlLink", as_returned (created_htmlLink created)) ]).

(** ** The three requests a booking sends *)

Definition the_query (env : Env) (startIso endIso : IsoString) : FreeBusyRequest :=
  {| timeMin := startIso;
     timeMax := endIso;
     timeZone := Config.timezone env;
     items := [Config.calendar_id env] |}.

(** The description as the specification words it. *)
Definition description_of (name phone email : jsstring) (notes : value)
  : jsstring :=
  join newline
    ([ lit "Booked via website";
       [];
       lit "Player: " ++ name;
       lit "Phone: " ++ phone;
       lit "Email: " ++ email ]
     ++ match notes with
        | Some (JStr n) =>
            match trim n with
            | [] => []
            | t => [ []; lit "Notes:"; t ]
            end
        | _ => []
        end).

(** The summary as the specification words it, for a given dash. *)
Definition summary_of (dash title name : jsstring) : jsstring :=
  lit "BOOKED: " ++ title ++ lit " " ++ dash ++ lit " " ++ name.

Definition the_insert (dash : jsstring) (env : Env) (customer : JSON)
    (title : jsstring) (name phone email : jsstring)
    (startIso endIso : IsoString) : InsertRequest :=
  {| ins_calendarId := Config.calendar_id env;
     summary := summary_of dash title name;
     description := description_of name phone email (get customer "notes");
     start := {| dateTime := startIso; dt_timeZone := Config.timezone env |};
     end_ := {| dateTime := endIso; dt_timeZone := Config.timezone env |};
     attendees := [Some (JStr email)];
     ins_sendUpdates := lit "all" |}.

Definition the_delete (env : Env) (slot : JSON) : DeleteRequest :=
  {| del_calendarId := Config.calendar_id env;
     eventId := get slot "availabilityEventId";
     del_sendUpdates := lit "none" |}.

(** The clean-up is switched on for this request. *)
Definition cleanup_enabled (env : Env) (slot : JSON) : bool :=
  jsstring_eqb (Config.delete_availability env) (lit "true")
  && mustString (get slot "availabilityEventId").

(** ** The courses a booking can take

    [Booking dash env slot customer title s e calls r]: with the start and
    end fixed, the calls [calls] are made and the response is [r].  One
    constructor per course through lines 116-179 of [src/server.js] (62-133
    of [src/unnamed/part_000]) under the handler's catch-all. *)
Inductive Booking (dash : jsstring) (env : Env) (slot customer : JSON)
    (title : jsstring) (s e : IsoString) : list Call -> Response -> Prop :=
| Rejected :
    mustString (get customer "name") && mustString (get customer "phone")
      && isEmail (get customer "email") = false ->
    Booking dash env slot customer title s e [] invalid_customer
| QueryFailed name phone email :
    get customer "name" = Some (JStr name) ->
    get customer "phone" = Some (JStr phone) ->
    get customer "email" = Some (JStr email) ->
    Booking dash env slot customer title s e
      [QueryCall (the_query env s e) Thrown] server_error
| Conflict name phone email fb :
    get customer "name" = Some (JStr name) ->
    get customer "phone" = Some (JStr phone) ->
    get customer "email" = Some (JStr email) ->
    busy_of fb (Config.calendar_id env) <> [] ->
    Booking dash env slot customer title s e
      [QueryCall (the_query env s e) (Returned fb)] slot_conflict
| InsertFailed name phone email fb :
    get customer "name" = Some (JStr name) ->
    get customer "phone" = Some (JStr phone) ->
    get customer "email" = Some (JStr email) ->
    busy_of fb (Config.calendar_id env) = [] ->
    Booking dash env slot customer title s e
      [QueryCall (the_query env s e) (Returned fb);
       InsertCall (the_insert dash env customer title name phone email s e)
         Thrown]
      server_error
| Booked name phone email fb created :
    get customer "name" = Some (JStr name) ->
    get customer "phone" = Some (JStr phone) ->
    get customer "email" = Some (JStr email) ->
    busy_of fb (Config.calendar_id env) = [] ->
    cleanup_enabled env slot = false ->
    Booking dash env slot customer title s e
      [QueryCall (the_query env s e) (Returned fb);
       InsertCall (the_insert dash env customer title name phone email s e)
         (Returned created)]
      (success created)
| BookedAndCleaned name phone email fb created deleted :
    get customer "name" = Some (JStr name) ->
    get customer "phone" = Some (JStr phone) ->
    get customer "email" = Some (JStr email) ->
    busy_of fb (Config.calendar_id env) = [] ->
    cleanup_enabled env slot = true ->
    Booking dash env slot customer title s e
      [QueryCall (the_query env s e) (Returned fb);
       InsertCall (the_insert dash env customer title name phone email s e)
         (Returned created);
       DeleteCall (the_delete env slot) deleted]
      (success created).

(** ** Properties of a trace *)

(** Every insert comes right after a free/busy query that returned with
    no busy interval for the calendar. *)
Fixpoint inserts_follow_free (id : jsstring) (previous : option Call)
    (calls : list Call) : Prop :=
  match calls with
  | [] => True
  | c :: rest =>
      (is_insert c = true ->
         match previous with
         | Some (QueryCall _ (Returned fb)) => busy_of fb id = []
         | _ => False
         end)
      /\ inserts_follow_free id (Some c) rest
  end.

(** Every delete comes right after an insert that returned. *)
Fixpoint deletes_follow_insert (previous : option Call) (calls : list Call)
  : Prop :=
  match calls with
  | [] => True
  | c :: rest =>
      (is_delete c = true ->
         match previous with
         | Some (InsertCall _ (Returned _)) => True
         | _ => False
         end)
      /\ deletes_follow_insert (Some c) rest
  end.

(** The configuration with another booking duration. *)
Definition with_duration (env : Env) (duration : option jsstring) : Env :=
  {| GOOGLE_CLIENT_ID := GOOGLE_CLIENT_ID env;
     GOOGLE_CLIENT_SECRET := GOOGLE_CLIENT_SECRET env;
     GOOGLE_REDIRECT_URI := GOOGLE_REDIRECT_URI env;
     GOOGLE_REFRESH_TOKEN := GOOGLE_REFRESH_TOKEN env;
     GOOGLE_CALENDAR_ID := GOOGLE_CALENDAR_ID env;
     TIMEZONE := TIMEZONE env;
     BOOKING_DURATION_MINUTES := duration;
     DELETE_AVAILABILITY := DELETE_AVAILABILITY env |}.

Section NormalizedEnd.
Context {host : Host}.

(** The end of the booking: the parsed [slot.endIso], or the fallback from
    the start; [None] when the fallback throws. *)
Definition end_of (env : Env) (slot : JSON) (startIso : IsoString)
  : option IsoString :=
  match toIsoOrNull (get slot "endIso") with
  | Some e => Some e
  | None => fallback_end startIso (Config.booking_duration_minutes env)
  end.

End NormalizedEnd.

Section Served.
Context {host : Host}.

(** What a booking request is answered with: the start is refused, or the
    fallback for the end throws, or the booking takes one of its courses. *)
Definition Served (p : Endpoint) (env : Env) (req : Request)
    (calls : list Call) (r : Response) : Prop :=
  match toIsoOrNull (get (slot_of req) "startIso") with
  | None => calls = [] /\ r = invalid_start
  | Some s =>
      match end_of env (slot_of req) s with
      | None => calls = [] /\ r = server_error
      | Some e =>
          Booking (dash_of p) env (slot_of req) (customer_of req)
            (title_of (slot_of req)) s e calls r
      end
  end.

End Served.

(** The five lines every description starts with. *)
Definition description_head (name phone email : jsstring) : list jsstring :=
  [ lit "Booked via website";
    [];
    lit "Player: " ++ name;
    lit "Phone: " ++ phone;
    lit "Email: " ++ email ].


(* ================================================================== *)
(** * Integers in binary64 *)
(* ================================================================== *)

(** The representation of the integers of magnitude below 2^53, on which
    the arithmetic of Numbers is exact. *)
Module Binary64.

(** [n] shifted left by [j] bits. *)
Definition shl (n : positive) (j : nat) : positive := Nat.iter j xO n.

(** The canonical mantissa and exponent of a positive integer below
    2^53. *)
Definition mantissa (n : positive) : positive :=
  shl n (Z.to_nat (53 - Zpos (digits2_pos n))).

Definition exponent (n : positive) : Z := Zpos (digits2_pos n) - 53.

(** The Number of an integer of magnitude below 2^53, spelled out. *)
Definition canonical (z : Z) : number :=
  match z with
  | Z0 => S754_zero false
  | Zpos n => S754_finite false (mantissa n) (exponent n)
  | Zneg n => S754_finite true (mantissa n) (exponent n)
  end.

Definition safe (z : Z) : Prop := Z.abs z < 2 ^ 53.

(** The integer of a sign and a magnitude. *)
Definition signed (s : bool) (n : positive) : Z := cond_Zopp s (Zpos n).

End Binary64.

(* ================================================================== *)
(** * Tactics *)
(* ================================================================== *)

(** Inversion that cleans up after itself. *)
Ltac inv H := inversion H; subst; clear H.

(** Case analysis of a membership in an explicit list of calls. *)
Ltac in_calls H :=
  cbn [In] in H;
  repeat match type of H with
         | _ \/ _ => destruct H as [H|H]
         | False => destruct H
         end;
  try discriminate H;
  try (injection H; clear H; intros; subst);
  try subst.

(** The courses of a served booking request: the start refused, the
    fallback thrown, or one of the six courses of a booking. *)
Ltac courses H :=
  unfold Served in H;
  repeat match type of H with
         | match ?x with _ => _ end => destruct x eqn:?
         end;
  [ inversion H; subst; clear H | destruct H; subst | destruct H; subst ].


(* ================================================================== *)
(** * More vocabulary: the calls of a run and the other responses *)
(* ================================================================== *)

(** Which of the three calls a call is. *)
Inductive CallKind : Type := Query | Insert | Delete.

Definition kind_of (c : Call) : CallKind :=
  match c with
  | QueryCall _ _ => Query
  | InsertCall _ _ => Insert
  | DeleteCall _ _ => Delete
  end.

(** A free/busy query or an insert that threw: the calls whose error the
    handlers do not catch on the spot. *)
Definition fatal (c : Call) : bool :=
  match c with
  | QueryCall _ Thrown | InsertCall _ Thrown => true
  | _ => false
  end.

(** The responses of the serverless handler before it reads the payload. *)
Definition no_content : Response := {| status := 204; payload := None |}.

Definition method_not_allowed : Response :=
  json 405 (error "Method not allowed").

Definition not_configured : Response :=
  json 500 (error "Server not configured (missing Google OAuth env vars).").

(** A variable that [!val] finds missing: not set, or set to the empty
    string. *)
Definition unset_or_empty (v : option jsstring) : Prop :=
  v = None \/ v = Some [].

(** The free/busy reply with the given calendars. *)
Definition reply_with (cs : list (jsstring * FreeBusyCalendar))
  : option (Reply FreeBusyResponse) :=
  Some {| data := Some {| calendars := Some cs |} |}.

(** Two insert requests that differ in the summary at most, and two calls
    that are the same but for the summary of an insert. *)
Definition same_but_summary (q q' : InsertRequest) : Prop :=
  ins_calendarId q = ins_calendarId q'
  /\ description q = description q'
  /\ start q = start q'
  /\ end_ q = end_ q'
  /\ attendees q = attendees q'
  /\ ins_sendUpdates q = ins_sendUpdates q'.

Definition same_call (c c' : Call) : Prop :=
  match c, c' with
  | InsertCall q o, InsertCall q' o' => same_but_summary q q' /\ o = o'
  | _, _ => c = c'
  end.

(** A calendar whose answer to an insert does not depend on the summary
    of the event. *)
Definition ignores_summary {World : Type} (cal : Calendar World) : Prop :=
  forall q q' w, same_but_summary q q' -> on_insert cal q w = on_insert cal q' w.


Unset Implicit Arguments.

(* ================================================================== *)
(** * Matching by derivatives is matching *)
(* ================================================================== *)

Module RegexFacts.
Import Regex.

Lemma nullable_spec (r : t) : nullable r = true <-> Matches r [].
Proof.
  induction r as [| |p|r1 IH1 r2 IH2|r1 IH1 r2 IH2|r IH]; simpl.
  - split; [discriminate | inversion 1].
  - split; [constructor | reflexivity].
  - split; [discriminate | inversion 1].
  - rewrite andb_true_iff, IH1, IH2. split.
    + intros [H1 H2]. change (@nil code_unit) with (@nil code_unit ++ []).
      now constructor.
    + intros H. inv H.
      match goal with
      | Heq : _ ++ _ = [] |- _ => apply app_eq_nil in Heq as [-> ->]
      end. auto.
  - rewrite orb_true_iff, IH1, IH2. split.
    + intros [H|H]; [now apply MAltL | now apply MAltR].
    + intros H. inv H; auto.
  - split; [constructor | reflexivity].
Qed.

(** A match of [r*] that starts with [c] starts with a match of [r] that
    starts with [c]. *)
Lemma star_cons (r : t) (c : code_unit) (s : jsstring) :
  Matches (Star r) (c :: s) ->
  exists s1 s2, s = s1 ++ s2 /\ Matches r (c :: s1) /\ Matches (Star r) s2.
Proof.
  intros H. remember (Star r) as r' eqn:Hr. remember (c :: s) as cs eqn:Hcs.
  revert s Hcs.
  induction H as [| | | | | |r0 s1 s2 H1 _ H2 IH2]; try discriminate.
  injection Hr as ->. intros s Hcs.
  destruct s1 as [|c1 s1].
  - simpl in Hcs. apply IH2; auto.
  - simpl in Hcs. injection Hcs as -> <-. exists s1, s2. auto.
Qed.

(** A match of a concatenation that starts with [c]: the first part is
    empty, or starts with [c]. *)
Lemma cat_cons (r1 r2 : t) (c : code_unit) (s : jsstring) :
  Matches (Cat r1 r2) (c :: s) ->
  (Matches r1 [] /\ Matches r2 (c :: s))
  \/ exists s1 s2, s = s1 ++ s2 /\ Matches r1 (c :: s1) /\ Matches r2 s2.
Proof.
  intros H. remember (Cat r1 r2) as r eqn:Hr. remember (c :: s) as cs eqn:Hcs.
  destruct H as [| |r1' r2' s1 s2 H1 H2| | | |]; try discriminate.
  injection Hr as -> ->.
  destruct s1 as [|c1 s1]; simpl in Hcs.
  - subst s2. left. auto.
  - injection Hcs as -> <-. right. exists s1, s2. auto.
Qed.

Lemma cat_intro (r1 r2 : t) (c : code_unit) (s1 s2 : jsstring) :
  Matches r1 (c :: s1) -> Matches r2 s2 -> Matches (Cat r1 r2) (c :: s1 ++ s2).
Proof.
  intros H1 H2. change (c :: s1 ++ s2) with ((c :: s1) ++ s2). now constructor.
Qed.

Lemma deriv_spec (c : code_unit) (r : t) :
  forall s, Matches (deriv c r) s <-> Matches r (c :: s).
Proof.
  induction r as [| |p|r1 IH1 r2 IH2|r1 IH1 r2 IH2|r IH]; intros s; simpl.
  - split; inversion 1.
  - split; inversion 1.
  - destruct (p c) eqn:Hp; split; intros H.
    + inv H. now constructor.
    + inv H. constructor.
    + inv H.
    + inv H. congruence.
  - destruct (nullable r1) eqn:Hn.
    + split; intros H.
      * inv H.
        -- match goal with H : Matches (Cat _ _) _ |- _ => inv H end.
           apply cat_intro; [now apply IH1 | assumption].
        -- apply nullable_spec in Hn.
           change (c :: s) with ([] ++ c :: s). constructor; [assumption|].
           now apply IH2.
      * apply cat_cons in H as [[_ H2] | (s1 & s2 & -> & H1 & H2)].
        -- apply MAltR. now apply IH2.
        -- apply MAltL. constructor; [now apply IH1 | assumption].
    + split; intros H.
      * inv H. apply cat_intro; [now apply IH1 | assumption].
      * apply cat_cons in H as [[H1 _] | (s1 & s2 & -> & H1 & H2)].
        -- apply nullable_spec in H1. congruence.
        -- constructor; [now apply IH1 | assumption].
  - split; intros H; inv H;
      solve [apply MAltL; now apply IH1 | apply MAltR; now apply IH2].
  - split; intros H.
    + inv H. apply IH in H2.
      match goal with
      | |- Matches _ (c :: ?a ++ ?b) => change (c :: a ++ b) with ((c :: a) ++ b)
      end.
      now constructor.
    + apply star_cons in H as (s1 & s2 & -> & H1 & H2).
      constructor; [now apply IH | assumption].
Qed.

Theorem matchb_spec (r : t) (s : jsstring) : matchb r s = true <-> Matches r s.
Proof.
  revert r; induction s as [|c s IH]; intros r; simpl.
  - apply nullable_spec.
  - rewrite IH. apply deriv_spec.
Qed.

(** ** The patterns of [isEmail] *)

Lemma char_spec (x : code_unit) (s : jsstring) : Matches (Char x) s <-> s = [x].
Proof.
  unfold Char. split.
  - inversion 1 as [|? c Hc| | | | |]; subst. apply N.eqb_eq in Hc. now subst.
  - intros ->. constructor. apply N.eqb_refl.
Qed.

Lemma star_class_spec (p : code_unit -> bool) (s : jsstring) :
  Matches (Star (Class p)) s <-> Forall (fun c => p c = true) s.
Proof.
  split.
  - intros H. remember (Star (Class p)) as r eqn:Hr.
    induction H as [| | | | | |r0 s1 s2 H1 _ H2 IH2]; try discriminate.
    + constructor.
    + injection Hr as ->. inversion H1; subst. simpl. constructor; auto.
  - induction 1 as [|c s Hc _ IH]; [constructor|].
    change (c :: s) with ([c] ++ s). constructor; [now constructor | exact IH].
Qed.

Lemma plus_class_spec (p : code_unit -> bool) (s : jsstring) :
  Matches (Plus (Class p)) s <-> s <> [] /\ Forall (fun c => p c = true) s.
Proof.
  unfold Plus. split.
  - inversion 1 as [| |? ? s1 s2 H1 H2| | | |]; subst.
    inversion H1; subst. apply star_class_spec in H2. simpl.
    split; [discriminate | constructor; assumption].
  - intros [Hne Hall]. destruct s as [|c s]; [congruence|].
    inversion Hall; subst.
    change (c :: s) with ([c] ++ s).
    constructor; [now constructor | now apply star_class_spec].
Qed.

End RegexFacts.

Lemma isEmail_string_aux (v : value) :
  isEmail v = true -> exists s, v = Some (JStr s).
Proof.
  destruct v as [[| | |s| |]|]; simpl; try discriminate. eauto.
Qed.

(** The pattern of [isEmail] matches the [local@domain.tld] shape and
    nothing else. *)
Lemma email_test_shape (s : jsstring) :
  email_test s = true <->
  exists loc dom tld,
    s = loc ++ [0x40%N] ++ dom ++ [0x2E%N] ++ tld
    /\ plain loc /\ plain dom /\ plain tld.
Proof.
  unfold email_test, email_pattern, plain.
  rewrite RegexFacts.matchb_spec. split.
  - intros H.
    inversion H as [| |? ? loc r1 Hloc H1| | | |]; subst; clear H.
    inversion H1 as [| |? ? at_ r2 Hat H2| | | |]; subst; clear H1.
    inversion H2 as [| |? ? dom r3 Hdom H3| | | |]; subst; clear H2.
    inversion H3 as [| |? ? dot tld Hdot Htld| | | |]; subst; clear H3.
    apply RegexFacts.char_spec in Hat, Hdot. subst.
    apply RegexFacts.plus_class_spec in Hloc, Hdom, Htld.
    exists loc, dom, tld. auto.
  - intros (loc & dom & tld & -> & Hloc & Hdom & Htld).
    repeat constructor;
      try (apply RegexFacts.plus_class_spec; assumption);
      apply N.eqb_refl.
Qed.

Lemma isEmail_shape (v : value) : isEmail v = true <-> email_shape v.
Proof.
  unfold email_shape. split.
  - intros H. destruct (isEmail_string_aux v H) as (s & ->). simpl in H.
    apply email_test_shape in H as (loc & dom & tld & -> & Hp).
    exists loc, dom, tld. auto.
  - intros (loc & dom & tld & -> & Hp). simpl. apply email_test_shape.
    exists loc, dom, tld. auto.
Qed.

(** The shape once more, the way it is often put: no white space, one
    [@] with something before it, and after it a dot with something on
    either side. *)
Lemma email_shape_reading (s : jsstring) :
  email_shape (Some (JStr s)) <->
  Forall (fun c => isWhiteSpace c = false) s
  /\ exists loc dom,
       s = loc ++ [0x40%N] ++ dom
       /\ loc <> [] /\ ~ In 0x40%N loc /\ ~ In 0x40%N dom
       /\ exists a b, dom = a ++ [0x2E%N] ++ b /\ a <> [] /\ b <> [].
Proof.
  assert (Hplain : forall l,
             Forall (fun c => notSpaceOrAt c = true) l
             <-> Forall (fun c => isWhiteSpace c = false) l /\ ~ In 0x40%N l).
  { intros l. rewrite !Forall_forall. unfold notSpaceOrAt. split.
    - intros H. split.
      + intros c Hc. specialize (H c Hc).
        apply negb_true_iff, orb_false_iff in H. tauto.
      + intros Hin. specialize (H _ Hin).
        apply negb_true_iff, orb_false_iff in H. destruct H as [_ H].
        discriminate H.
    - intros [Hws Hat] c Hc. apply negb_true_iff, orb_false_iff.
      split; [now apply Hws|]. apply N.eqb_neq. intros ->. now apply Hat. }
  assert (Hws : forall c : code_unit,
             (c = 0x40 \/ c = 0x2E)%N -> isWhiteSpace c = false)
    by (intros c [-> | ->]; reflexivity).
  unfold email_shape, plain. cbn [app]. split.
  - intros (loc & dom & tld & Heq & [Hl Pl] & [Hd Pd] & [Ht Pt]).
    injection Heq as ->.
    apply Hplain in Pl, Pd, Pt.
    destruct Pl as [Wl Al], Pd as [Wd Ad], Pt as [Wt At].
    split.
    + rewrite Forall_app, Forall_cons_iff, Forall_app, Forall_cons_iff.
      repeat split; try assumption; apply Hws; auto.
    + exists loc, (dom ++ 0x2E%N :: tld). repeat split; try assumption.
      * rewrite in_app_iff. cbn [In]. intros [H|[H|H]];
          [now apply Ad | discriminate H | now apply At].
      * exists dom, tld. auto.
  - intros (Hall & loc & dom & -> & Hl & Al & Ad & a & b & -> & Ha & Hb).
    rewrite Forall_app, Forall_cons_iff, Forall_app, Forall_cons_iff in Hall.
    destruct Hall as (Wl & _ & Wa & _ & Wb).
    rewrite in_app_iff in Ad. cbn [In] in Ad.
    exists loc, a, b. split; [reflexivity|].
    repeat split; try assumption; apply Hplain; split; try assumption; tauto.
Qed.

(** The pattern on a few addresses: each part has to be there, and a
    second [@] or a space is refused. *)
Example isEmail_examples :
  map (fun s => isEmail (Some (JStr (lit s))))
      [ "jane@example.com"; "a@b.c.d"; "not-an-email"; "a@.b"; "a@b.";
        "@b.c"; "a b@c.d"; "a@b@c.d" ]%string
  = [ true; true; false; false; false; false; false; false ].
Proof. reflexivity. Qed.

Example isEmail_needs_a_string : isEmail (Some (JNum (Num.of_Z 7))) = false.
Proof. reflexivity. Qed.

Example trim_example :
  trim (lit " " ++ [0x00A0%N; 0x0009%N] ++ lit "Jane  Doe" ++ [0x000A%N; 0x3000%N])
  = lit "Jane  Doe".
Proof. reflexivity. Qed.


(* ================================================================== *)
(** * Integers as Numbers: where binary64 arithmetic is exact *)
(* ================================================================== *)

Module NumFacts.
Import Binary64.

Lemma shl_Z (n : positive) (j : nat) :
  Zpos (shl n j) = Zpos n * 2 ^ Z.of_nat j.
Proof.
  induction j as [|j IH]; [simpl; lia|].
  rewrite Nat2Z.inj_succ, Z.pow_succ_r by lia.
  unfold shl in *. simpl Nat.iter. rewrite Pos2Z.inj_xO, IH. lia.
Qed.

Lemma digits_shl (n : positive) (j : nat) :
  Zpos (digits2_pos (shl n j)) = Zpos (digits2_pos n) + Z.of_nat j.
Proof.
  induction j as [|j IH]; [simpl; lia|].
  unfold shl in *. simpl Nat.iter. simpl digits2_pos.
  rewrite Pos2Z.inj_succ, IH. lia.
Qed.

Lemma pos_iter_shl (n d : positive) : Pos.iter xO n d = shl n (Pos.to_nat d).
Proof. unfold shl. apply Pos2Nat.inj_iter. Qed.

Lemma digits_size (n : positive) : digits2_pos n = Pos.size n.
Proof. induction n; simpl; congruence. Qed.

(** The digits of a positive number bound it. *)
Lemma digits_bounds (n : positive) :
  2 ^ (Zpos (digits2_pos n) - 1) <= Zpos n < 2 ^ Zpos (digits2_pos n).
Proof.
  rewrite digits_size.
  pose proof (Pos.size_gt n) as Hgt. pose proof (Pos.size_le n) as Hle.
  apply Pos2Z.pos_lt_pos in Hgt. apply Pos2Z.pos_le_pos in Hle.
  rewrite Pos2Z.inj_pow in Hgt, Hle.
  change (Zpos n~0) with (2 * Zpos n) in Hle.
  split; [|exact Hgt].
  remember (Zpos (Pos.size n) - 1) as k eqn:Hk.
  replace (Zpos (Pos.size n)) with (Z.succ k) in Hle by lia.
  rewrite Z.pow_succ_r in Hle by lia. lia.
Qed.

Lemma digits_le_53 (n : positive) :
  Zpos n < 2 ^ 53 -> Zpos (digits2_pos n) <= 53.
Proof.
  intros H. destruct (Z_le_gt_dec (Zpos (digits2_pos n)) 53) as [|Hgt]; [assumption|].
  pose proof (digits_bounds n) as [Hlo _].
  assert (2 ^ 53 <= 2 ^ (Zpos (digits2_pos n) - 1))
    by (apply Z.pow_le_mono_r; lia).
  lia.
Qed.

(** Dropping [j] zero bits from the right is exact. *)
Lemma shr_zeros (n : positive) (j : nat) :
  Nat.iter j shr_1 {| shr_m := Zpos (shl n j); shr_r := false; shr_s := false |}
  = {| shr_m := Zpos n; shr_r := false; shr_s := false |}.
Proof.
  induction j as [|j IH]; [reflexivity|].
  rewrite Nat.iter_succ_r. exact IH.
Qed.

Lemma iter_pos_nat {A : Type} (f : A -> A) (p : positive) (x : A) :
  iter_pos f p x = Nat.iter (Pos.to_nat p) f x.
Proof.
  revert x. induction p as [p IH|p IH|]; intros x; simpl iter_pos.
  - rewrite !IH, Pos2Nat.inj_xI.
    replace (S (2 * Pos.to_nat p))%nat
      with (Pos.to_nat p + (Pos.to_nat p + 1))%nat by lia.
    rewrite !Nat.iter_add. reflexivity.
  - rewrite !IH, Pos2Nat.inj_xO.
    replace (2 * Pos.to_nat p)%nat with (Pos.to_nat p + Pos.to_nat p)%nat by lia.
    rewrite Nat.iter_add. reflexivity.
  - reflexivity.
Qed.

Lemma shl_add (n : positive) (i j : nat) : shl n (i + j) = shl (shl n j) i.
Proof. unfold shl. apply Nat.iter_add. Qed.

Lemma digits_mantissa (n : positive) :
  Zpos (digits2_pos n) <= 53 -> Zpos (digits2_pos (mantissa n)) = 53.
Proof. intros H. unfold mantissa. rewrite digits_shl. lia. Qed.

Lemma fexp_digits (n : positive) :
  fexp 53 1024 (Zpos (digits2_pos n)) = exponent n.
Proof. unfold fexp, emin, exponent. lia. Qed.

(** The first step of rounding, on an integer followed by zero bits. *)
Lemma shr_fexp_exact (n : positive) (k : nat) :
  Zpos (digits2_pos n) <= 53 ->
  53 - Zpos (digits2_pos n) <= Z.of_nat k ->
  shr_fexp 53 1024 (Zpos (shl n k)) (- Z.of_nat k) loc_Exact
  = ({| shr_m := Zpos (mantissa n); shr_r := false; shr_s := false |},
     exponent n).
Proof.
  intros Hd Hk. unfold shr_fexp. cbn [Zdigits2 shr_record_of_loc].
  rewrite digits_shl.
  replace (Zpos (digits2_pos n) + Z.of_nat k + - Z.of_nat k)
    with (Zpos (digits2_pos n)) by lia.
  rewrite fexp_digits. unfold exponent, mantissa.
  remember (Z.to_nat (53 - Zpos (digits2_pos n))) as j eqn:Hj.
  destruct (Zpos (digits2_pos n) - 53 - - Z.of_nat k) as [|q|q] eqn:Hq;
    cbn [shr]; [| |lia].
  - replace k with j by lia. f_equal. lia.
  - rewrite iter_pos_nat.
    replace k with (Pos.to_nat q + j)%nat by lia.
    rewrite shl_add, shr_zeros. f_equal. lia.
Qed.

(** Rounding an integer below 2^53 that is followed by enough zero bits
    gives it back. *)
Lemma binary_round_aux_exact (s : bool) (n : positive) (k : nat) :
  Zpos (digits2_pos n) <= 53 ->
  53 - Zpos (digits2_pos n) <= Z.of_nat k ->
  binary_round_aux 53 1024 s (Zpos (shl n k)) (- Z.of_nat k) loc_Exact
  = S754_finite s (mantissa n) (exponent n).
Proof.
  intros Hd Hk. unfold binary_round_aux.
  rewrite (shr_fexp_exact n k Hd Hk).
  cbn [shr_m loc_of_shr_record round_nearest_even].
  assert (Hagain :
    shr_fexp 53 1024 (Zpos (mantissa n)) (exponent n) loc_Exact
    = ({| shr_m := Zpos (mantissa n); shr_r := false; shr_s := false |},
       exponent n)).
  { unfold mantissa at 1.
    replace (exponent n)
      with (- Z.of_nat (Z.to_nat (53 - Zpos (digits2_pos n)))) at 1
      by (unfold exponent; lia).
    apply shr_fexp_exact; lia. }
  rewrite Hagain. cbn [shr_m].
  replace (exponent n <=? 1024 - 53) with true; [reflexivity|].
  symmetry. apply Z.leb_le. unfold exponent. lia.
Qed.

Lemma binary_round_exact (s : bool) (n : positive) (k : nat) :
  Zpos (digits2_pos n) <= 53 ->
  binary_round 53 1024 s (shl n k) (- Z.of_nat k)
  = S754_finite s (mantissa n) (exponent n).
Proof.
  intros Hd. unfold binary_round, shl_align.
  rewrite digits_shl.
  replace (Zpos (digits2_pos n) + Z.of_nat k + - Z.of_nat k)
    with (Zpos (digits2_pos n)) by lia.
  rewrite fexp_digits.
  destruct (exponent n - - Z.of_nat k) as [|q|q] eqn:Hq; unfold exponent in Hq.
  - apply binary_round_aux_exact; lia.
  - apply binary_round_aux_exact; lia.
  - rewrite pos_iter_shl, <- shl_add.
    replace (exponent n) with (- Z.of_nat (Pos.to_nat q + k)) at 1
      by (unfold exponent; lia).
    apply binary_round_aux_exact; lia.
Qed.

(** ** The Number of an integer *)

(** [m * 2^k] as a Number, for an integer [m * 2^k] of magnitude below
    2^53. *)
Lemma normalize_scaled (z m : Z) (k : nat) :
  safe z -> m = z * 2 ^ Z.of_nat k ->
  binary_normalize 53 1024 m (- Z.of_nat k) false = canonical z.
Proof.
  intros Hz ->. unfold safe in Hz.
  assert (H2k : 0 < 2 ^ Z.of_nat k) by (apply Z.pow_pos_nonneg; lia).
  destruct z as [|n|n]; cbn [canonical].
  - reflexivity.
  - rewrite <- shl_Z. cbn [binary_normalize].
    apply binary_round_exact, digits_le_53. exact Hz.
  - replace (Zneg n * 2 ^ Z.of_nat k) with (Zneg (shl n k))
      by (rewrite <- Pos2Z.opp_pos, shl_Z; lia).
    cbn [binary_normalize].
    apply binary_round_exact, digits_le_53. exact Hz.
Qed.

Lemma of_Z_canonical (z : Z) : safe z -> Num.of_Z z = canonical z.
Proof.
  intros Hz. unfold Num.of_Z, Num.prec, Num.emax.
  apply (normalize_scaled z z 0 Hz). simpl. lia.
Qed.

Lemma mantissa_Z (n : positive) :
  Zpos (digits2_pos n) <= 53 ->
  Zpos (mantissa n) = Zpos n * 2 ^ (- exponent n).
Proof.
  intros H. unfold mantissa, exponent. rewrite shl_Z. f_equal. f_equal. lia.
Qed.

Lemma exponent_nonpos (n : positive) :
  Zpos (digits2_pos n) <= 53 -> exponent n <= 0.
Proof. unfold exponent. lia. Qed.

Lemma is_finite_canonical (z : Z) : Num.is_finite (canonical z) = true.
Proof. destruct z; reflexivity. Qed.

Lemma truncate_canonical (z : Z) : safe z -> Num.truncate (canonical z) = z.
Proof.
  unfold safe. intros Hz. destruct z as [|n|n]; [reflexivity| |];
    cbn [canonical Num.truncate cond_Zopp];
    pose proof (digits_le_53 n Hz) as Hd;
    pose proof (exponent_nonpos n Hd) as He;
    rewrite <- (Z.opp_involutive (exponent n)) at 1;
    rewrite Z.shiftl_opp_r, Z.shiftr_div_pow2 by lia;
    rewrite (mantissa_Z n Hd), Z.div_mul
      by (apply Z.pow_nonzero; lia);
    reflexivity.
Qed.

(** The signed value of an aligned mantissa. *)
Lemma shl_align_Z (m : positive) (e ez : Z) :
  ez <= e ->
  Zpos (fst (shl_align m e ez)) = Zpos m * 2 ^ (e - ez).
Proof.
  intros H. unfold shl_align.
  destruct (ez - e) as [|d|d] eqn:Hd; cbn [fst]; [| lia |].
  - replace (e - ez) with 0 by lia. lia.
  - rewrite pos_iter_shl, shl_Z. f_equal. f_equal. lia.
Qed.

Lemma canonical_signed (s : bool) (n : positive) :
  canonical (signed s n) = S754_finite s (mantissa n) (exponent n).
Proof. destruct s; reflexivity. Qed.

Lemma aligned_signed (s : bool) (n : positive) (ez : Z) :
  Zpos (digits2_pos n) <= 53 -> ez <= exponent n ->
  cond_Zopp s (Zpos (fst (shl_align (mantissa n) (exponent n) ez)))
  = signed s n * 2 ^ (- ez).
Proof.
  intros Hd Hez. rewrite (shl_align_Z _ _ _ Hez), (mantissa_Z n Hd).
  pose proof (exponent_nonpos n Hd).
  replace (- ez) with (- exponent n + (exponent n - ez)) by lia.
  rewrite Z.pow_add_r by lia.
  unfold signed. destruct s; cbn [cond_Zopp]; lia.
Qed.

Lemma add_finite (sx sy : bool) (nx ny : positive) :
  safe (signed sx nx) -> safe (signed sy ny) ->
  safe (signed sx nx + signed sy ny) ->
  Num.add (canonical (signed sx nx)) (canonical (signed sy ny))
  = canonical (signed sx nx + signed sy ny).
Proof.
  intros Hx Hy Hxy. rewrite !canonical_signed.
  assert (Hdx : Zpos (digits2_pos nx) <= 53)
    by (apply digits_le_53; unfold safe, signed in Hx; destruct sx; exact Hx).
  assert (Hdy : Zpos (digits2_pos ny) <= 53)
    by (apply digits_le_53; unfold safe, signed in Hy; destruct sy; exact Hy).
  pose proof (exponent_nonpos nx Hdx). pose proof (exponent_nonpos ny Hdy).
  unfold Num.add, Num.prec, Num.emax. cbn [SFadd].
  remember (Z.min (exponent nx) (exponent ny)) as ez eqn:Hez.
  rewrite !aligned_signed by lia.
  replace ez with (- Z.of_nat (Z.to_nat (- ez))) at 3 by lia.
  apply normalize_scaled; [exact Hxy|].
  rewrite Z2Nat.id by lia. lia.
Qed.

Lemma sub_finite (sx sy : bool) (nx ny : positive) :
  safe (signed sx nx) -> safe (signed sy ny) ->
  safe (signed sx nx - signed sy ny) ->
  Num.sub (canonical (signed sx nx)) (canonical (signed sy ny))
  = canonical (signed sx nx - signed sy ny).
Proof.
  intros Hx Hy Hxy. rewrite !canonical_signed.
  assert (Hdx : Zpos (digits2_pos nx) <= 53)
    by (apply digits_le_53; unfold safe, signed in Hx; destruct sx; exact Hx).
  assert (Hdy : Zpos (digits2_pos ny) <= 53)
    by (apply digits_le_53; unfold safe, signed in Hy; destruct sy; exact Hy).
  pose proof (exponent_nonpos nx Hdx). pose proof (exponent_nonpos ny Hdy).
  unfold Num.sub, Num.prec, Num.emax. cbn [SFsub].
  remember (Z.min (exponent nx) (exponent ny)) as ez eqn:Hez.
  rewrite !aligned_signed by lia.
  replace ez with (- Z.of_nat (Z.to_nat (- ez))) at 3 by lia.
  apply normalize_scaled; [exact Hxy|].
  rewrite Z2Nat.id by lia. lia.
Qed.

Lemma signed_cases (z : Z) :
  z = 0 \/ exists s n, z = signed s n.
Proof.
  destruct z as [|n|n]; [left; reflexivity | right; exists false, n; reflexivity
                        | right; exists true, n; reflexivity].
Qed.

(** Where binary64 addition, subtraction and multiplication are exact. *)
Theorem add_exact (a b : Z) :
  safe a -> safe b -> safe (a + b) ->
  Num.add (Num.of_Z a) (Num.of_Z b) = Num.of_Z (a + b).
Proof.
  intros Ha Hb Hab. rewrite !of_Z_canonical by assumption.
  destruct (signed_cases a) as [-> | (sa & na & ->)];
    destruct (signed_cases b) as [-> | (sb & nb & ->)].
  - reflexivity.
  - rewrite Z.add_0_l, canonical_signed. reflexivity.
  - rewrite Z.add_0_r, canonical_signed. reflexivity.
  - now apply add_finite.
Qed.

Theorem sub_exact (a b : Z) :
  safe a -> safe b -> safe (a - b) ->
  Num.sub (Num.of_Z a) (Num.of_Z b) = Num.of_Z (a - b).
Proof.
  intros Ha Hb Hab. rewrite !of_Z_canonical by assumption.
  destruct (signed_cases a) as [-> | (sa & na & ->)];
    destruct (signed_cases b) as [-> | (sb & nb & ->)].
  - reflexivity.
  - rewrite Z.sub_0_l, canonical_signed.
    replace (- signed sb nb) with (signed (negb sb) nb)
      by (destruct sb; reflexivity).
    rewrite canonical_signed. reflexivity.
  - rewrite Z.sub_0_r, canonical_signed. reflexivity.
  - now apply sub_finite.
Qed.

Lemma digits_lower (n : positive) (j : Z) :
  2 ^ j <= Zpos n -> j < Zpos (digits2_pos n).
Proof.
  intros H. pose proof (digits_bounds n) as [_ Hhi].
  destruct (Z_lt_le_dec j (Zpos (digits2_pos n))) as [|Hle]; [assumption|].
  assert (2 ^ Zpos (digits2_pos n) <= 2 ^ j) by (apply Z.pow_le_mono_r; lia).
  lia.
Qed.

Theorem mul_exact (a b : Z) :
  safe a -> 0 < b -> safe b -> safe (a * b) ->
  Num.mul (Num.of_Z a) (Num.of_Z b) = Num.of_Z (a * b).
Proof.
  intros Ha Hpos Hb Hab. rewrite !of_Z_canonical by assumption.
  destruct b as [|nb|nb]; try lia. clear Hpos.
  destruct (signed_cases a) as [-> | (sa & na & ->)]; [reflexivity|].
  replace (signed sa na * Zpos nb) with (signed sa (na * nb))
    by (destruct sa; reflexivity).
  rewrite !canonical_signed. change (canonical (Zpos nb))
    with (S754_finite false (mantissa nb) (exponent nb)).
  assert (Hda : Zpos (digits2_pos na) <= 53)
    by (apply digits_le_53; unfold safe, signed in Ha; destruct sa; exact Ha).
  assert (Hdb : Zpos (digits2_pos nb) <= 53)
    by (apply digits_le_53; exact Hb).
  assert (Hdab : Zpos (digits2_pos (na * nb)) <= 53).
  { apply digits_le_53. unfold safe, signed in Hab.
    destruct sa; cbn [cond_Zopp] in Hab; lia. }
  unfold Num.mul, Num.prec, Num.emax. cbn [SFmul]. rewrite xorb_false_r.
  pose proof (exponent_nonpos na Hda). pose proof (exponent_nonpos nb Hdb).
  remember (Z.to_nat (- exponent na + - exponent nb)) as k eqn:Hk.
  assert (Hm : (mantissa na * mantissa nb)%positive = shl (na * nb) k).
  { apply Pos2Z.inj. rewrite Pos2Z.inj_mul, shl_Z, Pos2Z.inj_mul.
    rewrite (mantissa_Z na Hda), (mantissa_Z nb Hdb).
    replace (Z.of_nat k) with (- exponent na + - exponent nb) by lia.
    rewrite Z.pow_add_r by lia. ring. }
  rewrite Hm.
  replace (exponent na + exponent nb) with (- Z.of_nat k) by lia.
  apply binary_round_aux_exact; [exact Hdab|].
  assert (Zpos (digits2_pos na) + Zpos (digits2_pos nb) - 2
          < Zpos (digits2_pos (na * nb))).
  { apply digits_lower. rewrite Pos2Z.inj_mul.
    pose proof (digits_bounds na) as [Hla _].
    pose proof (digits_bounds nb) as [Hlb _].
    replace (Zpos (digits2_pos na) + Zpos (digits2_pos nb) - 2)
      with ((Zpos (digits2_pos na) - 1) + (Zpos (digits2_pos nb) - 1)) by lia.
    rewrite Z.pow_add_r by lia.
    apply Z.mul_le_mono_nonneg; try assumption;
      apply Z.pow_nonneg; lia. }
  unfold exponent in Hk. lia.
Qed.

Lemma truncate_of_Z (z : Z) : safe z -> Num.truncate (Num.of_Z z) = z.
Proof. intros H. rewrite of_Z_canonical by exact H. now apply truncate_canonical. Qed.

Lemma is_finite_of_Z (z : Z) : safe z -> Num.is_finite (Num.of_Z z) = true.
Proof. intros H. rewrite of_Z_canonical by exact H. apply is_finite_canonical. Qed.

(** The range test of [TimeClip]. *)
Lemma abs_gt_maxTime (z : Z) :
  safe z -> Num.abs_gt (Num.of_Z z) Time.maxTime = (Time.maxTime <? Z.abs z).
Proof.
  intros Hz. rewrite (of_Z_canonical z Hz).
  destruct (signed_cases z) as [-> | (s & n & ->)]; [reflexivity|].
  rewrite canonical_signed. cbn [Num.abs_gt].
  assert (Hd : Zpos (digits2_pos n) <= 53)
    by (apply digits_le_53; unfold safe, signed in Hz; destruct s; exact Hz).
  replace (Z.abs (signed s n)) with (Zpos n) by (destruct s; reflexivity).
  pose proof (exponent_nonpos n Hd) as He.
  rewrite (mantissa_Z n Hd).
  assert (H2 : 0 < 2 ^ (- exponent n)) by (apply Z.pow_pos_nonneg; lia).
  destruct (0 <=? exponent n) eqn:H0.
  - apply Z.leb_le in H0. replace (exponent n) with 0 in * by lia.
    change (- 0) with 0. rewrite Z.pow_0_r, !Z.mul_1_r. reflexivity.
  - destruct (Time.maxTime <? Zpos n) eqn:Hlt.
    + apply Z.ltb_lt. apply Z.ltb_lt in Hlt.
      now apply Z.mul_lt_mono_pos_r.
    + apply Z.ltb_ge. apply Z.ltb_ge in Hlt.
      apply Z.mul_le_mono_nonneg_r; lia.
Qed.

(** What [TimeClip] lets through is a time value. *)
Lemma TimeClip_range (x : number) (t : Z) :
  Time.TimeClip x = Some t -> Z.abs t <= Time.maxTime.
Proof.
  unfold Time.TimeClip.
  destruct (Num.is_finite x); [|discriminate].
  destruct (Num.abs_gt x Time.maxTime) eqn:Hgt; [discriminate|].
  intros Ht. injection Ht as <-.
  destruct x as [s| | |s m e]; cbn [Num.truncate]; try (unfold Time.maxTime; lia).
  cbn [Num.abs_gt] in Hgt.
  replace (Z.abs (cond_Zopp s (Z.shiftl (Zpos m) e)))
    with (Z.shiftl (Zpos m) e).
  2:{ assert (0 <= Z.shiftl (Zpos m) e) by (apply Z.shiftl_nonneg; lia).
      destruct s; cbn [cond_Zopp]; lia. }
  destruct (0 <=? e) eqn:H0.
  - apply Z.leb_le in H0. apply Z.ltb_ge in Hgt.
    now rewrite Z.shiftl_mul_pow2.
  - apply Z.leb_gt in H0. apply Z.ltb_ge in Hgt.
    rewrite <- (Z.opp_involutive e) at 1.
    rewrite Z.shiftl_opp_r, Z.shiftr_div_pow2 by lia.
    assert (0 < 2 ^ (- e)) by (apply Z.pow_pos_nonneg; lia).
    apply Z.div_le_upper_bound; lia.
Qed.

(** [TimeClip] on the Number of an integer. *)
Lemma TimeClip_of_Z (z : Z) :
  safe z ->
  Time.TimeClip (Num.of_Z z)
  = if Time.maxTime <? Z.abs z then None else Some z.
Proof.
  intros Hz. unfold Time.TimeClip.
  rewrite (is_finite_of_Z z Hz), (abs_gt_maxTime z Hz), (truncate_of_Z z Hz).
  reflexivity.
Qed.

End NumFacts.


(* ================================================================== *)
(** * [setMinutes] on whole minutes *)
(* ================================================================== *)

Module TimeFacts.
Import Time Binary64 NumFacts.

(** A time value is its day and its time within the day, the latter its
    hours, minutes, seconds and milliseconds. *)
Lemma time_decomposition (t : Z) :
  Day t * msPerDay
  + (HourFromTime t * msPerHour + MinFromTime t * msPerMinute
     + SecFromTime t * msPerSecond + msFromTime t)
  = t.
Proof.
  unfold Day, HourFromTime, MinFromTime, SecFromTime, msFromTime,
    msPerDay, msPerHour, msPerMinute, msPerSecond,
    HoursPerDay, MinutesPerHour, SecondsPerMinute.
  Z.div_mod_to_equations. lia.
Qed.

Lemma components_bounds (t : Z) :
  0 <= HourFromTime t < 24 /\ 0 <= MinFromTime t < 60
  /\ 0 <= SecFromTime t < 60 /\ 0 <= msFromTime t < 1000.
Proof.
  unfold HourFromTime, MinFromTime, SecFromTime, msFromTime,
    HoursPerDay, MinutesPerHour, SecondsPerMinute, msPerSecond.
  repeat split; apply Z.mod_pos_bound; lia.
Qed.

Lemma safe_intro (z : Z) : - 9007199254740992 < z < 9007199254740992 -> safe z.
Proof. unfold safe. change (2 ^ 53) with 9007199254740992. lia. Qed.

Section Local.
Context {host : Host}.

(** [d.setMinutes(d.getMinutes() + m)] for a whole number [m] of minutes,
    on a host whose zone has the same offset [c] at the start and at the
    local time arrived at: the date moves by [m] minutes exactly, and is
    invalid when that leaves the range of time values. *)
Lemma setMinutes_whole (s m c : Z) :
  Z.abs s <= maxTime ->
  Z.abs m <= 6000000000 ->
  Z.abs c <= msPerDay ->
  LocalTZA s true = c ->
  LocalTZA (s + c + m * msPerMinute) false = c ->
  setMinutes (Some s) (Num.add (getMinutes (Some s)) (Num.of_Z m))
  = if maxTime <? Z.abs (s + m * msPerMinute) then None
    else Some (s + m * msPerMinute).
Proof.
  unfold maxTime, msPerDay. intros Hs Hm Hc Hstart Hend.
  unfold setMinutes, getMinutes, LocalTime. rewrite Hstart.
  rewrite add_exact, truncate_of_Z by (apply safe_intro; lia).
  set (t := s + c).
  pose proof (components_bounds t) as (Hh & Hmin & Hsec & Hms).
  pose proof (time_decomposition t) as Hdec.
  assert (Hday : -100000002 < Day t < 100000002).
  { unfold Day, msPerDay, t. Z.div_mod_to_equations. lia. }
  remember (Day t) as day eqn:Eday.
  remember (HourFromTime t) as h eqn:Eh.
  remember (MinFromTime t) as mi eqn:Emi.
  remember (SecFromTime t) as sec eqn:Esec.
  remember (msFromTime t) as ms eqn:Ems.
  unfold msPerDay, msPerHour, msPerMinute, msPerSecond in *.
  rewrite add_exact by (apply safe_intro; lia).
  unfold MakeTime.
  rewrite !is_finite_of_Z by (apply safe_intro; lia). cbn [andb].
  rewrite !truncate_of_Z by (apply safe_intro; lia).
  unfold msPerHour, msPerMinute, msPerSecond.
  rewrite !mul_exact by (try apply safe_intro; lia).
  rewrite !add_exact by (apply safe_intro; lia).
  unfold MakeDate.
  rewrite !is_finite_of_Z by (apply safe_intro; lia). cbn [andb].
  unfold msPerDay.
  rewrite mul_exact by (try apply safe_intro; lia).
  rewrite add_exact by (apply safe_intro; lia).
  rewrite is_finite_of_Z by (apply safe_intro; lia).
  replace (day * 86400000 + (h * 3600000 + (mi + m) * 60000 + sec * 1000 + ms))
    with (s + c + m * 60000) by (unfold t in Hdec; lia).
  unfold UTC.
  rewrite is_finite_of_Z, truncate_of_Z by (apply safe_intro; lia).
  rewrite Hend.
  rewrite sub_exact by (apply safe_intro; lia).
  replace (s + c + m * 60000 - c) with (s + m * 60000) by lia.
  apply TimeClip_of_Z. apply safe_intro. lia.
Qed.

End Local.
End TimeFacts.


(* ================================================================== *)
(** * Facts about strings *)
(* ================================================================== *)

Lemma jsstring_eqb_eq (a b : jsstring) : jsstring_eqb a b = true <-> a = b.
Proof.
  revert b; induction a as [|x a IH]; intros [|y b]; simpl;
    try (split; [discriminate | discriminate]); [tauto|].
  rewrite andb_true_iff, N.eqb_eq, IH.
  split; [intros [-> ->]; reflexivity | intros H; injection H; auto].
Qed.

Lemma jsstring_eqb_refl (a : jsstring) : jsstring_eqb a a = true.
Proof. apply jsstring_eqb_eq; reflexivity. Qed.

Lemma jsstring_eqb_neq (a b : jsstring) : jsstring_eqb a b = false <-> a <> b.
Proof.
  rewrite <- jsstring_eqb_eq. destruct (jsstring_eqb a b); split; congruence.
Qed.

Lemma mustString_string (v : value) :
  mustString v = true -> exists s, v = Some (JStr s) /\ trim s <> [].
Proof.
  destruct v as [[| | |s| |]|]; simpl; try discriminate.
  intros H. exists s. split; [reflexivity|].
  destruct (trim s); [discriminate | discriminate].
Qed.

Lemma mustString_nonblank (v : value) : mustString v = true <-> nonblank v.
Proof.
  split; [apply mustString_string|].
  intros (s & -> & Hs). simpl. destruct (trim s); [congruence | reflexivity].
Qed.

Lemma isEmail_string (v : value) :
  isEmail v = true -> exists s, v = Some (JStr s).
Proof.
  destruct v as [[| | |s| |]|]; simpl; try discriminate. eauto.
Qed.

(* ================================================================== *)
(** * The handlers, step by step *)
(* ================================================================== *)

(** Both files ask for the same four variables: [requireEnv] at the start
    of the server, the check of line 39 in the serverless handler. *)
Lemma starts_configured (env : Env) : Server.starts env = configured env.
Proof.
  unfold Server.starts, Server.requireEnv, configured.
  destruct (missing (GOOGLE_CLIENT_ID env)),
           (missing (GOOGLE_CLIENT_SECRET env)),
           (missing (GOOGLE_REDIRECT_URI env)),
           (missing (GOOGLE_REFRESH_TOKEN env)); reflexivity.
Qed.

Section Steps.
Context {host : Host}.

(** Line 100 (48): the title. *)
Lemma title_step (slot : JSON) :
  (if mustString (get slot "title") then call_trim (get slot "title")
   else Return (lit "Training Session"))
  = Return (title_of slot).
Proof.
  unfold title_of.
  destruct (get slot "title") as [[| | |s| |]|]; simpl; try reflexivity.
  destruct (trim s); reflexivity.
Qed.

(** Both handlers, for a booking request: the start is checked, the end is
    normalised, and the rest runs under the catch-all. *)
Lemma serve_steps (p : Endpoint) (env : Env) (req : Request) :
  booking_request p env req ->
  serve p env req
  = match toIsoOrNull (get (slot_of req) "startIso") with
    | None => Return invalid_start
    | Some s =>
        match end_of env (slot_of req) s with
        | None => Return server_error
        | Some e =>
            try_catch
              (book_slot p env (slot_of req) (customer_of req)
                 (title_of (slot_of req)) s e)
              (Return server_error)
        end
    end.
Proof.
  intros Hreq. unfold end_of.
  destruct p; simpl in Hreq |- *.
  - unfold Server.post_api_book. fold (slot_of req) (customer_of req).
    rewrite title_step. simpl.
    destruct (toIsoOrNull (get (slot_of req) "startIso")); [|reflexivity].
    destruct (toIsoOrNull (get (slot_of req) "endIso")); simpl; [reflexivity|].
    destruct (fallback_end _ _); reflexivity.
  - destruct Hreq as [Hm Hc]. unfold Serverless.handler.
    rewrite Hm. simpl jsstring_eqb. cbv iota.
    unfold configured in Hc. apply negb_true_iff in Hc. rewrite Hc.
    fold (slot_of req) (customer_of req).
    rewrite title_step. simpl.
    destruct (toIsoOrNull (get (slot_of req) "startIso")); [|reflexivity].
    destruct (toIsoOrNull (get (slot_of req) "endIso")); simpl; [reflexivity|].
    destruct (fallback_end _ _); reflexivity.
Qed.

End Steps.

(** ** Every run of a booking takes one of the six courses *)

Section Courses.
Context {host : Host}.
Context {World : Type}.
Variable cal : Calendar World.

Lemma template_string (s : jsstring) : template (Some (JStr s)) = Return s.
Proof. reflexivity. Qed.

Lemma run_booking (p : Endpoint) (env : Env) (slot customer : JSON)
    (title : jsstring) (s e : IsoString) (w : World) :
  exists calls r,
    run cal (try_catch (book_slot p env slot customer title s e)
                       (Return server_error)) w
    = (calls, Some r)
    /\ Booking (dash_of p) env slot customer title s e calls r.
Proof.
  assert (Hcases :
    (mustString (get customer "name") && mustString (get customer "phone")
       && isEmail (get customer "email") = false)
    \/ exists name phone email,
         get customer "name" = Some (JStr name)
         /\ get customer "phone" = Some (JStr phone)
         /\ get customer "email" = Some (JStr email)
         /\ mustString (get customer "name") = true
         /\ mustString (get customer "phone") = true
         /\ isEmail (get customer "email") = true).
  { destruct (mustString (get customer "name")) eqn:Hn; [|left; reflexivity].
    destruct (mustString (get customer "phone")) eqn:Hp; [|left; reflexivity].
    destruct (isEmail (get customer "email")) eqn:He; [|left; reflexivity].
    right.
    destruct (mustString_string _ Hn) as (name & Hname & _).
    destruct (mustString_string _ Hp) as (phone & Hphone & _).
    destruct (isEmail_string _ He) as (email & Hemail).
    exists name, phone, email. repeat split; assumption || reflexivity. }
  destruct Hcases as [Hbad | (name & phone & email & Hn & Hp & He & Vn & Vp & Ve)].
  - exists [], invalid_customer. split; [|apply Rejected; exact Hbad].
    destruct p; simpl; unfold Server.book_slot, Serverless.book_slot;
      rewrite <- !negb_andb, Hbad; reflexivity.
  - assert (Hrun : forall dash,
      exists calls r,
        run cal
          (try_catch
             (if negb (mustString (get customer "name"))
                 || negb (mustString (get customer "phone"))
                 || negb (isEmail (get customer "email"))
              then Return invalid_customer
              else
                fb <- freebusy_query (the_query env s e) ;;
                if (0 <? List.length (busy_of fb (Config.calendar_id env)))%nat
                then Return slot_conflict
                else
                  name <- template (get customer "name") ;;
                  phone <- template (get customer "phone") ;;
                  email <- template (get customer "email") ;;
                  descriptionLines <-
                    (if mustString (get customer "notes") then
                       notes <- call_trim (get customer "notes") ;;
                       Return ([ lit "Booked via website"; [];
                                 lit "Player: " ++ name;
                                 lit "Phone: " ++ phone;
                                 lit "Email: " ++ email ]
                               ++ [[]; lit "Notes:"; notes])
                     else Return [ lit "Booked via website"; [];
                                   lit "Player: " ++ name;
                                   lit "Phone: " ++ phone;
                                   lit "Email: " ++ email ]) ;;
                  created <- events_insert
                    {| ins_calendarId := Config.calendar_id env;
                       summary := lit "BOOKED: " ++ title ++ lit " " ++ dash
                                  ++ lit " " ++ name;
                       description := join newline descriptionLines;
                       start := {| dateTime := s;
                                   dt_timeZone := Config.timezone env |};
                       end_ := {| dateTime := e;
                                  dt_timeZone := Config.timezone env |};
                       attendees := [get customer "email"];
                       ins_sendUpdates := lit "all" |} ;;
                  (if jsstring_eqb (Config.delete_availability env) (lit "true")
                      && mustString (get slot "availabilityEventId")
                   then try_catch (events_delete (the_delete env slot))
                                  (Return tt)
                   else Return tt) ;;;
                  Return (success created))
             (Return server_error)) w
        = (calls, Some r)
        /\ Booking dash env slot customer title s e calls r).
    { intros dash. rewrite Vn, Vp, Ve.
      cbn [negb orb bind try_catch run freebusy_query settle].
      destruct (on_query cal (the_query env s e) w) as [[fb|] w1];
        cbn [bind try_catch run settle].
      2:{ eexists _, _. split; [reflexivity|].
          eapply QueryFailed; eassumption. }
      destruct (busy_of fb (Config.calendar_id env)) as [|b bs] eqn:Hbusy.
      2:{ cbn. eexists _, _. split; [reflexivity|].
          eapply Conflict; try eassumption. rewrite Hbusy. discriminate. }
      cbn [List.length Nat.ltb Nat.leb].
      rewrite Hn, Hp, He.
      cbn [template or_throw ToString bind].
      assert (Hdesc :
        (if mustString (get customer "notes") then
           notes <- call_trim (get customer "notes") ;;
           Return ([ lit "Booked via website"; [];
                     lit "Player: " ++ name;
                     lit "Phone: " ++ phone;
                     lit "Email: " ++ email ]
                   ++ [[]; lit "Notes:"; notes])
         else Return [ lit "Booked via website"; [];
                       lit "Player: " ++ name;
                       lit "Phone: " ++ phone;
                       lit "Email: " ++ email ])
        = Return ([ lit "Booked via website"; [];
                    lit "Player: " ++ name;
                    lit "Phone: " ++ phone;
                    lit "Email: " ++ email ]
                  ++ match get customer "notes" with
                     | Some (JStr n) =>
                         match trim n with
                         | [] => []
                         | t => [ []; lit "Notes:"; t ]
                         end
                     | _ => []
                     end)).
      { destruct (get customer "notes") as [[| | |n| |]|];
          cbn [mustString call_trim bind]; try reflexivity.
        destruct (trim n); reflexivity. }
      rewrite Hdesc; clear Hdesc.
      cbn [bind try_catch run events_insert settle].
      fold (description_of name phone email (get customer "notes")).
      fold (summary_of dash title name).
      fold (the_insert dash env customer title name phone email s e).
      destruct (on_insert cal _ w1) as [[created|] w2];
        cbn [bind try_catch run settle].
      2:{ eexists _, _. split; [reflexivity|].
          eapply InsertFailed; eassumption. }
      fold (cleanup_enabled env slot).
      destruct (cleanup_enabled env slot) eqn:Hclean.
      - cbn [bind try_catch run events_delete settle].
        destruct (on_delete cal (the_delete env slot) w2) as [[[]|] w3];
          cbn [bind try_catch run settle];
          eexists _, _; (split; [reflexivity|]);
          eapply BookedAndCleaned; eassumption.
      - cbn [bind try_catch run]. eexists _, _. split; [reflexivity|].
        eapply Booked; eassumption. }
    destruct p; simpl; apply Hrun.
Qed.

End Courses.

(** ** Every run of a handler *)

Section Runs.
Context {host : Host}.
Context {World : Type}.
Variable cal : Calendar World.

Lemma run_serve (p : Endpoint) (env : Env) (req : Request) (w : World) :
  booking_request p env req ->
  exists calls r,
    run cal (serve p env req) w = (calls, Some r)
    /\ Served p env req calls r.
Proof.
  intros Hreq. rewrite (serve_steps p env req Hreq). unfold Served.
  destruct (toIsoOrNull (get (slot_of req) "startIso")) as [s|].
  2:{ exists [], invalid_start. auto. }
  destruct (end_of env (slot_of req) s) as [e|].
  2:{ exists [], server_error. auto. }
  apply run_booking.
Qed.

Lemma booking_request_dec (p : Endpoint) (env : Env) (req : Request) :
  {booking_request p env req} + {~ booking_request p env req}.
Proof.
  destruct p; simpl; [left; exact I|].
  destruct (jsstring_eqb (method req) (lit "POST")) eqn:Hm.
  - apply jsstring_eqb_eq in Hm. destruct (configured env).
    + left; auto.
    + right; intros [_ H]; discriminate.
  - apply jsstring_eqb_neq in Hm. right; intros [H _]; contradiction.
Qed.

(** A request that is not a booking request is answered without a call. *)
Lemma run_serve_other (p : Endpoint) (env : Env) (req : Request) (w : World) :
  ~ booking_request p env req ->
  exists r, run cal (serve p env req) w = ([], Some r).
Proof.
  destruct p; simpl; [tauto|]. intros Hnot.
  unfold Serverless.handler.
  destruct (jsstring_eqb (method req) (lit "OPTIONS")); [eexists; reflexivity|].
  destruct (jsstring_eqb (method req) (lit "POST")) eqn:Hm;
    [|eexists; reflexivity].
  apply jsstring_eqb_eq in Hm. cbn [negb].
  destruct (missing (GOOGLE_CLIENT_ID env) || missing (GOOGLE_CLIENT_SECRET env)
            || missing (GOOGLE_REDIRECT_URI env)
            || missing (GOOGLE_REFRESH_TOKEN env)) eqn:Hc;
    [eexists; reflexivity|].
  exfalso. apply Hnot. split; [exact Hm|]. unfold configured. now rewrite Hc.
Qed.

Lemma run_serve_any (p : Endpoint) (env : Env) (req : Request) (w : World) :
  exists calls r,
    run cal (serve p env req) w = (calls, Some r)
    /\ (calls = [] \/ (booking_request p env req /\ Served p env req calls r)).
Proof.
  destruct (booking_request_dec p env req) as [Hreq|Hnot].
  - destruct (run_serve p env req w Hreq) as (calls & r & Hrun & Hs).
    exists calls, r. auto.
  - destruct (run_serve_other p env req w Hnot) as (r & Hrun).
    exists [], r. auto.
Qed.

End Runs.


(* ================================================================== *)
(** * Availability before creation *)
(* ================================================================== *)

(** C1.  Whatever the request and the calendar, on either endpoint: when a
    free/busy query of the run returned a list of busy intervals for the
    target calendar that is not empty, the run has no insert call and the
    response is 409 with [{"error": "That slot was just booked. Please
    pick another time."}]; and every insert call of a run comes right
    after a free/busy query that returned with no busy interval for the
    target calendar. *)
Theorem C1_no_insert_unless_free :
  forall (host : Host) (p : Endpoint) (env : Env) (req : Request)
         (World : Type) (cal : Calendar World) (w : World),
    (forall q fb,
        In (QueryCall q (Returned fb)) (calls_of cal (serve p env req) w) ->
        busy_of fb (Config.calendar_id env) <> [] ->
        (forall c, In c (calls_of cal (serve p env req) w) -> is_insert c = false)
        /\ result_of cal (serve p env req) w = Some slot_conflict)
    /\ inserts_follow_free (Config.calendar_id env) None
         (calls_of cal (serve p env req) w).
Proof.
  intros host p env req World cal w. unfold calls_of, result_of.
  destruct (run_serve_any cal p env req w) as (calls & r & -> & [-> | [_ Hs]]);
    cbn [fst snd].
  - split; [intros q fb []| exact I].
  - courses Hs; cbn [inserts_follow_free is_insert In]; split;
      try (intros q' fb' Hin Hbusy; in_calls Hin; try congruence;
           (split; [intros c Hc; in_calls Hc; reflexivity | reflexivity]));
      repeat split; try discriminate; auto.
Qed.

Lemma C1_no_insert_unless_free_witness :
  let cal := Fake.calendar (Fake.freebusy "primary" [Fake.one_period])
               Fake.created_event (Returned tt) in
  (forall c, In c (calls_of cal (serve (host := Fake.utc_host) ExpressRoute
                                   Fake.default_env Fake.scenario) tt) ->
             is_insert c = false)
  /\ result_of cal (serve (host := Fake.utc_host) ExpressRoute
                      Fake.default_env Fake.scenario) tt
     = Some slot_conflict.
Proof.
  intros cal.
  refine (proj1 (C1_no_insert_unless_free Fake.utc_host ExpressRoute
                   Fake.default_env Fake.scenario unit cal tt)
            (the_query Fake.default_env 1740823200000 1740826800000)
            (Some {| data := Some {| calendars :=
               Some [(lit "primary", {| busy := Some [Fake.one_period] |})] |} |})
            _ _).
  - vm_compute. left. reflexivity.
  - vm_compute. discriminate.
Defined.

(* ================================================================== *)
(** * The start time *)
(* ================================================================== *)

Lemma toIsoOrNull_absent {host : Host} : toIsoOrNull None = None.
Proof. reflexivity. Qed.

Lemma toIsoOrNull_NaN {host : Host} (s : jsstring) :
  Num.is_nan (Date_parse s) = true -> toIsoOrNull (Some (JStr s)) = None.
Proof.
  unfold toIsoOrNull, new_Date. destruct (Date_parse s); try discriminate.
  reflexivity.
Qed.

(** C2.  On either endpoint, a booking request whose [slot.startIso] is
    absent, or is a string that [Date.parse] answers with NaN, or in any
    other way fails to give an instant ([toIsoOrNull] is null), is
    answered 400 with [{"error": "Invalid start time."}]: the handler is
    that response, and a run of it against any calendar makes no call. *)
Theorem C2_invalid_start :
  forall (host : Host) (p : Endpoint) (env : Env) (req : Request),
    booking_request p env req ->
    (get (slot_of req) "startIso" = None
     \/ (exists s, get (slot_of req) "startIso" = Some (JStr s)
                   /\ Num.is_nan (Date_parse s) = true)
     \/ toIsoOrNull (get (slot_of req) "startIso") = None) ->
    serve p env req = Return invalid_start
    /\ forall (World : Type) (cal : Calendar World) (w : World),
         run cal (serve p env req) w = ([], Some invalid_start).
Proof.
  intros host p env req Hreq Hstart.
  assert (Hnull : toIsoOrNull (get (slot_of req) "startIso") = None).
  { destruct Hstart as [-> | [(s & -> & Hnan) | H]];
      [reflexivity | apply toIsoOrNull_NaN; exact Hnan | exact H]. }
  assert (Hs : serve p env req = Return invalid_start).
  { rewrite (serve_steps p env req Hreq), Hnull. reflexivity. }
  split; [exact Hs | intros; rewrite Hs; reflexivity].
Qed.

Lemma C2_invalid_start_witness :
  serve (host := Fake.utc_host) ServerlessFunction Fake.default_env
    (Fake.post (JObj [(lit "startIso", Fake.str "next tuesday")]) Fake.jane)
  = Return invalid_start
  /\ serve (host := Fake.utc_host) ExpressRoute Fake.default_env
       (Fake.post (JObj []) Fake.jane)
     = Return invalid_start.
Proof.
  split.
  - apply (C2_invalid_start Fake.utc_host ServerlessFunction Fake.default_env
             (Fake.post (JObj [(lit "startIso", Fake.str "next tuesday")])
                Fake.jane)).
    + split; reflexivity.
    + right; left. exists (lit "next tuesday"). split; reflexivity.
  - apply (C2_invalid_start Fake.utc_host ExpressRoute Fake.default_env
             (Fake.post (JObj []) Fake.jane)).
    + exact I.
    + left. reflexivity.
Defined.

(* ================================================================== *)
(** * The customer *)
(* ================================================================== *)

Lemma mustString_false (v : value) : mustString v = false <-> ~ nonblank v.
Proof.
  rewrite <- mustString_nonblank. destruct (mustString v); split; congruence.
Qed.

Lemma isEmail_false (v : value) : isEmail v = false <-> ~ email_shape v.
Proof.
  rewrite <- isEmail_shape. destruct (isEmail v); split; congruence.
Qed.

(** The check of lines 116 (62), in the words of the specification. *)
Lemma customer_check (customer : JSON) :
  mustString (get customer "name") && mustString (get customer "phone")
    && isEmail (get customer "email") = false
  <-> (~ nonblank (get customer "name")
       \/ ~ nonblank (get customer "phone")
       \/ ~ email_shape (get customer "email")).
Proof.
  rewrite !andb_false_iff, !mustString_false, isEmail_false. tauto.
Qed.

(** C3 as stated fails: the start is the last instant a [Date] can hold,
    there is no end, and the name is blank.  The fallback for the end
    throws before the customer is looked at, and the response is 500, not
    the 400 of the customer check. *)
Lemma C3_counterexample :
  let req := Fake.post
               (JObj [(lit "startIso", Fake.str "+275760-09-13T00:00:00.000Z")])
               (Fake.customer " " "555-1234" "jane@example.com") in
  let cal := Fake.calendar (Fake.freebusy "primary" []) Fake.created_event
               (Returned tt) in
  toIsoOrNull (host := Fake.utc_host) (get (slot_of req) "startIso")
  = Some 8640000000000000
  /\ ~ nonblank (get (customer_of req) "name")
  /\ run cal (serve (host := Fake.utc_host) ExpressRoute Fake.default_env req) tt
     = ([], Some server_error)
  /\ run cal (serve (host := Fake.utc_host) ExpressRoute Fake.default_env req) tt
     <> ([], Some invalid_customer).
Proof.
  intros req cal. split; [reflexivity|]. split.
  - apply mustString_false. reflexivity.
  - split; [vm_compute; reflexivity | vm_compute; discriminate].
Qed.

(** C3, amended.  On either endpoint, for a booking request whose start is
    a valid instant and whose end is given and valid or else derived
    without error: the run, against any calendar, makes no call and is
    answered 400 with [{"error": "Please provide name, phone, and a valid
    email."}] if and only if [customer.name] is not a string that is not
    blank, or [customer.phone] is not, or [customer.email] has not the
    [local@domain.tld] shape (three parts free of white space and of [@],
    none empty, joined by [@] and by a dot).  In particular an email that
    has not that shape is refused whatever the other fields. *)
Theorem C3_customer_validation :
  forall (host : Host) (p : Endpoint) (env : Env) (req : Request)
         (s e : IsoString) (World : Type) (cal : Calendar World) (w : World),
    booking_request p env req ->
    toIsoOrNull (get (slot_of req) "startIso") = Some s ->
    end_of env (slot_of req) s = Some e ->
    (run cal (serve p env req) w = ([], Some invalid_customer)
     <-> (~ nonblank (get (customer_of req) "name")
          \/ ~ nonblank (get (customer_of req) "phone")
          \/ ~ email_shape (get (customer_of req) "email")))
    /\ (~ email_shape (get (customer_of req) "email") ->
        run cal (serve p env req) w = ([], Some invalid_customer)).
Proof.
  intros host p env req s e World cal w Hreq Hs He.
  assert (Hiff :
    run cal (serve p env req) w = ([], Some invalid_customer)
    <-> (~ nonblank (get (customer_of req) "name")
         \/ ~ nonblank (get (customer_of req) "phone")
         \/ ~ email_shape (get (customer_of req) "email"))).
  { rewrite <- customer_check.
    destruct (run_serve cal p env req w Hreq) as (calls & r & Hrun & Hserved).
    unfold Served in Hserved. rewrite Hs, He in Hserved. rewrite Hrun.
    split.
    - intros Heq. injection Heq as -> ->.
      inversion Hserved; subst. assumption.
    - intros Hbad. rewrite (serve_steps p env req Hreq), Hs, He in Hrun.
      assert (Hb : book_slot p env (slot_of req) (customer_of req)
                     (title_of (slot_of req)) s e = Return invalid_customer).
      { destruct p; cbn [book_slot];
          unfold Server.book_slot, Serverless.book_slot;
          rewrite <- !negb_andb, Hbad; reflexivity. }
      rewrite Hb in Hrun. cbn in Hrun. congruence. }
  split; [exact Hiff | intros H; apply Hiff; auto].
Qed.

Lemma C3_customer_validation_witness :
  let req := Fake.post (JObj [(lit "startIso", Fake.str "2025-03-01T10:00:00Z")])
               (Fake.customer "Jane" "555-1234" "not-an-email") in
  let cal := Fake.calendar (Fake.freebusy "primary" []) Fake.created_event
               (Returned tt) in
  run cal (serve (host := Fake.utc_host) ServerlessFunction Fake.default_env req)
      tt
  = ([], Some invalid_customer).
Proof.
  intros req cal.
  apply (C3_customer_validation Fake.utc_host ServerlessFunction
           Fake.default_env req 1740823200000 1740826800000 unit cal tt).
  - split; reflexivity.
  - reflexivity.
  - reflexivity.
  - apply isEmail_false. reflexivity.
Defined.

(* ================================================================== *)
(** * The clean-up of the availability placeholder *)
(* ================================================================== *)

Lemma cleanup_enabled_spec (env : Env) (slot : JSON) :
  cleanup_enabled env slot = true <->
  Config.delete_availability env = lit "true"
  /\ nonblank (get slot "availabilityEventId").
Proof.
  unfold cleanup_enabled.
  rewrite andb_true_iff, jsstring_eqb_eq, mustString_nonblank. tauto.
Qed.

(** C5.  Whatever the request and the calendar, on either endpoint:
    - every delete call of a run comes right after an insert call that
      returned;
    - a delete call is made only when [DELETE_AVAILABILITY] is ["true"]
      and [slot.availabilityEventId] is a string that is not blank;
    - when [DELETE_AVAILABILITY] is anything else, or is not set (the
      default is ["false"]), no delete call is made, whatever the
      identifier;
    - whatever the delete call did (returned or threw), the response is
      the 200 success response for what the insert returned. *)
Theorem C5_cleanup_is_optional_and_silent :
  forall (host : Host) (p : Endpoint) (env : Env) (req : Request)
         (World : Type) (cal : Calendar World) (w : World),
    deletes_follow_insert None (calls_of cal (serve p env req) w)
    /\ (forall d o,
          In (DeleteCall d o) (calls_of cal (serve p env req) w) ->
          Config.delete_availability env = lit "true"
          /\ nonblank (get (slot_of req) "availabilityEventId"))
    /\ (DELETE_AVAILABILITY env <> Some (lit "true") ->
        forall c, In c (calls_of cal (serve p env req) w) ->
                  is_delete c = false)
    /\ (forall d o,
          In (DeleteCall d o) (calls_of cal (serve p env req) w) ->
          exists q created,
            In (InsertCall q (Returned created))
               (calls_of cal (serve p env req) w)
            /\ result_of cal (serve p env req) w = Some (success created)).
Proof.
  intros host p env req World cal w. unfold calls_of, result_of.
  destruct (run_serve_any cal p env req w) as (calls & r & -> & [-> | [_ Hs]]);
    cbn [fst snd].
  - split; [exact I|]. split; [intros d o []|].
    split; [intros _ c [] | intros d o []].
  - assert (Hflag : DELETE_AVAILABILITY env <> Some (lit "true") ->
                    cleanup_enabled env (slot_of req) = false).
    { intros Hne. unfold cleanup_enabled, Config.delete_availability, default.
      destruct (DELETE_AVAILABILITY env) as [f|]; [|reflexivity].
      destruct (jsstring_eqb f (lit "true")) eqn:Hf; [|reflexivity].
      apply jsstring_eqb_eq in Hf. congruence. }
    courses Hs; cbn [deletes_follow_insert is_delete In];
      (split; [repeat split; try discriminate; auto|]);
      (split; [intros d' o' Hin; in_calls Hin;
               apply cleanup_enabled_spec; assumption|]);
      (split; [intros Hne c Hc; specialize (Hflag Hne);
               in_calls Hc; try reflexivity; congruence|]);
      intros d' o' Hin; in_calls Hin.
    eexists _, _. split; [right; left; reflexivity | reflexivity].
Qed.

Lemma C5_cleanup_is_optional_and_silent_witness :
  let cal := Fake.calendar (Fake.freebusy "primary" []) Fake.created_event
               Thrown in
  let req := Fake.post (JObj [(lit "startIso", Fake.str "2025-03-01T10:00:00Z");
                              (lit "availabilityEventId", Fake.str "avail42")])
               Fake.jane in
  let env := Fake.env None (Some (lit "true")) in
  exists q created,
    In (InsertCall q (Returned created))
       (calls_of cal (serve (host := Fake.utc_host) ServerlessFunction env req) tt)
    /\ result_of cal (serve (host := Fake.utc_host) ServerlessFunction env req) tt
       = Some (success created).
Proof.
  intros cal req env.
  refine (proj2 (proj2 (proj2
            (C5_cleanup_is_optional_and_silent Fake.utc_host ServerlessFunction
               env req unit cal tt)))
            (the_delete env (slot_of req)) Thrown _).
  vm_compute. right; right; left. reflexivity.
Defined.

(* ================================================================== *)
(** * The success response *)
(* ================================================================== *)

Lemma or_null_as_returned (x : option jsstring) :
  x <> Some [] -> or_null x = as_returned x.
Proof.
  destruct x as [[|c s]|]; simpl; intros H; try reflexivity.
  exfalso; apply H; reflexivity.
Qed.

(** C6 as stated fails: the calendar returns an event whose [id] is the
    empty string, and the response carries [null], not that string. *)
Lemma C6_counterexample :
  let created := Some {| data := Some {| id := Some [];
                                         htmlLink := Some (lit "https://calendar.example/e") |} |} in
  let cal := Fake.calendar (Fake.freebusy "primary" []) (Returned created)
               (Returned tt) in
  existsb is_insert
    (calls_of cal (serve (host := Fake.utc_host) ExpressRoute
                     Fake.default_env Fake.scenario) tt) = true
  /\ result_of cal (serve (host := Fake.utc_host) ExpressRoute
                      Fake.default_env Fake.scenario) tt
     <> Some (success_as_returned created).
Proof.
  split; [reflexivity | vm_compute; discriminate].
Qed.

(** C6, amended.  Whatever the request and the calendar, on either
    endpoint: when an insert call of the run returned, the response is
    200 with [ok: true] and with [eventId] and [htmlLink] equal to
    [created?.data?.id || null] and [created?.data?.htmlLink || null]:
    the string the calendar returned when it is not empty, [null] when it
    is absent or empty, whether the reply, its [data] or the member is
    what is missing.  In particular, when neither string is empty the
    response passes both through as they are. *)
Theorem C6_success_payload :
  forall (host : Host) (p : Endpoint) (env : Env) (req : Request)
         (World : Type) (cal : Calendar World) (w : World)
         (q : InsertRequest) (created : option (Reply Event)),
    In (InsertCall q (Returned created)) (calls_of cal (serve p env req) w) ->
    result_of cal (serve p env req) w = Some (success created)
    /\ (created_id created <> Some [] ->
        created_htmlLink created <> Some [] ->
        result_of cal (serve p env req) w = Some (success_as_returned created)).
Proof.
  intros host p env req World cal w q created. unfold calls_of, result_of.
  destruct (run_serve_any cal p env req w) as (calls & r & -> & [-> | [_ Hs]]);
    cbn [fst snd]; [intros []|].
  intros Hin.
  assert (Hr : r = success created).
  { courses Hs; in_calls Hin; reflexivity. }
  subst r. split; [reflexivity|].
  intros Hid Hlink. unfold success, success_as_returned.
  now rewrite (or_null_as_returned _ Hid), (or_null_as_returned _ Hlink).
Qed.

Lemma C6_success_payload_witness :
  let cal := Fake.calendar (Fake.freebusy "primary" [])
               (Returned (Some {| data := None |})) (Returned tt) in
  result_of cal (serve (host := Fake.utc_host) ExpressRoute
                   Fake.default_env Fake.scenario) tt
  = Some (json 200 (JObj [ (lit "ok", JBool true); (lit "eventId", JNull);
                           (lit "htmlLink", JNull) ])).
Proof.
  intros cal.
  refine (proj1 (C6_success_payload Fake.utc_host ExpressRoute
                   Fake.default_env Fake.scenario unit cal tt
                   (the_insert server_js_dash Fake.default_env Fake.jane
                      (lit "Training Session") (lit "Jane") (lit "555-1234")
                      (lit "jane@example.com") 1740823200000 1740826800000)
                   (Some {| data := None |}) _)).
  vm_compute. right; left. reflexivity.
Defined.

(* ================================================================== *)
(** * The created event *)
(* ================================================================== *)

(** What every insert call of a run carries: the request the courses
    describe, for the customer's three strings. *)
Lemma insert_call_request {host : Host} (p : Endpoint) (env : Env)
    (req : Request) (World : Type) (cal : Calendar World) (w : World)
    (q : InsertRequest) (o : Outcome (option (Reply Event))) :
  In (InsertCall q o) (calls_of cal (serve p env req) w) ->
  exists name phone email s e,
    get (customer_of req) "name" = Some (JStr name)
    /\ get (customer_of req) "phone" = Some (JStr phone)
    /\ get (customer_of req) "email" = Some (JStr email)
    /\ toIsoOrNull (get (slot_of req) "startIso") = Some s
    /\ end_of env (slot_of req) s = Some e
    /\ q = the_insert (dash_of p) env (customer_of req)
             (title_of (slot_of req)) name phone email s e.
Proof.
  unfold calls_of.
  destruct (run_serve_any cal p env req w) as (calls & r & -> & [-> | [_ Hs]]);
    cbn [fst]; [intros []|].
  intros Hin.
  courses Hs; in_calls Hin; eexists _, _, _, _, _; repeat split; eassumption.
Qed.

(** The summary of every event either endpoint creates, with the dash of
    its file. *)
Lemma summary_of_created_event {host : Host} (p : Endpoint) (env : Env)
    (req : Request) (World : Type) (cal : Calendar World) (w : World)
    (q : InsertRequest) (o : Outcome (option (Reply Event))) :
  In (InsertCall q o) (calls_of cal (serve p env req) w) ->
  exists name,
    get (customer_of req) "name" = Some (JStr name)
    /\ summary q
       = lit "BOOKED: " ++ title_of (slot_of req) ++ lit " " ++ dash_of p
           ++ lit " " ++ name.
Proof.
  intros Hin.
  destruct (insert_call_request _ _ _ _ _ _ _ _ Hin)
    as (name & phone & email & s & e & Hn & _ & _ & _ & _ & ->).
  exists name. split; [exact Hn | reflexivity].
Qed.

(** The serverless handler composes the summary as C7 words it. *)
Lemma serverless_summary {host : Host} (env : Env) (req : Request)
    (World : Type) (cal : Calendar World) (w : World)
    (q : InsertRequest) (o : Outcome (option (Reply Event))) :
  In (InsertCall q o) (calls_of cal (serve ServerlessFunction env req) w) ->
  exists name,
    get (customer_of req) "name" = Some (JStr name)
    /\ summary q
       = lit "BOOKED: " ++ title_of (slot_of req) ++ lit " " ++ [0x2014%N]
           ++ lit " " ++ name.
Proof. apply summary_of_created_event. Qed.

(** With the dash of [src/server.js] the summary is never the one with
    the em dash, whatever the title and the name. *)
Lemma server_js_summary_differs (title name : jsstring) :
  summary_of server_js_dash title name <> summary_of em_dash title name.
Proof.
  unfold summary_of. intros H.
  apply app_inv_head in H. apply app_inv_head in H.
  discriminate H.
Qed.

(** C7, on [src/server.js].  For the request of the specification's
    scenario (no title, customer Jane) and a free calendar, the Express
    route inserts an event whose summary is [BOOKED: Training Session],
    a space, the three characters U+00E2 U+20AC U+201D, a space and
    [Jane]: not the summary with the em dash U+2014 that C7 states and
    that the serverless handler composes. *)
Theorem C7_server_js_summary :
  let cal := Fake.calendar (Fake.freebusy "primary" []) Fake.created_event
               (Returned tt) in
  map (fun c => match c with
                | InsertCall q _ => Some (summary q)
                | _ => None
                end)
      (calls_of cal (serve (host := Fake.utc_host) ExpressRoute
                       Fake.default_env Fake.scenario) tt)
  = [ None;
      Some (lit "BOOKED: Training Session " ++ [0x00E2; 0x20AC; 0x201D]%N
            ++ lit " Jane") ]
  /\ lit "BOOKED: Training Session " ++ [0x00E2; 0x20AC; 0x201D]%N ++ lit " Jane"
     <> lit "BOOKED: " ++ lit "Training Session" ++ lit " " ++ [0x2014%N]
        ++ lit " " ++ lit "Jane"
  /\ map (fun c => match c with
                   | InsertCall q _ => Some (summary q)
                   | _ => None
                   end)
       (calls_of cal (serve (host := Fake.utc_host) ServerlessFunction
                        Fake.default_env Fake.scenario) tt)
     = [ None;
         Some (lit "BOOKED: " ++ lit "Training Session" ++ lit " " ++ [0x2014%N]
               ++ lit " " ++ lit "Jane") ].
Proof.
  split; [reflexivity|]. split; [vm_compute; discriminate | reflexivity].
Qed.

Lemma description_of_notes (name phone email notes : jsstring) :
  trim notes <> [] ->
  description_of name phone email (Some (JStr notes))
  = join newline (description_head name phone email
                  ++ [ []; lit "Notes:"; trim notes ]).
Proof.
  intros H. unfold description_of. destruct (trim notes); [congruence|reflexivity].
Qed.

Lemma description_of_no_notes (name phone email : jsstring) (notes : value) :
  ~ nonblank notes ->
  description_of name phone email notes
  = join newline (description_head name phone email).
Proof.
  intros H. unfold description_of.
  destruct notes as [[| | |n| |]|]; rewrite ?app_nil_r; try reflexivity.
  destruct (trim n) eqn:Hn; [rewrite app_nil_r; reflexivity|].
  exfalso. apply H. exists n. split; [reflexivity | congruence].
Qed.

(** C8.  Whatever the request and the calendar, on either endpoint: the
    event of every insert call has as its description the lines
    [Booked via website], an empty line, [Player: ] and the name,
    [Phone: ] and the phone, [Email: ] and the email, joined by line
    feeds; when [customer.notes] is a string that is not blank, and only
    then, an empty line, the line [Notes:] and the trimmed notes
    follow. *)
Theorem C8_description :
  forall (host : Host) (p : Endpoint) (env : Env) (req : Request)
         (World : Type) (cal : Calendar World) (w : World)
         (q : InsertRequest) (o : Outcome (option (Reply Event))),
    In (InsertCall q o) (calls_of cal (serve p env req) w) ->
    exists name phone email,
      get (customer_of req) "name" = Some (JStr name)
      /\ get (customer_of req) "phone" = Some (JStr phone)
      /\ get (customer_of req) "email" = Some (JStr email)
      /\ (forall notes,
            get (customer_of req) "notes" = Some (JStr notes) ->
            trim notes <> [] ->
            description q
            = join newline
                ([ lit "Booked via website"; [];
                   lit "Player: " ++ name;
                   lit "Phone: " ++ phone;
                   lit "Email: " ++ email ]
                 ++ [ []; lit "Notes:"; trim notes ]))
      /\ (~ nonblank (get (customer_of req) "notes") ->
            description q
            = join newline
                [ lit "Booked via website"; [];
                  lit "Player: " ++ name;
                  lit "Phone: " ++ phone;
                  lit "Email: " ++ email ]).
Proof.
  intros host p env req World cal w q o Hin.
  destruct (insert_call_request _ _ _ _ _ _ _ _ Hin)
    as (name & phone & email & s & e & Hn & Hp & He & _ & _ & ->).
  exists name, phone, email. repeat split; try assumption.
  - intros notes Hnotes Hne. cbn [description the_insert].
    rewrite Hnotes. now apply description_of_notes.
  - intros Hblank. cbn [description the_insert].
    now apply description_of_no_notes.
Qed.

Lemma C8_description_witness :
  let cal := Fake.calendar (Fake.freebusy "primary" []) Fake.created_event
               (Returned tt) in
  let req := Fake.post (JObj [(lit "startIso", Fake.str "2025-03-01T10:00:00Z")])
               (JObj [(lit "name", Fake.str "Jane");
                      (lit "phone", Fake.str "555-1234");
                      (lit "email", Fake.str "jane@example.com");
                      (lit "notes", Fake.str "  left-handed ")]) in
  exists q o,
    In (InsertCall q o)
       (calls_of cal (serve (host := Fake.utc_host) ServerlessFunction
                        Fake.default_env req) tt)
    /\ description q
       = lit "Booked via website" ++ newline ++ newline
         ++ lit "Player: Jane" ++ newline
         ++ lit "Phone: 555-1234" ++ newline
         ++ lit "Email: jane@example.com" ++ newline ++ newline
         ++ lit "Notes:" ++ newline ++ lit "left-handed".
Proof.
  intros cal req.
  pose (q := the_insert em_dash Fake.default_env (customer_of req)
               (lit "Training Session") (lit "Jane") (lit "555-1234")
               (lit "jane@example.com") 1740823200000 1740826800000).
  assert (Hin : In (InsertCall q Fake.created_event)
                  (calls_of cal (serve (host := Fake.utc_host)
                                   ServerlessFunction Fake.default_env req) tt)).
  { vm_compute. right; left. reflexivity. }
  exists q, Fake.created_event. split; [exact Hin|].
  destruct (C8_description Fake.utc_host ServerlessFunction Fake.default_env
              req unit cal tt q Fake.created_event Hin)
    as (name & phone & email & Hn & Hp & He & Hnotes & _).
  injection Hn as <-. injection Hp as <-. injection He as <-.
  rewrite (Hnotes (lit "  left-handed ")); [reflexivity | reflexivity |].
  vm_compute. discriminate.
Defined.


(* ================================================================== *)
(** * The end time *)
(* ================================================================== *)

(** C4 as stated fails: the start is the last instant a [Date] can hold
    and there is no end.  The fallback leaves the range of time values,
    [toISOString] throws, no end is derived and the request fails with
    500, although the customer is valid and the calendar is free. *)
Lemma C4_counterexample :
  let req := Fake.post
               (JObj [(lit "startIso", Fake.str "+275760-09-13T00:00:00.000Z")])
               Fake.jane in
  let cal := Fake.calendar (Fake.freebusy "primary" []) Fake.created_event
               (Returned tt) in
  toIsoOrNull (host := Fake.utc_host) (get (slot_of req) "startIso")
  = Some 8640000000000000
  /\ minutes_of (Config.booking_duration_minutes Fake.default_env) = Num.of_Z 60
  /\ end_of (host := Fake.utc_host) Fake.default_env (slot_of req)
       8640000000000000 = None
  /\ run cal (serve (host := Fake.utc_host) ExpressRoute Fake.default_env req) tt
     = ([], Some server_error).
Proof.
  intros req cal. repeat split; vm_compute; reflexivity.
Qed.

(** Two more ways in which the fallback is not the start plus the
    configured minutes; the amended C4 below leaves both out.  Minutes
    with a fraction are truncated by [setMinutes]; and [setMinutes] works
    on the local time of the process, so that across a change of the
    zone's offset the distance is not the configured one. *)
Example fallback_truncates_fraction :
  fallback_end (host := Fake.utc_host) 1740823200000 (lit "90.5")
  = Some (1740823200000 + 90 * 60000).
Proof. vm_compute. reflexivity. Qed.

Example fallback_across_zone_transition :
  fallback_end (host := Fake.autumn_host 1762063200000) 1762061400000 (lit "60")
  = Some (1762061400000 + 120 * 60000).
Proof. vm_compute. reflexivity. Qed.

Lemma clipped_range (x : number) (t : Z) :
  Some (Time.TimeClip x) = Some (Some t) -> Z.abs t <= Time.maxTime.
Proof. intros H. apply (NumFacts.TimeClip_range x). congruence. Qed.

(** The instant [toIsoOrNull] gives is a time value. *)
Lemma toIsoOrNull_range {host : Host} (v : value) (s : IsoString) :
  toIsoOrNull v = Some s -> Z.abs s <= Time.maxTime.
Proof.
  unfold toIsoOrNull, toISOString.
  destruct (new_Date v) as [[t|]|] eqn:Hd; try discriminate.
  intros Hs. injection Hs as <-.
  unfold new_Date in Hd.
  destruct v as [[|b|n|str|items|members]|];
    repeat match type of Hd with
           | match ?x with _ => _ end = _ => destruct x; [|discriminate]
           end;
    try discriminate;
    exact (clipped_range _ _ Hd).
Qed.

Lemma default_minutes (env : Env) :
  BOOKING_DURATION_MINUTES env = None ->
  minutes_of (Config.booking_duration_minutes env) = Num.of_Z 60.
Proof.
  intros H. unfold Config.booking_duration_minutes. rewrite H. reflexivity.
Qed.

(** C4, amended.  On either endpoint, for a booking request whose start
    is a valid instant [s] and whose [slot.endIso] is absent or does not
    parse, when the minutes of the fallback
    ([Number(BOOKING_DURATION_MINUTES) || 60], so 60 by default) are a
    whole number [m] of at most 6000000000 in magnitude, on a host whose
    zone has one offset at the start and at the local time arrived at:
    - if [s] plus [m] minutes is within the range of time values, the
      end is exactly that instant and the handler goes on to the customer
      check with it;
    - if not, no end is derived and the response is 500 with
      [{"error": "Server error creating booking."}]. *)
Theorem C4_fallback_end :
  forall (host : Host) (p : Endpoint) (env : Env) (req : Request)
         (s m c : Z),
    booking_request p env req ->
    toIsoOrNull (get (slot_of req) "startIso") = Some s ->
    toIsoOrNull (get (slot_of req) "endIso") = None ->
    minutes_of (Config.booking_duration_minutes env) = Num.of_Z m ->
    Z.abs m <= 6000000000 ->
    Z.abs c <= Time.msPerDay ->
    LocalTZA s true = c ->
    LocalTZA (s + c + m * 60000) false = c ->
    (BOOKING_DURATION_MINUTES env = None -> m = 60)
    /\ (Z.abs (s + m * 60000) <= Time.maxTime ->
        end_of env (slot_of req) s = Some (s + m * 60000)
        /\ serve p env req
           = try_catch
               (book_slot p env (slot_of req) (customer_of req)
                  (title_of (slot_of req)) s (s + m * 60000))
               (Return server_error))
    /\ (Time.maxTime < Z.abs (s + m * 60000) ->
        end_of env (slot_of req) s = None
        /\ serve p env req = Return server_error).
Proof.
  intros host p env req s m c Hreq Hstart Hend Hmin Hm Hc Htz1 Htz2.
  pose proof (toIsoOrNull_range _ _ Hstart) as Hs.
  assert (Hfb : fallback_end s (Config.booking_duration_minutes env)
                = if Time.maxTime <? Z.abs (s + m * 60000) then None
                  else Some (s + m * 60000)).
  { unfold fallback_end, new_Date_of_iso, toISOString. rewrite Hmin.
    apply (TimeFacts.setMinutes_whole s m c); assumption. }
  assert (Hend_of : end_of env (slot_of req) s
                    = if Time.maxTime <? Z.abs (s + m * 60000) then None
                      else Some (s + m * 60000)).
  { unfold end_of. rewrite Hend. exact Hfb. }
  split; [|split].
  - intros Hunset. rewrite (default_minutes env Hunset) in Hmin.
    apply (f_equal Num.truncate) in Hmin.
    rewrite (NumFacts.truncate_of_Z m) in Hmin
      by (apply TimeFacts.safe_intro; lia).
    rewrite <- Hmin. reflexivity.
  - intros Hin. apply Z.ltb_ge in Hin. rewrite Hin in Hend_of.
    split; [exact Hend_of|].
    rewrite (serve_steps p env req Hreq), Hstart, Hend_of. reflexivity.
  - intros Hout. apply Z.ltb_lt in Hout. rewrite Hout in Hend_of.
    split; [exact Hend_of|].
    rewrite (serve_steps p env req Hreq), Hstart, Hend_of. reflexivity.
Qed.

Lemma C4_fallback_end_witness :
  end_of (host := Fake.utc_host) Fake.default_env (slot_of Fake.scenario)
    1740823200000
  = Some (1740823200000 + 60 * 60000).
Proof.
  apply (C4_fallback_end Fake.utc_host ServerlessFunction Fake.default_env
           Fake.scenario 1740823200000 60 0).
  - split; reflexivity.
  - reflexivity.
  - reflexivity.
  - reflexivity.
  - vm_compute. discriminate.
  - vm_compute. discriminate.
  - reflexivity.
  - reflexivity.
  - vm_compute. discriminate.
Defined.

(** The first scenario of the specification, on the serverless handler:
    a free calendar, an event for 10:00 to 11:00 UTC with the summary
    [BOOKED: Training Session], an em dash and [Jane], and the response
    200 with what the calendar returned. *)
Example scenario_booked :
  run (Fake.calendar (Fake.freebusy "primary" []) Fake.created_event
         (Returned tt))
      (serve (host := Fake.utc_host) ServerlessFunction Fake.default_env
         Fake.scenario) tt
  = ( [ QueryCall (the_query Fake.default_env 1740823200000 1740826800000)
          (Fake.freebusy "primary" []);
        InsertCall
          (the_insert em_dash Fake.default_env Fake.jane
             (lit "Training Session") (lit "Jane") (lit "555-1234")
             (lit "jane@example.com") 1740823200000 1740826800000)
          Fake.created_event ],
      Some (json 200
              (JObj [ (lit "ok", JBool true);
                      (lit "eventId", JStr (lit "evt123"));
                      (lit "htmlLink",
                       JStr (lit "https://calendar.example/event?eid=evt123")) ])) ).
Proof. vm_compute. reflexivity. Qed.
(* ================================================================== *)
(** * The method check of the serverless handler *)
(* ================================================================== *)

(** C10.  In the serverless handler a request whose method is [OPTIONS] is
    answered 204 without a body, and a request whose method is neither
    [OPTIONS] nor [POST] is answered 405 with [{"error": "Method not
    allowed"}].  In both cases the handler is that answer and nothing
    else: it reads neither the payload nor the configuration and calls
    the calendar not at all, whatever calendar it runs against. *)
Theorem C10_method_check :
  forall (host : Host) (env : Env) (req : Request),
    (method req = lit "OPTIONS" ->
       Serverless.handler env req = Return {| status := 204; payload := None |}
       /\ forall World (cal : Calendar World) w,
            run cal (Serverless.handler env req) w
            = ([], Some {| status := 204; payload := None |}))
    /\
    (method req <> lit "OPTIONS" -> method req <> lit "POST" ->
       Serverless.handler env req
       = Return (json 405 (error "Method not allowed"))
       /\ forall World (cal : Calendar World) w,
            run cal (Serverless.handler env req) w
            = ([], Some (json 405 (error "Method not allowed")))).
Proof.
  intros host env req; split.
  - intros Hm. unfold Serverless.handler.
    rewrite Hm, jsstring_eqb_refl. split; [reflexivity | intros; reflexivity].
  - intros Ho Hp. unfold Serverless.handler.
    apply jsstring_eqb_neq in Ho, Hp. rewrite Ho, Hp. simpl.
    split; [reflexivity | intros; reflexivity].
Qed.

Lemma C10_method_check_witness :
  (Serverless.handler (host := Fake.utc_host) Fake.default_env
     {| method := lit "OPTIONS"; body := body Fake.scenario |}
   = Return {| status := 204; payload := None |})
  /\
  (Serverless.handler (host := Fake.utc_host) Fake.default_env
     {| method := lit "GET"; body := body Fake.scenario |}
   = Return (json 405 (error "Method not allowed"))).
Proof.
  split.
  - apply (C10_method_check Fake.utc_host Fake.default_env
             {| method := lit "OPTIONS"; body := body Fake.scenario |}).
    reflexivity.
  - apply (C10_method_check Fake.utc_host Fake.default_env
             {| method := lit "GET"; body := body Fake.scenario |});
      simpl; discriminate.
Defined.


(* ================================================================== *)
(** * Further properties of the two handlers *)
(* ================================================================== *)

(** The three answers of the serverless handler to a request it does not
    take for a booking request. *)
Lemma run_serverless_other {host : Host} (env : Env) (req : Request)
    (World : Type) (cal : Calendar World) (w : World) :
  ~ booking_request ServerlessFunction env req ->
  exists r,
    run cal (Serverless.handler env req) w = ([], Some r)
    /\ (r = no_content \/ r = method_not_allowed \/ r = not_configured).
Proof.
  cbn [booking_request]. intros Hnot. unfold Serverless.handler.
  destruct (jsstring_eqb (method req) (lit "OPTIONS"));
    [exists no_content; auto|].
  destruct (jsstring_eqb (method req) (lit "POST")) eqn:Hm;
    [|exists method_not_allowed; auto].
  apply jsstring_eqb_eq in Hm. cbn [negb].
  destruct (missing (GOOGLE_CLIENT_ID env) || missing (GOOGLE_CLIENT_SECRET env)
            || missing (GOOGLE_REDIRECT_URI env)
            || missing (GOOGLE_REFRESH_TOKEN env)) eqn:Hc;
    [exists not_configured; auto|].
  exfalso. apply Hnot. split; [exact Hm|]. unfold configured. now rewrite Hc.
Qed.

(** Every run, with what is known of it: no call and one of the three
    early answers, or a served booking request. *)
Lemma run_cases {host : Host} (p : Endpoint) (env : Env) (req : Request)
    (World : Type) (cal : Calendar World) (w : World) :
  exists calls r,
    run cal (serve p env req) w = (calls, Some r)
    /\ ((calls = []
         /\ (r = no_content \/ r = method_not_allowed \/ r = not_configured))
        \/ (booking_request p env req /\ Served p env req calls r)).
Proof.
  destruct (booking_request_dec p env req) as [Hreq|Hnot].
  - destruct (run_serve cal p env req w Hreq) as (calls & r & Hrun & Hs).
    exists calls, r. auto.
  - destruct p; [cbn [booking_request] in Hnot; tauto|].
    destruct (run_serverless_other env req World cal w Hnot) as (r & Hrun & Hr).
    exists [], r. auto.
Qed.

(** X1.  Whatever the request, the configuration and the calendar, a run
    of either handler ends with a response: no exception leaves it.  The
    status is 200, 400, 409 or 500 on the Express route, and one of these
    or 204 or 405 on the serverless handler. *)
Theorem X1_always_responds :
  forall (host : Host) (p : Endpoint) (env : Env) (req : Request)
         (World : Type) (cal : Calendar World) (w : World),
    exists r,
      result_of cal (serve p env req) w = Some r
      /\ In (status r) [200; 204; 400; 405; 409; 500]
      /\ (p = ExpressRoute -> In (status r) [200; 400; 409; 500]).
Proof.
  intros host p env req World cal w. unfold result_of.
  destruct p.
  - destruct (run_serve cal ExpressRoute env req w I)
      as (calls & r & -> & Hs).
    exists r. cbn [snd]. split; [reflexivity|].
    courses Hs; cbn; tauto.
  - destruct (run_cases ServerlessFunction env req World cal w)
      as (calls & r & -> & [[_ Hr] | [_ Hs]]); cbn [snd]; exists r;
      (split; [reflexivity|]); (split; [|discriminate]).
    + destruct Hr as [-> | [-> | ->]]; cbn; tauto.
    + courses Hs; cbn; tauto.
Qed.

(** X2.  On either endpoint the response is 200 exactly when an insert
    call of the run returned.  A run in which no insert call returned
    (none was made, or the one made threw, whatever the calendar had done
    by then) is answered with another status; a run in which the insert
    call returned is answered 200, whatever the clean-up did. *)
Theorem X2_success_iff_inserted :
  forall (host : Host) (p : Endpoint) (env : Env) (req : Request)
         (World : Type) (cal : Calendar World) (w : World),
    exists r,
      result_of cal (serve p env req) w = Some r
      /\ (status r = 200 <->
          exists q created,
            In (InsertCall q (Returned created))
               (calls_of cal (serve p env req) w)).
Proof.
  intros host p env req World cal w. unfold calls_of, result_of.
  destruct (run_cases p env req World cal w)
    as (calls & r & -> & [[-> Hr] | [_ Hs]]); cbn [fst snd]; exists r;
    (split; [reflexivity|]).
  - split.
    + destruct Hr as [-> | [-> | ->]]; discriminate.
    + intros (q & created & []).
  - courses Hs; cbn [status success json invalid_start invalid_customer
                     slot_conflict server_error];
      (split;
       [ intros H200; try discriminate H200; do 2 eexists; cbn [In];
         right; left; reflexivity
       | intros (q' & created' & Hin); in_calls Hin; reflexivity ]).
Qed.

(** X3.  The calls of a run are an initial part of: one free/busy query,
    one insert, one delete.  No run queries, inserts or deletes twice, and
    none inserts without having queried or deletes without having
    inserted. *)
Theorem X3_call_order :
  forall (host : Host) (p : Endpoint) (env : Env) (req : Request)
         (World : Type) (cal : Calendar World) (w : World),
    In (map kind_of (calls_of cal (serve p env req) w))
       [ []; [Query]; [Query; Insert]; [Query; Insert; Delete] ].
Proof.
  intros host p env req World cal w. unfold calls_of.
  destruct (run_cases p env req World cal w)
    as (calls & r & -> & [[-> _] | [_ Hs]]); cbn [fst].
  - cbn. tauto.
  - courses Hs; cbn; tauto.
Qed.

(** X4.  When the free/busy query or the insert of a run throws, that call
    is the last of the run and the response is 500 with
    [{"error": "Server error creating booking."}]: a failed query is
    followed by no insert, a failed insert by no delete. *)
Theorem X4_calendar_failure :
  forall (host : Host) (p : Endpoint) (env : Env) (req : Request)
         (World : Type) (cal : Calendar World) (w : World) (c : Call),
    In c (calls_of cal (serve p env req) w) ->
    fatal c = true ->
    result_of cal (serve p env req) w = Some server_error
    /\ exists before, calls_of cal (serve p env req) w = before ++ [c].
Proof.
  intros host p env req World cal w c. unfold calls_of, result_of.
  destruct (run_cases p env req World cal w)
    as (calls & r & -> & [[-> _] | [_ Hs]]); cbn [fst snd].
  - intros [].
  - courses Hs; intros Hin Hf; in_calls Hin; try discriminate Hf;
      (split; [reflexivity|]).
    + exists []. reflexivity.
    + eexists [_]. reflexivity.
Qed.

Lemma X4_calendar_failure_witness :
  let cal := Fake.calendar (Fake.freebusy "primary" []) Thrown (Returned tt) in
  let run_ := serve (host := Fake.utc_host) ExpressRoute Fake.default_env
                Fake.scenario in
  let c := InsertCall
             (the_insert server_js_dash Fake.default_env Fake.jane
                (lit "Training Session") (lit "Jane") (lit "555-1234")
                (lit "jane@example.com") 1740823200000 1740826800000)
             Thrown in
  result_of cal run_ tt = Some server_error
  /\ exists before, calls_of cal run_ tt = before ++ [c].
Proof.
  intros cal run_ c.
  apply (X4_calendar_failure Fake.utc_host ExpressRoute Fake.default_env
           Fake.scenario unit cal tt c).
  - vm_compute. right. left. reflexivity.
  - reflexivity.
Defined.

(** X5.  The interval that is inserted is the interval that was checked:
    every insert call of a run comes with a free/busy query of the same
    run that returned, asked for the same calendar, the same time zone and
    the same start and end as the event carries.  The event has the one
    attendee [customer.email] and is sent with [sendUpdates: "all"]. *)
Theorem X5_insert_matches_query :
  forall (host : Host) (p : Endpoint) (env : Env) (req : Request)
         (World : Type) (cal : Calendar World) (w : World)
         (q : InsertRequest) (o : Outcome (option (Reply Event))),
    In (InsertCall q o) (calls_of cal (serve p env req) w) ->
    (exists fq fb,
        In (QueryCall fq (Returned fb)) (calls_of cal (serve p env req) w)
        /\ timeMin fq = dateTime (start q)
        /\ timeMax fq = dateTime (end_ q)
        /\ timeZone fq = dt_timeZone (start q)
        /\ timeZone fq = dt_timeZone (end_ q)
        /\ items fq = [ins_calendarId q])
    /\ attendees q = [get (customer_of req) "email"]
    /\ ins_sendUpdates q = lit "all".
Proof.
  intros host p env req World cal w q o. unfold calls_of.
  destruct (run_cases p env req World cal w)
    as (calls & r & -> & [[-> _] | [_ Hs]]); cbn [fst].
  - intros [].
  - courses Hs; intros Hin; in_calls Hin;
      (split; [do 2 eexists; split; [cbn [In]; left; reflexivity|];
               repeat split |]);
      (split; [cbn [attendees the_insert] | reflexivity]);
      match goal with
      | He : _ = Some (JStr ?e) |- [Some (JStr ?e)] = _ =>
          rewrite He; reflexivity
      end.
Qed.

Lemma X5_insert_matches_query_witness :
  let cal := Fake.calendar (Fake.freebusy "primary" []) Fake.created_event
               (Returned tt) in
  let run_ := serve (host := Fake.utc_host) ServerlessFunction
                Fake.default_env Fake.scenario in
  let q := the_insert em_dash Fake.default_env Fake.jane
             (lit "Training Session") (lit "Jane") (lit "555-1234")
             (lit "jane@example.com") 1740823200000 1740826800000 in
  (exists fq fb,
      In (QueryCall fq (Returned fb)) (calls_of cal run_ tt)
      /\ timeMin fq = dateTime (start q)
      /\ timeMax fq = dateTime (end_ q)
      /\ timeZone fq = dt_timeZone (start q)
      /\ timeZone fq = dt_timeZone (end_ q)
      /\ items fq = [ins_calendarId q])
  /\ attendees q = [get (customer_of Fake.scenario) "email"]
  /\ ins_sendUpdates q = lit "all".
Proof.
  intros cal run_ q.
  apply (X5_insert_matches_query Fake.utc_host ServerlessFunction
           Fake.default_env Fake.scenario unit cal tt q Fake.created_event).
  vm_compute. right. left. reflexivity.
Defined.

(** A reply that lists no busy interval for the calendar: none at all, one
    without [data] or [calendars], one that does not name the calendar, or
    one whose entry has no [busy] or an empty one. *)
Lemma busy_of_nil (fb : option (Reply FreeBusyResponse)) (id : jsstring) :
  (forall cs b,
      fb = reply_with cs -> lookup id cs = Some {| busy := Some b |} ->
      b = []) ->
  busy_of fb id = [].
Proof.
  intros H. unfold busy_of.
  destruct fb as [[[[[cs|]]|]]|]; try reflexivity.
  destruct (lookup id cs) as [[[b|]]|] eqn:Hl; try reflexivity.
  exact (H cs b eq_refl Hl).
Qed.

(** X6.  Once the free/busy query of a run has returned, an insert is
    attempted exactly when the reply lists no busy interval for the target
    calendar: after a free answer nothing but the insert follows.  What
    counts as free is everything but a non-empty [busy] list under the
    identifier of the target calendar; a reply that is empty, or that
    names other calendars only, leads to the insert as well. *)
Theorem X6_free_slot_is_booked :
  forall (host : Host) (p : Endpoint) (env : Env) (req : Request)
         (World : Type) (cal : Calendar World) (w : World)
         (fq : FreeBusyRequest) (fb : option (Reply FreeBusyResponse)),
    In (QueryCall fq (Returned fb)) (calls_of cal (serve p env req) w) ->
    (busy_of fb (Config.calendar_id env) = [] <->
     exists q o, In (InsertCall q o) (calls_of cal (serve p env req) w))
    /\ ((forall cs b,
            fb = reply_with cs ->
            lookup (Config.calendar_id env) cs = Some {| busy := Some b |} ->
            b = []) ->
        exists q o, In (InsertCall q o) (calls_of cal (serve p env req) w)).
Proof.
  intros host p env req World cal w fq fb Hin.
  assert (Hiff : busy_of fb (Config.calendar_id env) = [] <->
                 exists q o, In (InsertCall q o)
                               (calls_of cal (serve p env req) w)).
  { revert Hin. unfold calls_of.
    destruct (run_cases p env req World cal w)
      as (calls & r & -> & [[-> _] | [_ Hs]]); cbn [fst].
    - intros [].
    - courses Hs; intros Hin; in_calls Hin;
        (split;
         [ intros Hfree; try contradiction;
           do 2 eexists; cbn [In]; right; left; reflexivity
         | intros (q' & o' & Hi); in_calls Hi; assumption ]). }
  split; [exact Hiff|].
  intros Hnone. apply Hiff, busy_of_nil, Hnone.
Qed.

Lemma X6_free_slot_is_booked_witness :
  let cal := Fake.calendar (Fake.freebusy "someone-else" [Fake.one_period])
               Fake.created_event (Returned tt) in
  let run_ := serve (host := Fake.utc_host) ExpressRoute Fake.default_env
                Fake.scenario in
  exists q o, In (InsertCall q o) (calls_of cal run_ tt).
Proof.
  intros cal run_.
  refine (proj2 (X6_free_slot_is_booked Fake.utc_host ExpressRoute
                   Fake.default_env Fake.scenario unit cal tt
                   (the_query Fake.default_env 1740823200000 1740826800000)
                   (reply_with [(lit "someone-else",
                                 {| busy := Some [Fake.one_period] |})])
                   _) _).
  - vm_compute. left. reflexivity.
  - intros cs b Hcs. injection Hcs as <-. vm_compute. discriminate.
Defined.

(** X7.  After an insert that returned, the delete call is made exactly
    when [DELETE_AVAILABILITY] is ["true"] and [slot.availabilityEventId]
    is a string that is not blank.  Every delete call of a run is for the
    target calendar and for [slot.availabilityEventId] as the request
    gave it (the identifier is not trimmed), with [sendUpdates: "none"]. *)
Theorem X7_cleanup_when_enabled :
  forall (host : Host) (p : Endpoint) (env : Env) (req : Request)
         (World : Type) (cal : Calendar World) (w : World),
    (forall q created,
        In (InsertCall q (Returned created))
           (calls_of cal (serve p env req) w) ->
        (Config.delete_availability env = lit "true"
         /\ nonblank (get (slot_of req) "availabilityEventId")) ->
        exists o, In (DeleteCall (the_delete env (slot_of req)) o)
                     (calls_of cal (serve p env req) w))
    /\ (forall d o,
          In (DeleteCall d o) (calls_of cal (serve p env req) w) ->
          del_calendarId d = Config.calendar_id env
          /\ eventId d = get (slot_of req) "availabilityEventId"
          /\ del_sendUpdates d = lit "none").
Proof.
  intros host p env req World cal w. unfold calls_of.
  destruct (run_cases p env req World cal w)
    as (calls & r & -> & [[-> _] | [_ Hs]]); cbn [fst].
  - split; [intros q created [] | intros d o []].
  - courses Hs;
      (split;
       [ intros q' created' Hin Hon; in_calls Hin;
         apply cleanup_enabled_spec in Hon; try congruence;
         eexists; cbn [In]; right; right; left; reflexivity
       | intros d o Hin; in_calls Hin; repeat split ]).
Qed.

(** ** The payload *)

(** A customer that fails the check is answered on the spot. *)
Lemma book_slot_rejected {host : Host} (p : Endpoint) (env : Env)
    (slot customer : JSON) (title : jsstring) (s e : IsoString) :
  mustString (get customer "name") && mustString (get customer "phone")
    && isEmail (get customer "email") = false ->
  book_slot p env slot customer title s e = Return invalid_customer.
Proof.
  intros Hbad.
  destruct p; simpl; unfold Server.book_slot, Serverless.book_slot;
    rewrite <- !negb_andb, Hbad; reflexivity.
Qed.

(** A payload without a [slot] object has no start, one without a
    [customer] object no name. *)
Lemma get_of_no_object (v : value) (key : string) :
  (forall members, v <> Some (JObj members)) ->
  get (or_empty_object v) key = None.
Proof.
  intros H. unfold or_empty_object.
  destruct v as [[| | | | |members]|]; try reflexivity;
    try (destruct (truthy _); reflexivity).
  exfalso. exact (H members eq_refl).
Qed.

(** X8.  A run makes a call only after the whole payload has passed: the
    request is a booking request, [slot.startIso] gives an instant, an end
    has been derived, [customer.name] and [customer.phone] are strings that
    are not blank and [customer.email] has the [local@domain.tld] shape.
    A request that fails any of these reaches the calendar with nothing. *)
Theorem X8_no_call_unless_valid :
  forall (host : Host) (p : Endpoint) (env : Env) (req : Request)
         (World : Type) (cal : Calendar World) (w : World),
    calls_of cal (serve p env req) w <> [] ->
    booking_request p env req
    /\ (exists s e,
           toIsoOrNull (get (slot_of req) "startIso") = Some s
           /\ end_of env (slot_of req) s = Some e)
    /\ nonblank (get (customer_of req) "name")
    /\ nonblank (get (customer_of req) "phone")
    /\ email_shape (get (customer_of req) "email").
Proof.
  intros host p env req World cal w. unfold calls_of.
  destruct (booking_request_dec p env req) as [Hreq|Hnot].
  2:{ destruct (run_serve_other cal p env req w Hnot) as (r & ->).
      intros H. exfalso. apply H. reflexivity. }
  rewrite (serve_steps p env req Hreq).
  destruct (toIsoOrNull (get (slot_of req) "startIso")) as [s|];
    [|intros H; exfalso; apply H; reflexivity].
  destruct (end_of env (slot_of req) s) as [e|] eqn:He;
    [|intros H; exfalso; apply H; reflexivity].
  destruct (mustString (get (customer_of req) "name")
            && mustString (get (customer_of req) "phone")
            && isEmail (get (customer_of req) "email")) eqn:Hcheck.
  - intros _. apply andb_true_iff in Hcheck as [Hcheck Hemail].
    apply andb_true_iff in Hcheck as [Hname Hphone].
    split; [exact Hreq|]. split; [exists s, e; auto|].
    rewrite <- !mustString_nonblank, <- isEmail_shape. auto.
  - rewrite (book_slot_rejected p env _ _ _ s e Hcheck).
    intros H. exfalso. apply H. reflexivity.
Qed.

Lemma X8_no_call_unless_valid_witness :
  booking_request ServerlessFunction Fake.default_env Fake.scenario
  /\ (exists s e,
         toIsoOrNull (host := Fake.utc_host)
           (get (slot_of Fake.scenario) "startIso") = Some s
         /\ end_of (host := Fake.utc_host) Fake.default_env
              (slot_of Fake.scenario) s = Some e)
  /\ nonblank (get (customer_of Fake.scenario) "name")
  /\ nonblank (get (customer_of Fake.scenario) "phone")
  /\ email_shape (get (customer_of Fake.scenario) "email").
Proof.
  apply (X8_no_call_unless_valid Fake.utc_host ServerlessFunction
           Fake.default_env Fake.scenario unit
           (Fake.calendar Thrown Thrown Thrown) tt).
  vm_compute. discriminate.
Defined.

(** X9.  A booking request whose payload has no [slot] object (no body, a
    body that is not an object, [slot] absent, [null] or not an object) is
    answered 400 with [{"error": "Invalid start time."}].  One whose start
    and end are in order but that has no [customer] object is answered 400
    with [{"error": "Please provide name, phone, and a valid email."}].
    Neither makes a call. *)
Theorem X9_malformed_payload :
  forall (host : Host) (p : Endpoint) (env : Env) (req : Request),
    booking_request p env req ->
    ((forall members,
         get (or_empty_object (body req)) "slot" <> Some (JObj members)) ->
     serve p env req = Return invalid_start)
    /\ ((forall members,
            get (or_empty_object (body req)) "customer"
            <> Some (JObj members)) ->
        forall s e,
          toIsoOrNull (get (slot_of req) "startIso") = Some s ->
          end_of env (slot_of req) s = Some e ->
          serve p env req = Return invalid_customer).
Proof.
  intros host p env req Hreq. rewrite (serve_steps p env req Hreq). split.
  - intros Hslot. unfold slot_of at 1.
    rewrite (get_of_no_object _ "startIso" Hslot). reflexivity.
  - intros Hcust s e -> ->.
    rewrite (book_slot_rejected p env _ _ _ s e); [reflexivity|].
    unfold customer_of. rewrite (get_of_no_object _ "name" Hcust).
    reflexivity.
Qed.

Lemma X9_malformed_payload_witness :
  serve (host := Fake.utc_host) ExpressRoute Fake.default_env
    {| method := lit "POST"; body := None |}
  = Return invalid_start.
Proof.
  refine (proj1 (X9_malformed_payload Fake.utc_host ExpressRoute
                   Fake.default_env {| method := lit "POST"; body := None |}
                   I) _).
  intros members. discriminate.
Defined.

(** X10.  When [slot.endIso] gives an instant, that instant is the end of
    the booking, whatever [BOOKING_DURATION_MINUTES] is and whether or not
    it comes after the start: the handler goes on to the customer check
    with the start and the end as given, and it is the same handler under
    every setting of the duration. *)
Theorem X10_explicit_end :
  forall (host : Host) (p : Endpoint) (env : Env) (req : Request)
         (s e : IsoString),
    booking_request p env req ->
    toIsoOrNull (get (slot_of req) "startIso") = Some s ->
    toIsoOrNull (get (slot_of req) "endIso") = Some e ->
    serve p env req
    = try_catch
        (book_slot p env (slot_of req) (customer_of req)
           (title_of (slot_of req)) s e)
        (Return server_error)
    /\ (forall duration,
          serve p (with_duration env duration) req = serve p env req).
Proof.
  intros host p env req s e Hreq Hs He.
  assert (Hstep : forall env',
             booking_request p env' req ->
             serve p env' req
             = try_catch
                 (book_slot p env' (slot_of req) (customer_of req)
                    (title_of (slot_of req)) s e)
                 (Return server_error)).
  { intros env' Hreq'. rewrite (serve_steps p env' req Hreq'), Hs.
    unfold end_of. rewrite He. reflexivity. }
  split; [exact (Hstep env Hreq)|].
  intros duration. rewrite (Hstep env Hreq).
  rewrite (Hstep (with_duration env duration)).
  - destruct p; reflexivity.
  - destruct p; [exact I | exact Hreq].
Qed.

Lemma X10_explicit_end_witness :
  let req := Fake.post
               (JObj [(lit "startIso", Fake.str "2025-03-01T10:00:00Z");
                      (lit "endIso", Fake.str "2025-03-01T09:00:00Z")])
               Fake.jane in
  serve (host := Fake.utc_host) ExpressRoute Fake.default_env req
  = try_catch
      (book_slot (host := Fake.utc_host) ExpressRoute Fake.default_env
         (slot_of req) (customer_of req) (title_of (slot_of req))
         1740823200000 1740819600000)
      (Return server_error)
  /\ (forall duration,
        serve (host := Fake.utc_host) ExpressRoute
          (with_duration Fake.default_env duration) req
        = serve (host := Fake.utc_host) ExpressRoute Fake.default_env req).
Proof.
  intros req.
  apply (X10_explicit_end Fake.utc_host ExpressRoute Fake.default_env req
           1740823200000 1740819600000).
  - exact I.
  - vm_compute. reflexivity.
  - vm_compute. reflexivity.
Defined.

(** ** The configuration *)

Lemma missing_iff (v : option jsstring) :
  missing v = true <-> unset_or_empty v.
Proof.
  unfold unset_or_empty. destruct v as [[|c s]|]; simpl.
  - tauto.
  - split; [discriminate | intros [H|H]; discriminate H].
  - tauto.
Qed.

Lemma configured_iff (env : Env) :
  configured env = false <->
  unset_or_empty (GOOGLE_CLIENT_ID env)
  \/ unset_or_empty (GOOGLE_CLIENT_SECRET env)
  \/ unset_or_empty (GOOGLE_REDIRECT_URI env)
  \/ unset_or_empty (GOOGLE_REFRESH_TOKEN env).
Proof.
  unfold configured. rewrite negb_false_iff, !orb_true_iff, !missing_iff.
  tauto.
Qed.

(** Line 39 of [src/unnamed/part_000]. *)
Lemma serverless_not_configured {host : Host} (env : Env) (req : Request) :
  method req = lit "POST" ->
  configured env = false ->
  Serverless.handler env req = Return not_configured.
Proof.
  intros Hm Hc. unfold configured in Hc. apply negb_false_iff in Hc.
  unfold Serverless.handler. rewrite Hm. simpl jsstring_eqb. cbv iota.
  rewrite Hc. reflexivity.
Qed.

(** X11.  On the serverless handler, a [POST] request on a deployment
    where one of [GOOGLE_CLIENT_ID], [GOOGLE_CLIENT_SECRET],
    [GOOGLE_REDIRECT_URI] and [GOOGLE_REFRESH_TOKEN] is not set or is
    empty is answered 500 with [{"error": "Server not configured (missing
    Google OAuth env vars)."}], whatever the payload and without a call. *)
Theorem X11_not_configured :
  forall (host : Host) (env : Env) (req : Request),
    method req = lit "POST" ->
    unset_or_empty (GOOGLE_CLIENT_ID env)
    \/ unset_or_empty (GOOGLE_CLIENT_SECRET env)
    \/ unset_or_empty (GOOGLE_REDIRECT_URI env)
    \/ unset_or_empty (GOOGLE_REFRESH_TOKEN env) ->
    Serverless.handler env req = Return not_configured.
Proof.
  intros host env req Hm Hmissing.
  apply serverless_not_configured; [exact Hm|].
  apply configured_iff, Hmissing.
Qed.

Lemma X11_not_configured_witness :
  Serverless.handler (host := Fake.utc_host)
    {| GOOGLE_CLIENT_ID := Some (lit "client-id");
       GOOGLE_CLIENT_SECRET := Some (lit "client-secret");
       GOOGLE_REDIRECT_URI := Some [];
       GOOGLE_REFRESH_TOKEN := Some (lit "refresh-token");
       GOOGLE_CALENDAR_ID := None;
       TIMEZONE := None;
       BOOKING_DURATION_MINUTES := None;
       DELETE_AVAILABILITY := None |}
    Fake.scenario
  = Return not_configured.
Proof.
  apply (X11_not_configured Fake.utc_host).
  - reflexivity.
  - right. right. left. right. reflexivity.
Defined.

(** X12.  The Express server gets past its four [requireEnv] calls exactly
    when each of the four OAuth variables is set and not empty; and these
    are the configurations on which the serverless handler does not
    answer a [POST] with its 500 for a missing configuration. *)
Theorem X12_server_starts_iff :
  forall (host : Host) (env : Env),
    (Server.starts env = true <->
     ~ unset_or_empty (GOOGLE_CLIENT_ID env)
     /\ ~ unset_or_empty (GOOGLE_CLIENT_SECRET env)
     /\ ~ unset_or_empty (GOOGLE_REDIRECT_URI env)
     /\ ~ unset_or_empty (GOOGLE_REFRESH_TOKEN env))
    /\ (Server.starts env = false <->
        forall req, method req = lit "POST" ->
                    Serverless.handler env req = Return not_configured).
Proof.
  intros host env. rewrite starts_configured.
  pose proof (configured_iff env) as H. split.
  - destruct (configured env).
    + split; [|reflexivity].
      intros _. repeat split; intros Hu;
        assert (Hd : true = false) by (apply H; tauto); discriminate Hd.
    + split; [discriminate|].
      intros Hall. exfalso.
      assert (Hsome : unset_or_empty (GOOGLE_CLIENT_ID env)
                      \/ unset_or_empty (GOOGLE_CLIENT_SECRET env)
                      \/ unset_or_empty (GOOGLE_REDIRECT_URI env)
                      \/ unset_or_empty (GOOGLE_REFRESH_TOKEN env))
        by (apply H; reflexivity).
      tauto.
  - clear H. split.
    + intros Hc req Hm. apply serverless_not_configured; assumption.
    + intros Hall.
      destruct (configured env) eqn:Hc; [|reflexivity].
      specialize (Hall {| method := lit "POST"; body := None |} eq_refl).
      assert (Hreq : booking_request ServerlessFunction env
                       {| method := lit "POST"; body := None |})
        by (split; [reflexivity | exact Hc]).
      pose proof (serve_steps ServerlessFunction env _ Hreq) as Hstep.
      cbn [serve] in Hstep. rewrite Hall in Hstep. discriminate Hstep.
Qed.

(** ** The helpers *)

(** What [trimStart] takes off, and where it stops. *)
Lemma trimStart_spec (s : jsstring) :
  exists pre,
    s = pre ++ trimStart s
    /\ Forall (fun c => isWhiteSpace c = true) pre
    /\ (forall c r, trimStart s = c :: r -> isWhiteSpace c = false).
Proof.
  induction s as [|c s (pre & Hs & Hpre & Hhead)]; cbn [trimStart].
  - exists []. repeat split; [constructor | discriminate].
  - destruct (isWhiteSpace c) eqn:Hc.
    + exists (c :: pre). split; [cbn [app]; congruence|].
      split; [constructor; assumption | exact Hhead].
    + exists []. split; [reflexivity|]. split; [constructor|].
      intros c' r H. injection H as <- _. exact Hc.
Qed.

Lemma trimStart_blank (s : jsstring) :
  Forall (fun c => isWhiteSpace c = true) s -> trimStart s = [].
Proof.
  induction 1 as [|c s Hc _ IH]; cbn [trimStart]; [reflexivity|].
  rewrite Hc. exact IH.
Qed.

Lemma trimEnd_spec (s : jsstring) :
  exists post,
    s = trimEnd s ++ post
    /\ Forall (fun c => isWhiteSpace c = true) post
    /\ (forall r c, trimEnd s = r ++ [c] -> isWhiteSpace c = false).
Proof.
  unfold trimEnd.
  destruct (trimStart_spec (rev s)) as (pre & Hs & Hpre & Hhead).
  exists (rev pre). split; [|split].
  - rewrite <- rev_app_distr, <- Hs, rev_involutive. reflexivity.
  - apply Forall_rev. exact Hpre.
  - intros r c H. apply (Hhead c (rev r)).
    rewrite <- (rev_involutive (trimStart (rev s))), H, rev_app_distr.
    reflexivity.
Qed.

(** [s.trim()]: white space at both ends is taken off, nothing else, and
    what is left neither starts nor ends with white space. *)
Lemma trim_spec (s : jsstring) :
  exists pre post,
    s = pre ++ trim s ++ post
    /\ Forall (fun c => isWhiteSpace c = true) pre
    /\ Forall (fun c => isWhiteSpace c = true) post
    /\ (forall c r, trim s = c :: r -> isWhiteSpace c = false)
    /\ (forall r c, trim s = r ++ [c] -> isWhiteSpace c = false).
Proof.
  unfold trim.
  destruct (trimStart_spec s) as (pre & Hs & Hpre & Hhead).
  destruct (trimEnd_spec (trimStart s)) as (post & Ht & Hpost & Hlast).
  exists pre, post. split; [congruence|]. repeat split; try assumption.
  intros c r H. apply (Hhead c (r ++ post)). rewrite Ht at 1. rewrite H.
  reflexivity.
Qed.

Lemma trim_blank (s : jsstring) :
  trim s = [] <-> Forall (fun c => isWhiteSpace c = true) s.
Proof.
  split.
  - intros H. destruct (trim_spec s) as (pre & post & Hs & Hpre & Hpost & _).
    rewrite Hs, H. apply Forall_app. auto.
  - intros H. unfold trim. rewrite (trimStart_blank s H). reflexivity.
Qed.

Lemma not_blank (s : jsstring) :
  ~ Forall (fun c => isWhiteSpace c = true) s
  <-> Exists (fun c => isWhiteSpace c = false) s.
Proof.
  induction s as [|c s IH].
  - split; [intros H; exfalso; apply H; constructor | intros H; inversion H].
  - rewrite Exists_cons, <- IH. destruct (isWhiteSpace c) eqn:Hc.
    + split.
      * intros H. right. intros Hs. apply H. constructor; assumption.
      * intros [H|H] Hall; [discriminate H|].
        apply H. inversion Hall; assumption.
    + split; [auto|].
      intros _ Hall. inversion Hall; congruence.
Qed.

(** X14.  [mustString] is true exactly of the strings that have a code
    unit that is not white space: of no value that is not a string, not
    of the empty string, and not of a string of blanks, tabs, line breaks
    and the like only. *)
Theorem X14_mustString_iff :
  forall v : value,
    mustString v = true <->
    exists s, v = Some (JStr s)
              /\ Exists (fun c => isWhiteSpace c = false) s.
Proof.
  intros v. rewrite mustString_nonblank. unfold nonblank.
  split; intros (s & -> & H); exists s; (split; [reflexivity|]).
  - apply not_blank. rewrite <- trim_blank. exact H.
  - rewrite trim_blank. apply not_blank. exact H.
Qed.

(** X15.  [isEmail] is true exactly of the strings without white space
    that have one [@], with something before it and, after it, a dot with
    something on either side. *)
Theorem X15_isEmail_iff :
  forall v : value,
    isEmail v = true <->
    exists s,
      v = Some (JStr s)
      /\ Forall (fun c => isWhiteSpace c = false) s
      /\ exists loc dom,
           s = loc ++ [0x40%N] ++ dom
           /\ loc <> [] /\ ~ In 0x40%N loc /\ ~ In 0x40%N dom
           /\ exists a b, dom = a ++ [0x2E%N] ++ b /\ a <> [] /\ b <> [].
Proof.
  intros v. rewrite isEmail_shape. split.
  - intros H. assert (Hs : exists s, v = Some (JStr s)).
    { destruct H as (loc & dom & tld & -> & _). eauto. }
    destruct Hs as (s & ->). exists s. split; [reflexivity|].
    apply email_shape_reading. exact H.
  - intros (s & -> & H). apply email_shape_reading. exact H.
Qed.

(** X13.  What [toIsoOrNull] makes of a value that is not a string, as
    [new Date] reads it: [null] and [false] are the epoch and [true] is
    one millisecond after it; a Number that is a whole count of
    milliseconds is that instant when it is within 8.64e15 of the epoch
    and null beyond; an infinity or NaN is null; an object whose
    conversion throws (a member named [toString] is in the way) is null,
    the [TypeError] caught.  So a booking request whose [slot.startIso]
    is [null] or [false] is not refused with "Invalid start time.". *)
Theorem X13_toIsoOrNull_not_a_string :
  forall (host : Host),
    toIsoOrNull (Some JNull) = Some 0
    /\ toIsoOrNull (Some (JBool false)) = Some 0
    /\ toIsoOrNull (Some (JBool true)) = Some 1
    /\ (forall z, Z.abs z < 2 ^ 53 ->
                  toIsoOrNull (Some (JNum (Num.of_Z z)))
                  = if Time.maxTime <? Z.abs z then None else Some z)
    /\ (forall n, Num.is_finite n = false ->
                  toIsoOrNull (Some (JNum n)) = None)
    /\ (forall members,
           lookup (lit "toString") members <> None ->
           toIsoOrNull (Some (JObj members)) = None)
    /\ (forall p env req (World : Type) (cal : Calendar World) (w : World),
           booking_request p env req ->
           get (slot_of req) "startIso" = Some JNull
           \/ get (slot_of req) "startIso" = Some (JBool false) ->
           result_of cal (serve p env req) w <> Some invalid_start).
Proof.
  intros host.
  assert (Hnull : toIsoOrNull (Some JNull) = Some 0) by reflexivity.
  assert (Hfalse : toIsoOrNull (Some (JBool false)) = Some 0) by reflexivity.
  split; [exact Hnull|]. split; [exact Hfalse|].
  split; [vm_compute; reflexivity|].
  split; [|split; [|split]].
  - intros z Hz. unfold toIsoOrNull, new_Date, toISOString.
    rewrite (NumFacts.TimeClip_of_Z z Hz).
    destruct (Time.maxTime <? Z.abs z); reflexivity.
  - intros n Hn. unfold toIsoOrNull, new_Date, Time.TimeClip.
    rewrite Hn. reflexivity.
  - intros members Hm. unfold toIsoOrNull, new_Date. cbn [ToString].
    destruct (lookup (lit "toString") members); [reflexivity | congruence].
  - intros p env req World cal w Hreq Hstart.
    assert (Hs0 : toIsoOrNull (get (slot_of req) "startIso") = Some 0)
      by (destruct Hstart as [-> | ->]; assumption).
    unfold result_of.
    destruct (run_serve cal p env req w Hreq) as (calls & r & -> & Hs).
    cbn [snd]. unfold Served in Hs. rewrite Hs0 in Hs.
    destruct (end_of env (slot_of req) 0).
    + inversion Hs; discriminate.
    + destruct Hs as [_ ->]. discriminate.
Qed.

(** The placeholder title neither starts nor ends with white space. *)
Lemma placeholder_ends :
  (forall c r, lit "Training Session" = c :: r -> isWhiteSpace c = false)
  /\ (forall r c, lit "Training Session" = r ++ [c] -> isWhiteSpace c = false).
Proof.
  split.
  - intros c r H. injection H as <- _. reflexivity.
  - intros r c H. apply (f_equal (@rev code_unit)) in H.
    rewrite rev_app_distr in H. injection H as <- _. reflexivity.
Qed.

(** The title of an event: never empty, never with white space at either
    end, and either the placeholder or [slot.title] less the white space
    around it. *)
Lemma title_of_spec (slot : JSON) :
  title_of slot <> []
  /\ (forall c r, title_of slot = c :: r -> isWhiteSpace c = false)
  /\ (forall r c, title_of slot = r ++ [c] -> isWhiteSpace c = false)
  /\ (title_of slot = lit "Training Session"
      \/ exists raw pre post,
           get slot "title" = Some (JStr raw)
           /\ raw = pre ++ title_of slot ++ post
           /\ Forall (fun c => isWhiteSpace c = true) pre
           /\ Forall (fun c => isWhiteSpace c = true) post).
Proof.
  assert (Hplace : forall t,
             t = lit "Training Session" ->
             t <> []
             /\ (forall c r, t = c :: r -> isWhiteSpace c = false)
             /\ (forall r c, t = r ++ [c] -> isWhiteSpace c = false)).
  { intros t ->. split; [discriminate | exact placeholder_ends]. }
  unfold title_of.
  destruct (get slot "title") as [[| | |raw| |]|];
    try (destruct (Hplace _ eq_refl) as (H1 & H2 & H3);
         repeat split; solve [assumption | left; reflexivity]).
  destruct (trim_spec raw) as (pre & post & Hraw & Hpre & Hpost & Hhead & Hlast).
  destruct (trim raw) as [|c t] eqn:Ht.
  - destruct (Hplace _ eq_refl) as (H1 & H2 & H3).
    repeat split; solve [assumption | left; reflexivity].
  - split; [discriminate|]. split; [exact Hhead|]. split; [exact Hlast|].
    right. exists raw, pre, post. auto.
Qed.

(** X16.  The summary of every event a run creates is [BOOKED: ], the
    title, a space, the dash of the file, a space and [customer.name] as
    given.  The title is never empty and has no white space at either
    end: it is [Training Session], or [slot.title] with the white space
    around it taken off and nothing else changed. *)
Theorem X16_title_normalised :
  forall (host : Host) (p : Endpoint) (env : Env) (req : Request)
         (World : Type) (cal : Calendar World) (w : World)
         (q : InsertRequest) (o : Outcome (option (Reply Event))),
    In (InsertCall q o) (calls_of cal (serve p env req) w) ->
    exists t name,
      get (customer_of req) "name" = Some (JStr name)
      /\ summary q
         = lit "BOOKED: " ++ t ++ lit " " ++ dash_of p ++ lit " " ++ name
      /\ t <> []
      /\ (forall c r, t = c :: r -> isWhiteSpace c = false)
      /\ (forall r c, t = r ++ [c] -> isWhiteSpace c = false)
      /\ (t = lit "Training Session"
          \/ exists raw pre post,
               get (slot_of req) "title" = Some (JStr raw)
               /\ raw = pre ++ t ++ post
               /\ Forall (fun c => isWhiteSpace c = true) pre
               /\ Forall (fun c => isWhiteSpace c = true) post).
Proof.
  intros host p env req World cal w q o. unfold calls_of.
  destruct (run_cases p env req World cal w)
    as (calls & r & -> & [[-> _] | [_ Hs]]); cbn [fst].
  - intros [].
  - courses Hs; intros Hin; in_calls Hin;
      exists (title_of (slot_of req)); eexists;
      (split; [eassumption|]); (split; [reflexivity|]);
      apply title_of_spec.
Qed.

Lemma X16_title_normalised_witness :
  let req := Fake.post
               (JObj [(lit "title", Fake.str "  Skills clinic ");
                      (lit "startIso", Fake.str "2025-03-01T10:00:00Z")])
               Fake.jane in
  let cal := Fake.calendar (Fake.freebusy "primary" []) Fake.created_event
               (Returned tt) in
  let q := the_insert em_dash Fake.default_env Fake.jane
             (lit "Skills clinic") (lit "Jane") (lit "555-1234")
             (lit "jane@example.com") 1740823200000 1740826800000 in
  exists t name,
    get (customer_of req) "name" = Some (JStr name)
    /\ summary q
       = lit "BOOKED: " ++ t ++ lit " " ++ dash_of ServerlessFunction
         ++ lit " " ++ name
    /\ t <> []
    /\ (forall c r, t = c :: r -> isWhiteSpace c = false)
    /\ (forall r c, t = r ++ [c] -> isWhiteSpace c = false)
    /\ (t = lit "Training Session"
        \/ exists raw pre post,
             get (slot_of req) "title" = Some (JStr raw)
             /\ raw = pre ++ t ++ post
             /\ Forall (fun c => isWhiteSpace c = true) pre
             /\ Forall (fun c => isWhiteSpace c = true) post).
Proof.
  intros req cal q.
  apply (X16_title_normalised Fake.utc_host ServerlessFunction
           Fake.default_env req unit cal tt q Fake.created_event).
  vm_compute. right. left. reflexivity.
Defined.

(** ** The fallback for the end, on the local clock *)

Section LocalClock.
Context {host : Host}.
Import Time Binary64 NumFacts TimeFacts.

(** [d.setMinutes(d.getMinutes() + m)] for a whole number [m] of minutes,
    with the offset [c1] of the zone at the start and the offset [c2] at
    the local time arrived at: the local clock moves by [m] minutes, the
    instant by that and the difference of the offsets. *)
Lemma setMinutes_between_offsets (s m c1 c2 : Z) :
  Z.abs s <= maxTime ->
  Z.abs m <= 6000000000 ->
  Z.abs c1 <= msPerDay ->
  Z.abs c2 <= msPerDay ->
  LocalTZA s true = c1 ->
  LocalTZA (s + c1 + m * msPerMinute) false = c2 ->
  setMinutes (Some s) (Num.add (getMinutes (Some s)) (Num.of_Z m))
  = if maxTime <? Z.abs (s + m * msPerMinute + c1 - c2) then None
    else Some (s + m * msPerMinute + c1 - c2).
Proof.
  unfold maxTime, msPerDay. intros Hs Hm Hc1 Hc2 Hstart Hend.
  unfold setMinutes, getMinutes, LocalTime. rewrite Hstart.
  rewrite add_exact, truncate_of_Z by (apply safe_intro; lia).
  set (t := s + c1).
  pose proof (components_bounds t) as (Hh & Hmin & Hsec & Hms).
  pose proof (time_decomposition t) as Hdec.
  assert (Hday : -100000002 < Day t < 100000002).
  { unfold Day, msPerDay, t. Z.div_mod_to_equations. lia. }
  remember (Day t) as day eqn:Eday.
  remember (HourFromTime t) as h eqn:Eh.
  remember (MinFromTime t) as mi eqn:Emi.
  remember (SecFromTime t) as sec eqn:Esec.
  remember (msFromTime t) as ms eqn:Ems.
  unfold msPerDay, msPerHour, msPerMinute, msPerSecond in *.
  rewrite add_exact by (apply safe_intro; lia).
  unfold MakeTime.
  rewrite !is_finite_of_Z by (apply safe_intro; lia). cbn [andb].
  rewrite !truncate_of_Z by (apply safe_intro; lia).
  unfold msPerHour, msPerMinute, msPerSecond.
  rewrite !mul_exact by (try apply safe_intro; lia).
  rewrite !add_exact by (apply safe_intro; lia).
  unfold MakeDate.
  rewrite !is_finite_of_Z by (apply safe_intro; lia). cbn [andb].
  unfold msPerDay.
  rewrite mul_exact by (try apply safe_intro; lia).
  rewrite add_exact by (apply safe_intro; lia).
  rewrite is_finite_of_Z by (apply safe_intro; lia).
  replace (day * 86400000 + (h * 3600000 + (mi + m) * 60000 + sec * 1000 + ms))
    with (s + c1 + m * 60000) by (unfold t in Hdec; lia).
  unfold UTC.
  rewrite is_finite_of_Z, truncate_of_Z by (apply safe_intro; lia).
  rewrite Hend.
  rewrite sub_exact by (apply safe_intro; lia).
  replace (s + c1 + m * 60000 - c2) with (s + m * 60000 + c1 - c2) by lia.
  apply TimeClip_of_Z. apply safe_intro. lia.
Qed.

(** With minutes that are not finite the date becomes invalid. *)
Lemma setMinutes_not_finite (s : Z) (minutes : number) :
  Num.truthy minutes = true ->
  Num.is_finite minutes = false ->
  setMinutes (Some s) (Num.add (getMinutes (Some s)) minutes) = None.
Proof.
  intros Ht Hf. destruct minutes as [z| b | |b m e]; try discriminate.
  unfold setMinutes, getMinutes.
  pose proof (components_bounds (LocalTime s)) as (_ & Hmin & _).
  rewrite (of_Z_canonical (MinFromTime (LocalTime s)))
    by (apply safe_intro; lia).
  assert (Hadd : Num.add (canonical (MinFromTime (LocalTime s)))
                   (S754_infinity b) = S754_infinity b)
    by (destruct (MinFromTime (LocalTime s)); reflexivity).
  rewrite Hadd. unfold MakeTime. cbn [Num.is_finite].
  rewrite andb_false_r. cbn [andb]. unfold MakeDate. cbn [Num.is_finite].
  rewrite andb_false_r. reflexivity.
Qed.

End LocalClock.

(** X17.  The fallback for the end counts its minutes on the local clock
    of the process.  For a start [s] that is a time value, whole minutes
    [m] of at most 6000000000 in magnitude, the zone's offset [c1] from
    UTC at the start and its offset [c2] at the local time [m] minutes
    later: the end is [s + m * 60000 + c1 - c2], or none (the 500 of the
    catch-all follows) when that is beyond 8.64e15 from the epoch.  Where
    the offsets are equal the end is the start plus the minutes; across a
    change of the offset it is not, and nothing keeps the end after the
    start when the minutes are negative. *)
Theorem X17_fallback_end_on_local_clock :
  forall (host : Host) (duration : jsstring) (s m c1 c2 : Z),
    Z.abs s <= Time.maxTime ->
    minutes_of duration = Num.of_Z m ->
    Z.abs m <= 6000000000 ->
    Z.abs c1 <= Time.msPerDay ->
    Z.abs c2 <= Time.msPerDay ->
    LocalTZA s true = c1 ->
    LocalTZA (s + c1 + m * 60000) false = c2 ->
    fallback_end s duration
    = if Time.maxTime <? Z.abs (s + m * 60000 + c1 - c2) then None
      else Some (s + m * 60000 + c1 - c2).
Proof.
  intros host duration s m c1 c2 Hs Hmin Hm Hc1 Hc2 H1 H2.
  unfold fallback_end, new_Date_of_iso, toISOString. rewrite Hmin.
  apply (setMinutes_between_offsets s m c1 c2); assumption.
Qed.

Lemma X17_fallback_end_on_local_clock_witness :
  fallback_end (host := Fake.autumn_host 1762063200000) 1762061400000
    (lit "60")
  = Some (1762061400000 + 60 * 60000 + - 4 * 3600000 - - 5 * 3600000)
  /\ fallback_end (host := Fake.utc_host) 1740823200000 (lit "-90")
     = Some (1740823200000 + - 90 * 60000 + 0 - 0).
Proof.
  split.
  - apply (X17_fallback_end_on_local_clock (Fake.autumn_host 1762063200000)
             (lit "60") 1762061400000 60 (- 4 * 3600000) (- 5 * 3600000)).
    + vm_compute. discriminate.
    + reflexivity.
    + vm_compute. discriminate.
    + vm_compute. discriminate.
    + vm_compute. discriminate.
    + reflexivity.
    + reflexivity.
  - apply (X17_fallback_end_on_local_clock Fake.utc_host (lit "-90")
             1740823200000 (- 90) 0 0).
    + vm_compute. discriminate.
    + vm_compute. reflexivity.
    + vm_compute. discriminate.
    + vm_compute. discriminate.
    + vm_compute. discriminate.
    + reflexivity.
    + reflexivity.
Defined.

(** X18.  When [Number(BOOKING_DURATION_MINUTES)] is an infinity, the
    fallback has no end for any start on any host: [setMinutes] leaves an
    invalid date and [toISOString] throws.  Every booking request with a
    valid start and without a [slot.endIso] that parses is then answered
    500 with [{"error": "Server error creating booking."}], before the
    customer is looked at and without a call. *)
Theorem X18_unbounded_duration :
  forall (host : Host) (p : Endpoint) (env : Env) (req : Request)
         (s : IsoString),
    booking_request p env req ->
    toIsoOrNull (get (slot_of req) "startIso") = Some s ->
    toIsoOrNull (get (slot_of req) "endIso") = None ->
    Num.is_finite (minutes_of (Config.booking_duration_minutes env)) = false ->
    fallback_end s (Config.booking_duration_minutes env) = None
    /\ serve p env req = Return server_error.
Proof.
  intros host p env req s Hreq Hstart Hend Hinf.
  assert (Hfb : fallback_end s (Config.booking_duration_minutes env) = None).
  { unfold fallback_end, new_Date_of_iso, toISOString.
    apply setMinutes_not_finite; [|exact Hinf].
    unfold minutes_of, number_or in Hinf |- *.
    destruct (Num.truthy (Number (Config.booking_duration_minutes env)))
      eqn:Ht; [exact Ht|].
    discriminate Hinf. }
  split; [exact Hfb|].
  rewrite (serve_steps p env req Hreq), Hstart. unfold end_of.
  rewrite Hend, Hfb. reflexivity.
Qed.

Lemma X18_unbounded_duration_witness :
  fallback_end (host := Fake.utc_host) 1740823200000
    (Config.booking_duration_minutes (Fake.env (Some (lit "Infinity")) None))
  = None
  /\ serve (host := Fake.utc_host) ExpressRoute
       (Fake.env (Some (lit "Infinity")) None) Fake.scenario
     = Return server_error.
Proof.
  apply (X18_unbounded_duration Fake.utc_host ExpressRoute
           (Fake.env (Some (lit "Infinity")) None) Fake.scenario
           1740823200000).
  - exact I.
  - vm_compute. reflexivity.
  - vm_compute. reflexivity.
  - vm_compute. reflexivity.
Defined.

(** ** The two files side by side *)

(** X19.  The Express route and the serverless handler are the same
    booking flow.  For a request that the serverless handler takes for a
    booking request ([POST], configured), against a calendar whose answer
    to an insert does not depend on the summary of the event, the two
    give the same response and make the same calls, the summary of the
    inserted event apart (the two files differ in its dash). *)
Theorem X19_same_flow_on_both_endpoints :
  forall (host : Host) (env : Env) (req : Request)
         (World : Type) (cal : Calendar World) (w : World),
    booking_request ServerlessFunction env req ->
    ignores_summary cal ->
    result_of cal (serve ExpressRoute env req) w
    = result_of cal (serve ServerlessFunction env req) w
    /\ Forall2 same_call
         (calls_of cal (serve ExpressRoute env req) w)
         (calls_of cal (serve ServerlessFunction env req) w).
Proof.
  intros host env req World cal w Hreq Hign. unfold result_of, calls_of.
  rewrite (serve_steps ExpressRoute env req I).
  rewrite (serve_steps ServerlessFunction env req Hreq).
  destruct (toIsoOrNull (get (slot_of req) "startIso")) as [s|];
    [|split; [reflexivity | constructor]].
  destruct (end_of env (slot_of req) s) as [e|];
    [|split; [reflexivity | constructor]].
  generalize (slot_of req) (customer_of req) (title_of (slot_of req)).
  intros slot customer title.
  destruct (mustString (get customer "name") && mustString (get customer "phone")
            && isEmail (get customer "email")) eqn:Hcheck.
  2:{ rewrite !(book_slot_rejected _ env slot customer title s e Hcheck).
      split; [reflexivity | constructor]. }
  apply andb_true_iff in Hcheck as [Hcheck Ve].
  apply andb_true_iff in Hcheck as [Vn Vp].
  destruct (mustString_string _ Vn) as (name & Hn & _).
  destruct (mustString_string _ Vp) as (phone & Hp & _).
  destruct (isEmail_string _ Ve) as (email & He).
  cbn [book_slot]. unfold Server.book_slot, Serverless.book_slot.
  rewrite Vn, Vp, Ve.
  cbn [negb orb bind try_catch run freebusy_query settle].
  destruct (on_query cal _ w) as [[fb|] w1];
    cbn [bind try_catch run settle fst snd];
    [|split; [reflexivity | repeat constructor]].
  destruct (busy_of fb (Config.calendar_id env)) as [|b bs];
    [|cbn; split; [reflexivity | repeat constructor]].
  cbn [List.length Nat.ltb Nat.leb].
  rewrite Hn, Hp, He.
  cbn [template or_throw ToString bind].
  destruct (if mustString (get customer "notes")
            then
              notes <- call_trim (get customer "notes") ;;
              Return ([ lit "Booked via website"; [];
                        lit "Player: " ++ name;
                        lit "Phone: " ++ phone;
                        lit "Email: " ++ email ]
                      ++ [[]; lit "Notes:"; notes])
            else Return [ lit "Booked via website"; [];
                          lit "Player: " ++ name;
                          lit "Phone: " ++ phone;
                          lit "Email: " ++ email ])
    as [lines| | | |] eqn:Hdesc.
  2-5: destruct (get customer "notes") as [[| | |n| |]|];
       cbn [mustString call_trim bind] in Hdesc; try discriminate Hdesc;
       destruct (trim n); discriminate Hdesc.
  cbn [bind try_catch run events_insert settle].
  match goal with
  | |- context [on_insert cal ?qe w1] =>
      match goal with
      | |- context [on_insert cal ?qs w1] =>
          lazymatch qs with
          | qe => fail
          | _ =>
              assert (Hq : same_but_summary qe qs)
                by (repeat split);
              rewrite <- (Hign qe qs w1 Hq);
              destruct (on_insert cal qe w1) as [[created|] w2]
          end
      end
  end;
    cbn [bind try_catch run settle fst snd];
    [|split; [reflexivity
             | repeat constructor; cbn [same_call]; auto]].
  destruct (jsstring_eqb (Config.delete_availability env) (lit "true")
            && mustString (get slot "availabilityEventId")).
  - cbn [bind try_catch run events_delete settle].
    destruct (on_delete cal _ w2) as [[[]|] w3];
      cbn [bind try_catch run settle fst snd];
      (split; [reflexivity
              | repeat constructor; cbn [same_call]; auto]).
  - cbn [bind try_catch run fst snd].
    split; [reflexivity | repeat constructor; cbn [same_call]; auto].
Qed.

Lemma X19_same_flow_on_both_endpoints_witness :
  let cal := Fake.calendar (Fake.freebusy "primary" []) Fake.created_event
               (Returned tt) in
  result_of cal (serve (host := Fake.utc_host) ExpressRoute Fake.default_env
                   Fake.scenario) tt
  = result_of cal (serve (host := Fake.utc_host) ServerlessFunction
                     Fake.default_env Fake.scenario) tt
  /\ Forall2 same_call
       (calls_of cal (serve (host := Fake.utc_host) ExpressRoute
                        Fake.default_env Fake.scenario) tt)
       (calls_of cal (serve (host := Fake.utc_host) ServerlessFunction
                        Fake.default_env Fake.scenario) tt).
Proof.
  intros cal.
  apply (X19_same_flow_on_both_endpoints Fake.utc_host Fake.default_env
           Fake.scenario unit cal tt).
  - split; reflexivity.
  - intros q q' w _. reflexivity.
Defined.

(** X20.  What a client finds in the response.  A 200 carries
    [{ok: true, eventId, htmlLink}]; a 204 carries nothing; every other
    response carries an object with the one member [error], a string. *)
Theorem X20_response_shape :
  forall (host : Host) (p : Endpoint) (env : Env) (req : Request)
         (World : Type) (cal : Calendar World) (w : World),
    exists r,
      result_of cal (serve p env req) w = Some r
      /\ (status r = 200 -> exists created, r = success created)
      /\ (status r = 204 -> payload r = None)
      /\ (status r <> 200 -> status r <> 204 ->
          exists message, r = json (status r) (error message)).
Proof.
  intros host p env req World cal w. unfold result_of.
  destruct (run_cases p env req World cal w)
    as (calls & r & -> & [[-> Hr] | [_ Hs]]); cbn [snd]; exists r;
    (split; [reflexivity|]).
  - destruct Hr as [-> | [-> | ->]];
      (split; [discriminate|]); (split; [reflexivity || discriminate|]);
      intros H200 H204; try (exfalso; apply H204; reflexivity);
      eexists; reflexivity.
  - courses Hs;
      (split;
       [ intros H200;
         first [ discriminate H200 | eexists; reflexivity ]
       | split; [discriminate|];
         intros H200 H204; try (exfalso; apply H200; reflexivity);
         eexists; reflexivity ]).
Qed.


(* ================================================================== *)
(** * The configured duration *)
(* ================================================================== *)

Section Minutes.
Context {host : Host}.
Import Time Binary64 NumFacts TimeFacts.

(** The local time of a time value, and the minutes [getMinutes] reads. *)
Lemma LocalTime_offset (s c1 : Z) :
  Z.abs s <= maxTime -> Z.abs c1 <= msPerDay -> LocalTZA s true = c1 ->
  LocalTime s = s + c1.
Proof.
  unfold maxTime, msPerDay, LocalTime. intros Hs Hc1 ->.
  rewrite add_exact, truncate_of_Z by (apply safe_intro; lia). reflexivity.
Qed.

(** [d.setMinutes(min)] for any finite [min]: with [k] the distance from
    the minute of the start's local time to the integer part of [min],
    the local clock moves by [k] minutes, the instant by that and the
    difference of the offsets of the zone. *)
Lemma setMinutes_truncated (s k c1 c2 : Z) (min : number) :
  Z.abs s <= maxTime ->
  Z.abs k <= 6000000000 ->
  Z.abs c1 <= msPerDay ->
  Z.abs c2 <= msPerDay ->
  LocalTZA s true = c1 ->
  LocalTZA (s + c1 + k * msPerMinute) false = c2 ->
  Num.is_finite min = true ->
  Num.truncate min = MinFromTime (s + c1) + k ->
  setMinutes (Some s) min
  = if maxTime <? Z.abs (s + k * msPerMinute + c1 - c2) then None
    else Some (s + k * msPerMinute + c1 - c2).
Proof.
  intros Hs Hk Hc1 Hc2 Hstart Hend Hfin Htr.
  unfold setMinutes. rewrite (LocalTime_offset s c1 Hs Hc1 Hstart).
  unfold MakeTime. rewrite Hfin, Htr.
  unfold maxTime, msPerDay in *.
  set (t := s + c1).
  pose proof (components_bounds t) as (Hh & Hmin & Hsec & Hms).
  pose proof (time_decomposition t) as Hdec.
  assert (Hday : -100000002 < Day t < 100000002).
  { unfold Day, msPerDay, t. Z.div_mod_to_equations. lia. }
  remember (Day t) as day eqn:Eday.
  remember (HourFromTime t) as h eqn:Eh.
  remember (MinFromTime t) as mi eqn:Emi.
  remember (SecFromTime t) as sec eqn:Esec.
  remember (msFromTime t) as ms eqn:Ems.
  unfold msPerDay, msPerHour, msPerMinute, msPerSecond in *.
  rewrite !is_finite_of_Z by (apply safe_intro; lia). cbn [andb].
  rewrite !truncate_of_Z by (apply safe_intro; lia).
  rewrite !mul_exact by (try apply safe_intro; lia).
  rewrite !add_exact by (apply safe_intro; lia).
  unfold MakeDate.
  rewrite !is_finite_of_Z by (apply safe_intro; lia). cbn [andb].
  unfold msPerDay.
  rewrite mul_exact by (try apply safe_intro; lia).
  rewrite add_exact by (apply safe_intro; lia).
  rewrite is_finite_of_Z by (apply safe_intro; lia).
  replace (day * 86400000 + (h * 3600000 + (mi + k) * 60000 + sec * 1000 + ms))
    with (s + c1 + k * 60000) by (unfold t in Hdec; lia).
  unfold UTC.
  rewrite is_finite_of_Z, truncate_of_Z by (apply safe_intro; lia).
  rewrite Hend.
  rewrite sub_exact by (apply safe_intro; lia).
  replace (s + c1 + k * 60000 - c2) with (s + k * 60000 + c1 - c2) by lia.
  apply TimeClip_of_Z. apply safe_intro. lia.
Qed.

End Minutes.

(** C9.  For every [BOOKING_DURATION_MINUTES] string, with [s] a start
    that is a time value, [c1] the offset of the zone at [s] and [c2] its
    offset at the local time arrived at (both zero on a UTC host):
    - when [Number] of the string is NaN or a zero, the minutes of the
      fallback are 60 and the end it computes is [s] plus 60 minutes
      ([s + 60 * 60000 + c1 - c2]), the end computed for ["60"], so that
      either handler behaves as with the duration left at its default;
    - when [Number] of the string is another number, the minutes are that
      number: for a whole number [m] the end is [s] plus [m] minutes
      ([s + m * 60000 + c1 - c2]); in general the end is [s] plus [k]
      minutes, where [setMinutes] finds the integer part of
      [d.getMinutes() + Number(...)] at [k] from the minute of the start;
      for an infinity there is no end.
    An end beyond 8.64e15 from the epoch is none. *)
Theorem C9_duration_fallback :
  forall (host : Host) (duration : jsstring),
    (Num.truthy (Number duration) = false ->
       minutes_of duration = Num.of_Z 60
       /\ (forall s c1 c2,
             Z.abs s <= Time.maxTime ->
             Z.abs c1 <= Time.msPerDay ->
             Z.abs c2 <= Time.msPerDay ->
             LocalTZA s true = c1 ->
             LocalTZA (s + c1 + 60 * 60000) false = c2 ->
             fallback_end s duration
             = if Time.maxTime <? Z.abs (s + 60 * 60000 + c1 - c2) then None
               else Some (s + 60 * 60000 + c1 - c2))
       /\ (forall startIso,
             fallback_end startIso duration = fallback_end startIso (lit "60"))
       /\ (forall p env req,
             BOOKING_DURATION_MINUTES env = Some duration ->
             serve p env req = serve p (with_duration env None) req))
    /\ (Num.truthy (Number duration) = true ->
          minutes_of duration = Number duration
          /\ (forall s m c1 c2,
                Number duration = Num.of_Z m ->
                Z.abs s <= Time.maxTime ->
                Z.abs m <= 6000000000 ->
                Z.abs c1 <= Time.msPerDay ->
                Z.abs c2 <= Time.msPerDay ->
                LocalTZA s true = c1 ->
                LocalTZA (s + c1 + m * 60000) false = c2 ->
                fallback_end s duration
                = if Time.maxTime <? Z.abs (s + m * 60000 + c1 - c2) then None
                  else Some (s + m * 60000 + c1 - c2))
          /\ (forall s k c1 c2,
                Z.abs s <= Time.maxTime ->
                Z.abs k <= 6000000000 ->
                Z.abs c1 <= Time.msPerDay ->
                Z.abs c2 <= Time.msPerDay ->
                LocalTZA s true = c1 ->
                LocalTZA (s + c1 + k * 60000) false = c2 ->
                Num.is_finite
                  (Num.add (getMinutes (Some s)) (Number duration)) = true ->
                Num.truncate
                  (Num.add (getMinutes (Some s)) (Number duration))
                = Time.MinFromTime (s + c1) + k ->
                fallback_end s duration
                = if Time.maxTime <? Z.abs (s + k * 60000 + c1 - c2) then None
                  else Some (s + k * 60000 + c1 - c2))
          /\ (Num.is_finite (Number duration) = false ->
              forall s, fallback_end s duration = None)).
Proof.
  intros host duration. split.
  - intros Hfalsy.
    assert (Hm : minutes_of duration = Num.of_Z 60).
    { unfold minutes_of, number_or. now rewrite Hfalsy. }
    assert (Hf : forall startIso,
               fallback_end startIso duration = fallback_end startIso (lit "60")).
    { intros startIso. unfold fallback_end. rewrite Hm. reflexivity. }
    split; [exact Hm|]. split; [|split; [exact Hf|]].
    + intros s c1 c2 Hs Hc1 Hc2 H1 H2.
      unfold fallback_end, new_Date_of_iso, toISOString. rewrite Hm.
      apply (setMinutes_between_offsets s 60 c1 c2); try assumption.
      discriminate.
    + intros p env req Henv.
      destruct p; cbn [serve];
        unfold Server.post_api_book, Serverless.handler,
               Config.booking_duration_minutes;
        cbn [BOOKING_DURATION_MINUTES with_duration default
             GOOGLE_CLIENT_ID GOOGLE_CLIENT_SECRET GOOGLE_REDIRECT_URI
             GOOGLE_REFRESH_TOKEN];
        rewrite Henv; cbn [default];
        destruct (toIsoOrNull (get (or_empty_object
                    (get (or_empty_object (body req)) "slot")) "startIso"));
        rewrite ?Hf; reflexivity.
  - intros Htruthy.
    assert (Hm : minutes_of duration = Number duration).
    { unfold minutes_of, number_or. now rewrite Htruthy. }
    split; [exact Hm|]. split; [|split].
    + intros s m c1 c2 Hnum Hs Hmb Hc1 Hc2 H1 H2.
      unfold fallback_end, new_Date_of_iso, toISOString. rewrite Hm, Hnum.
      apply (setMinutes_between_offsets s m c1 c2); assumption.
    + intros s k c1 c2 Hs Hk Hc1 Hc2 H1 H2 Hfin Htr.
      unfold fallback_end, new_Date_of_iso, toISOString. rewrite Hm.
      apply (setMinutes_truncated s k c1 c2); assumption.
    + intros Hinf s.
      unfold fallback_end, new_Date_of_iso, toISOString. rewrite Hm.
      apply setMinutes_not_finite; assumption.
Qed.

Lemma C9_duration_fallback_witness :
  minutes_of (lit "soon") = Num.of_Z 60
  /\ fallback_end (host := Fake.utc_host) 1740825000000 (lit "soon")
     = Some (1740825000000 + 60 * 60000)
  /\ fallback_end (host := Fake.utc_host) 1740825000000 (lit "0")
     = Some (1740825000000 + 60 * 60000)
  /\ fallback_end (host := Fake.utc_host) 1740825000000 (lit "90")
     = Some (1740825000000 + 90 * 60000)
  /\ fallback_end (host := Fake.utc_host) 1740825000000 (lit "90.5")
     = Some (1740825000000 + 90 * 60000)
  /\ fallback_end (host := Fake.utc_host) 1740825000000 (lit "Infinity")
     = None.
Proof.
  split; [|split; [|split; [|split; [|split]]]].
  - apply (C9_duration_fallback Fake.utc_host (lit "soon")). reflexivity.
  - rewrite (proj1 (proj2 (proj1 (C9_duration_fallback Fake.utc_host
                                    (lit "soon")) eq_refl))
               1740825000000 0 0);
      first [reflexivity | vm_compute; discriminate].
  - rewrite (proj1 (proj2 (proj1 (C9_duration_fallback Fake.utc_host
                                    (lit "0")) eq_refl))
               1740825000000 0 0);
      first [reflexivity | vm_compute; discriminate].
  - rewrite (proj1 (proj2 (proj2 (C9_duration_fallback Fake.utc_host
                                    (lit "90")) eq_refl))
               1740825000000 90 0 0);
      first [reflexivity | vm_compute; discriminate].
  - rewrite (proj1 (proj2 (proj2 (proj2 (C9_duration_fallback Fake.utc_host
                                           (lit "90.5")) eq_refl)))
               1740825000000 90 0 0);
      first [reflexivity | vm_compute; discriminate | vm_compute; reflexivity].
  - apply (proj2 (proj2 (proj2 (proj2 (C9_duration_fallback Fake.utc_host
                                         (lit "Infinity")) eq_refl)))).
    reflexivity.
Defined.
